(* ===== verification/_CoqProject ===== *)
-Q . S2P
Prelude.v
JsString.v
JsValue.v
Io.v
Mcp.v
Lifecycle.v
NodeLib.v
Train.v
Binance.v
BinanceServer.v
Weather.v
Template.v
Courier.v
DevEnv.v
Servers.v
