(* ===== verification/Prelude.v ===== *)
(** * Verification of x-mcp: overview and shared prelude

    ** The program

    x-mcp is a set of independent Model Context Protocol (MCP) tool
    servers.  Each server registers a few named tools with the SDK's
    [McpServer] and answers [tools/call] requests by issuing one or two
    HTTP requests to a third-party API, reshaping the JSON answer and
    wrapping it in a [{content: [{type: "text", text}]}] envelope:
    - [src/dist/12306_tool.js]: train tickets (two POST requests, field
      renaming, seat-class translation) and the system-time tool;
    - [src/src/binance/*]: Binance market data (query builders in
      [binance_get_api.ts], tool configurations in [binance_get_tool.ts],
      their registration in [binance_server.ts], random base URL in
      [src/dist/binance/binance_config.js]);
    - [src/src/city_weather.ts]: weather by city name through a fixed
      city-code table;
    - [src/src/kuaidi100_tool.ts]: courier tracking;
    - [src/src/math_create_file.ts] and [src/src/index.ts]: Android
      code-template generation;
    - [src/src/dev_environment_tool.ts]: a start-up script that checks for
      Python and installs it.
    The servers share nothing at run time: each is a process of its own
    that talks to its client over stdio and to its upstream over HTTP.

    ** Files (in dependency order)

    - [Prelude] (this file): the string-append equations stdpp keeps
      [simpl never], the JavaScript exception type [js_error] and the
      result type [js_res] of a synchronous JavaScript computation (a
      value or a thrown exception, with stdpp's monad classes), the
      element-wise [js_map] of [Array.prototype.map], and
      [Math.floor(Math.random() * n)] as [random_index]: [Math.random()]
      is a 53-bit fraction [k / 2^53], and [random_pick_range] shows that
      every draw picks an element and every element is picked by some
      draw, for any array of at most [2^53] elements.
    - [JsString]: [toUpperCase]/[toLowerCase] (on ASCII; the symbols and
      names the code upper-cases are ASCII), [String.prototype.replace]
      with its [$] substitution patterns, [padStart], [String(n)] and a
      decimal parser for the round trips.
    - [JsValue]: JavaScript values [jsv] (undefined, null, booleans,
      integers, strings, arrays, plain objects as association lists in
      insertion order, functions by name), truthiness, [===], [String(v)],
      property reads with the [TypeError] of [undefined.k] and the
      members inherited from [Object.prototype], and
      [JSON.stringify(v, null, gap)] after ECMAScript's
      SerializeJSONProperty (members whose value is undefined are left
      out).  Numbers are integers: the code only handles codes, counts,
      prices as strings and timestamps.
    - [Io]: an awaited request, a shell command, a console write,
      [Math.random()], [Date.now()], [new Date()], a file read,
      [process.cwd()], the transport's connection and [process.exit] are
      events of a free monad [io]; [run] executes a program against an
      [oracle] answering every event and returns the trace of events with
      the outcome.  The programs are finite, so [run] is structural: there
      is no fuel.  Three predicates over programs compose along their
      structure: [io_post] (every returned value satisfies a
      postcondition), [io_total] (the program returns in every
      environment) and [io_events_le n] (at most [n] events in every
      environment, the termination measure of a handler; the [io_bound]
      tactic follows a program with the bounds of its sub-programs).
    - [Mcp]: what the servers need of [@modelcontextprotocol/sdk] (outside
      the repository, written from section 4.1 of the spec): the answer
      envelope, the zod object parse (unknown keys stripped, absent
      optional fields left out), and a tool registry behind the class
      [ToolHost] with its laws [ToolHostLaws]; [call_tool] parses the
      arguments and turns a thrown exception into an [isError] result.
      The clients' lemmas ([register_all_ok], [call_tool_parsed],
      [call_tool_invalid], [call_tool_no_schema]) use only the laws; the
      instance [assoc_host] (tools in registration order) discharges them.
      [call_tool_total] and [call_tool_events_le]: a call always returns
      and issues no more events than its handler.
    - [Lifecycle]: the [McpServer] object as the servers use it (library
      code written from its behaviour): [serverInfo] versus [options],
      [registerTool] and [registerResource] with their duplicate checks
      and the capability they register, [connect], [close],
      [process.exit], and the [initialize] answer; [step] is the state
      machine of these operations.  [init], [main] and [main().catch],
      written the same way in every server file, are [init], [main] and
      [main_catch]; [server_wf] is the registry invariant (unique names
      and URIs, registered kinds announced) with its preservation by
      each registration and by every step ([reachable_wf], by induction
      on [rtc step]).  C33: a failed connection logs the error and exits
      with code 1.
    - [NodeLib]: [Buffer.prototype.toString("base64")] and POSIX
      [path.resolve] (library code, from their documentation), with the
      decoding round trip of base64.
    - [Train] ([src/dist/12306_tool.js]): [handleGetHuochepiaoList] as an
      [io] program (validation, the User-Agent draw, the code request, the
      early return on a code other than 200, [Date.now()], the console
      log, the search request), [searchResult], [convertFieldNames],
      [convertSeatName], [handleGetSystemTime] and the two registered
      tools.  Theorems C1-C11: on string arguments the handler does
      nothing but answer the incomplete-parameters error exactly when one
      of them is empty (C1), and through the registry a call is refused
      naming the first member that is not a string, or else answered that
      way exactly when one is empty (C11); exactly two requests in order
      (C2), one request on a failed code lookup (C3), an unresolved
      station is not detected: the search request is sent anyway, its
      JSON body without [arrStation] (C4), the seat table (C5), the
      conversion of one train
      (C6), the success and error answers (C7, C8), the printed time
      parses back to the date (C9) and the User-Agent range (C10).  The
      exported descriptors [GET_HUOCHEPIAO_LIST] and [GET_SYSTIME] carry
      a JSON-Schema [inputSchema] ([Mcp.schema_valid] gives its meaning);
      C27 shows each accepts exactly what the zod shape the tool is
      registered with parses (an equivalence of the two contracts).
    - [Binance] ([src/src/binance/*], [binance_config.js]): [getBaseUrl],
      [axiosBinanceGet] and every query builder as [io] programs, the
      eight tool configurations and [registerBinanceGetTool].  Theorems
      C12-C18: the base-URL range (C12), case-insensitivity of the
      eleven builders that upper-case the symbol (C13) and its absence
      in the three ticker builders (C14), the limit defaults (C15), the
      JSON text of a symbol list (C16), the registration of the eight
      tools and the required symbol of [binanceTicker24hr] (C17), a
      whole [getCryptoPrice] call (C18), the truthy optional members of
      [aggTrades] and [klines] (C30).  [JsValue.parse_stringify_strings]
      reads the JSON text of a symbol list back.
    - [BinanceServer] ([src/src/binance/binance_server.ts]): the
      [McpServer] argument (with its misspelled [ddescription]), the
      registrations in order and the [financial-pdf] resource, whose read
      callback resolves its path against [process.cwd()], reads the file
      and answers it base64-encoded; C34: the file read and the answer
      ([NodeLib.Base64.base64_decode_encode] reads the blob back).
    - [Weather] ([src/src/city_weather.ts]): the registered
      [get_weather_by_city] callback as an [io] program, with the table
      read [cityCodeMap[city]] as a JavaScript property read (so the
      members of [Object.prototype] are found) and [weatherResult] for
      the part after the request.  Theorems C19-C22: one request and the
      seven forecast lines for every city of the table (C19), the
      "not supported" text with no request for other names (C20), the
      inherited names that pass the check and reach the network (C21),
      and the failure answers (C22).
    - [Template] ([src/src/math_create_file.ts], [src/src/index.ts]):
      [DEFAULT_TEMPLATES] byte for byte (checked against the source), the
      handler with its defaults, derived names, file paths and chains of
      global [replace] calls, and the registration with an empty shape.
      [JsString] proves that a global [replace] of [{{n}}] on a text
      split into literal pieces and placeholders ([tseg]) fills exactly
      the placeholders named [n]; from it, C23 shows the chain of
      [replace] calls equals filling all placeholders at once
      ([fill_template], the reference), C24 that the layout keeps
      [{{PACKAGE}}], and C25 that the registered tool ignores its
      arguments.
    - [Courier] ([src/src/kuaidi100_tool.ts]): [httpGet] and the
      [query_trace] callback, registered without a schema because its
      shape is not made of zod types; C26 shows every call through the
      SDK fails with a [TypeError] before any request, and
      [query_trace_request] what the callback does when it does receive
      [args].
    - [DevEnv] ([src/src/dev_environment_tool.ts]): the start-up script
      over shell-command events, with the platform as a parameter; C28:
      an installation command runs if and only if both version checks
      fail on macOS or Linux; C29: what is logged when Python is found;
      C31: the exact shell commands per platform when it is not ([brew],
      [apt-get] when [which apt-get] finds it and [yum] otherwise, none on
      Windows and other platforms).
    Each server file also holds its [McpServer] argument ([*_info]), its
    top level ([*_boot], the registrations on a new server) and its
    [main().catch] ([*_main]).
    - [Servers]: what holds of all servers together: C32, every answer of
      the weather, template, train and system-time handlers is a list of
      text blocks (from the [io_post] lemma of each handler); C35, every
      server boots without error into a reachable lifecycle state with
      exactly its tools and serves once connected; C36, no server's
      [instructions] reach the client, since they are passed as
      [serverInfo]; C37, the event bound of every tool handler (five for
      the train search, two for each Binance tool, one for weather,
      system time and courier, none for the template tool).

    ** Bounds

    Integers are unbounded [Z]: the code does no arithmetic that could
    overflow a double on the values it handles except the [Math.random()]
    scaling, which is modelled exactly (53-bit fractions, arrays of at
    most [2^53] elements).  [JSON.stringify] is structural recursion on
    the value.  The only fuel is that of [Template.parse_tpl], which
    splits a template for the proofs: each step consumes a character, so
    the length of the text is enough, and [templates_segs] checks that
    the split renders back to each template.  Strings are byte strings
    (UTF-8 bytes); [toUpperCase], [toLowerCase] and [trim] act on ASCII,
    which is what the code applies them to (symbols, component names,
    version strings).

    ** Not modelled

    The stdio transport and JSON-RPC framing of the SDK and its
    list-changed notifications, the commented-out tools of the weather
    and courier servers, [binance_sign.ts] (an HMAC call, never used),
    the generated [.d.ts] files and the compiled copies of TypeScript
    sources under [src/dist] (the same logic as the modelled sources), and
    the test drivers (no assertions).  [console.error("...", error)]
    prints an [Error] with its stack; the model logs its message.  Text that only a
    client reads (titles, descriptions) is not modelled, except where a
    finding compares it with the code.
*)

From stdpp Require Export base list strings decidable sets.
From Stdlib Require Export ZArith Lia.
From Stdlib Require Export Ascii String DecimalString DecimalNat DecimalN DecimalZ.
From stdpp Require Export strings.

Declare Scope js_scope.
Delimit Scope js_scope with js.
Open Scope string_scope.

Create HintDb xmcp discriminated.
Create Rewrite HintDb xmcp_rw.

(** ** String concatenation

    stdpp declares [String.append] [simpl never]; these equations are the
    ones [simpl] would use. *)

Lemma str_app_nil_l t : "" +:+ t = t.
Proof. reflexivity. Qed.

Lemma str_app_cons c s t : String c s +:+ t = String c (s +:+ t).
Proof. reflexivity. Qed.

Lemma str_app_nil_r s : s +:+ "" = s.
Proof. induction s as [|c s IH]; [done|]. by rewrite str_app_cons, IH. Qed.

Lemma str_app_assoc s t u : s +:+ (t +:+ u) = (s +:+ t) +:+ u.
Proof. induction s as [|c s IH]; [done|]. by rewrite !str_app_cons, IH. Qed.

Lemma str_app_length s t : String.length (s +:+ t) = String.length s + String.length t.
Proof. induction s as [|c s IH]; [done|]. rewrite str_app_cons. simpl. by rewrite IH. Qed.

#[export] Hint Rewrite str_app_nil_l str_app_cons str_app_nil_r : xmcp_rw.

(** Normalise with the development's rewrite database. *)
Ltac js_simpl := repeat (progress (simpl in *; autorewrite with xmcp_rw in *)).

(** ** Results of JavaScript evaluation

    A JavaScript expression either yields a value or throws.  The
    handlers of the program never catch (except [httpGet] of the courier
    server, which rethrows), so a thrown error propagates to the SDK. *)

Inductive js_error : Type :=
  | TypeError (msg : string)        (** property read of undefined/null, call of a non-function *)
  | NetworkError (msg : string)     (** a rejected [fetch] / [axios] promise *)
  | Rejected (reason : string).     (** an explicit [reject(...)] / [throw] *)

#[global] Instance js_error_eq_dec : EqDecision js_error.
Proof. solve_decision. Defined.

Inductive js_res (A : Type) : Type :=
  | JOk (a : A)
  | JThrow (e : js_error).
Arguments JOk {A} a.
Arguments JThrow {A} e.

#[global] Instance js_res_ret : MRet js_res := λ A a, JOk a.
#[global] Instance js_res_bind : MBind js_res :=
  λ A B f m, match m with JOk a => f a | JThrow e => JThrow e end.
#[global] Instance js_res_fmap : FMap js_res :=
  λ A B f m, match m with JOk a => JOk (f a) | JThrow e => JThrow e end.

Lemma js_bind_ok {A B} (a : A) (f : A → js_res B) : (JOk a ≫= f) = f a.
Proof. reflexivity. Qed.

Lemma js_bind_throw {A B} (e : js_error) (f : A → js_res B) : (JThrow e ≫= f) = JThrow e.
Proof. reflexivity. Qed.

Lemma js_bind_ok_inv {A B} (m : js_res A) (f : A → js_res B) (b : B) :
  (m ≫= f) = JOk b → ∃ a, m = JOk a ∧ f a = JOk b.
Proof. destruct m; simpl; [eauto | discriminate]. Qed.

(** [js_post P r]: the value [r] returns, if any, satisfies [P]. *)
Definition js_post {A} (P : A → Prop) (r : js_res A) : Prop :=
  match r with JOk a => P a | JThrow _ => True end.

Lemma js_post_bind {A B} (P : B → Prop) (m : js_res A) (f : A → js_res B) :
  (∀ a, js_post P (f a)) → js_post P (m ≫= f).
Proof. destruct m; simpl; auto. Qed.

Lemma js_post_bind_eq {A B} (P : B → Prop) (m : js_res A) (f : A → js_res B) :
  (∀ a, m = JOk a → js_post P (f a)) → js_post P (m ≫= f).
Proof. destruct m; simpl; auto. Qed.

Lemma js_post_ok {A} (P : A → Prop) a : P a → js_post P (JOk a).
Proof. done. Qed.

(** Take apart the hypotheses [x ← m; f x = JOk v] of a computation that
    returned. *)
Ltac js_inv :=
  repeat match goal with
  | H : mbind _ _ = JOk _ |- _ =>
      let a := fresh "a" in let Ha := fresh "Ha" in
      apply js_bind_ok_inv in H as (a & Ha & H)
  | H : JOk _ = JOk _ |- _ => injection H; clear H; intros
  | H : JThrow _ = JOk _ |- _ => discriminate H
  end.

#[export] Hint Rewrite @js_bind_ok @js_bind_throw : xmcp_rw.

(** [Array.prototype.map] with a callback that may throw: the first
    throwing element aborts the whole map. *)
Fixpoint js_map {A B} (f : A → js_res B) (l : list A) : js_res (list B) :=
  match l with
  | [] => JOk []
  | x :: l' => y ← f x; ys ← js_map f l'; JOk (y :: ys)
  end.

Lemma js_map_ok_length {A B} (f : A → js_res B) l ys :
  js_map f l = JOk ys → length ys = length l.
Proof.
  revert ys; induction l as [|x l IH]; intros ys H; simpl in H.
  - by injection H as <-.
  - destruct (f x); [|discriminate]. simpl in H.
    destruct (js_map f l) eqn:E; [|discriminate]. simpl in H.
    injection H as <-. simpl. f_equal. by apply IH.
Qed.

Lemma js_map_total {A B} (f : A → B) l : js_map (λ x, JOk (f x)) l = JOk (map f l).
Proof. induction l as [|x l IH]; simpl; [done|]. by rewrite IH. Qed.

Lemma js_map_Forall2 {A B} (f : A → js_res B) l ys :
  js_map f l = JOk ys → Forall2 (λ x y, f x = JOk y) l ys.
Proof.
  revert ys; induction l as [|x l IH]; intros ys H; simpl in H.
  - injection H as <-. constructor.
  - destruct (f x) eqn:Ef; [|discriminate]. simpl in H.
    destruct (js_map f l) eqn:E; [|discriminate]. simpl in H.
    injection H as <-. constructor; [done|]. by apply IH.
Qed.

(** ** [Math.floor(Math.random() * n)]

    [Math.random()] returns a double [k / 2^53] with [0 <= k < 2^53]
    (V8 draws 52 or 53 random mantissa bits).  The product with a small
    array length is computed here exactly; the rounding of the double
    product is not modelled (for the lengths 6 and 10 of the program it
    cannot reach the next integer). *)

Definition random_bits : Z := 53.

Definition valid_random (k : Z) : Prop := (0 ≤ k < 2 ^ random_bits)%Z.

#[global] Instance valid_random_dec k : Decision (valid_random k).
Proof. unfold valid_random. apply _. Defined.

Definition random_index (k : Z) (n : nat) : nat :=
  Z.to_nat ((k * Z.of_nat n) / 2 ^ random_bits)%Z.

Lemma random_index_lt k n : valid_random k → 0 < n → random_index k n < n.
Proof.
  unfold valid_random, random_index, random_bits. intros [Hk0 Hk1] Hn.
  assert (0 ≤ k * Z.of_nat n / 2 ^ 53 < Z.of_nat n)%Z as Hb.
  { split; [apply Z.div_pos; lia|].
    apply Z.div_lt_upper_bound; nia. }
  lia.
Qed.

(** Every index is reachable: the choice covers the whole array. *)
Lemma random_index_surj n i :
  i < n → (Z.of_nat n ≤ 2 ^ random_bits)%Z →
  ∃ k, valid_random k ∧ random_index k n = i.
Proof.
  intros Hi Hn. unfold valid_random, random_index, random_bits in *.
  set (N := Z.of_nat n). set (I := Z.of_nat i).
  assert (0 < N)%Z by lia. assert (I < N)%Z by lia. assert (0 ≤ I)%Z by lia.
  exists ((I * 2 ^ 53 + N - 1) / N)%Z.
  set (k := ((I * 2 ^ 53 + N - 1) / N)%Z).
  assert (Hk : (N * k ≤ I * 2 ^ 53 + N - 1 < N * k + N)%Z).
  { pose proof (Z.mod_pos_bound (I * 2 ^ 53 + N - 1) N).
    pose proof (Z.div_mod (I * 2 ^ 53 + N - 1) N). lia. }
  split.
  - split; [apply Z.div_pos; lia|]. nia.
  - assert (k * N / 2 ^ 53 = I)%Z as ->; [|lia].
    symmetry. apply Z.div_unique with (k * N - I * 2 ^ 53)%Z; [left|]; nia.
Qed.

(** [arr[Math.floor(Math.random() * arr.length)]]; [None] is [undefined]. *)
Definition random_pick {A} (l : list A) (k : Z) : option A := nth_error l (random_index k (length l)).

(** [arr[i]] for an index in range. *)
Lemma nth_error_random_index {A} (l : list A) k :
  valid_random k → l ≠ [] → ∃ x, nth_error l (random_index k (length l)) = Some x.
Proof.
  intros Hk Hl. destruct (nth_error l _) as [x|] eqn:E; [by eauto|].
  apply nth_error_None in E. destruct l; [done|].
  pose proof (random_index_lt k (length (a :: l)) Hk). simpl in *. lia.
Qed.

(** The random pick over a non-empty array always yields one of its
    elements, and every element is yielded for some value of
    [Math.random()]. *)
Lemma random_pick_range {A} (l : list A) :
  l ≠ [] → (Z.of_nat (length l) ≤ 2 ^ random_bits)%Z →
  (∀ k, valid_random k → ∃ x, random_pick l k = Some x ∧ In x l) ∧
  (∀ x, In x l → ∃ k, valid_random k ∧ random_pick l k = Some x).
Proof.
  intros Hne Hlen. split.
  - intros k Hk. destruct (nth_error_random_index l k Hk Hne) as [x Hx].
    exists x. split; [done|]. by eapply nth_error_In.
  - intros x Hin. apply In_nth_error in Hin as [i Hi].
    assert (i < length l) by (apply nth_error_Some; congruence).
    destruct (random_index_surj (length l) i) as (k & Hk & Hki); [done|done|].
    exists k. split; [done|]. unfold random_pick. by rewrite Hki.
Qed.
