(* ===== verification/JsString.v ===== *)
(** * JavaScript string operations used by the program

    Strings are [String.string], i.e. the UTF-8 bytes of the JavaScript
    string.  The program applies these operations to ASCII input (package
    and component names, Binance symbols, digits) or passes non-ASCII
    text (Chinese labels) through unchanged, so byte-wise definitions
    agree with the UTF-16 ones of the engine on every input the theorems
    use.  What is not modelled: case mapping of non-ASCII letters (JS maps
    e.g. "é" to "É"; the bytes here are left unchanged).

    Holds: [String.prototype.toUpperCase]/[toLowerCase] (ASCII),
    [String.prototype.replace] with a global literal pattern and the
    replacement-string patterns [$$], [$&], [$`], [$'] (ECMAScript
    GetSubstitution), [padStart] with a one-character filler, [String(n)]
    for integers and its inverse, [includes]. *)

From S2P Require Import Prelude.

Module JsString.

(** ** Case mapping *)

Definition ascii_upper (c : ascii) : ascii :=
  let n := nat_of_ascii c in
  if Nat.leb 97 n && Nat.leb n 122 then ascii_of_nat (n - 32) else c.

Definition ascii_lower (c : ascii) : ascii :=
  let n := nat_of_ascii c in
  if Nat.leb 65 n && Nat.leb n 90 then ascii_of_nat (n + 32) else c.

Fixpoint map_chars (f : ascii → ascii) (s : string) : string :=
  match s with
  | EmptyString => EmptyString
  | String c s' => String (f c) (map_chars f s')
  end.

(** [s.toUpperCase()] and [s.toLowerCase()] *)
Definition toUpperCase (s : string) : string := map_chars ascii_upper s.
Definition toLowerCase (s : string) : string := map_chars ascii_lower s.

(** ** [s.replace(/pat/g, rep)]

    ECMAScript GetSubstitution for a pattern without capture groups: in
    the replacement string [$$] stands for [$], [$&] for the matched text,
    [$`] for the part of the subject before the match and [$'] for the
    part after it; any other [$] is literal. *)
Fixpoint get_substitution (rep matched before after : string) : string :=
  match rep with
  | EmptyString => EmptyString
  | String "$"%char (String "$"%char r) => String "$"%char (get_substitution r matched before after)
  | String "$"%char (String "&"%char r) => matched +:+ get_substitution r matched before after
  | String "$"%char (String "`"%char r) => before +:+ get_substitution r matched before after
  | String "$"%char (String "'"%char r) => after +:+ get_substitution r matched before after
  | String c r => String c (get_substitution r matched before after)
  end.

(** The scan of [RegExp.prototype[@@replace]] for a global regex that is a
    literal [pat]: left to right, non-overlapping.  [before] is the part
    of the subject already scanned, [skip] the number of characters of the
    current match still to be consumed. *)
Fixpoint replace_go (pat rep before : string) (skip : nat) (s : string) : string :=
  match s with
  | EmptyString => EmptyString
  | String c s' =>
      match skip with
      | S k => replace_go pat rep (before +:+ String c EmptyString) k s'
      | O =>
          if String.prefix pat s then
            get_substitution rep pat before (substring (String.length pat) (String.length s) s)
            +:+ replace_go pat rep (before +:+ String c EmptyString) (String.length pat - 1) s'
          else String c (replace_go pat rep (before +:+ String c EmptyString) 0 s')
      end
  end.

Definition replace_all (s pat rep : string) : string := replace_go pat rep "" 0 s.

(** [s.includes(t)] *)
Fixpoint includes (s t : string) : bool :=
  match s with
  | EmptyString => String.prefix t s
  | String _ s' => String.prefix t s || includes s' t
  end.

(** ** Numbers as decimal strings *)

(** [String(n)] / template-literal interpolation of an integer *)
Definition string_of_Z (n : Z) : string := NilEmpty.string_of_int (Z.to_int n).

(** Decimal digits of a natural number, as [String(n)] prints it. *)
Definition string_of_N (n : N) : string := NilEmpty.string_of_uint (N.to_uint n).

(** Parsing back a string of decimal digits. *)
Definition parse_N (s : string) : option N := N.of_uint <$> NilEmpty.uint_of_string s.
Definition parse_Z (s : string) : option Z := Z.of_int <$> NilEmpty.int_of_string s.

(** [c.repeat(n)] for a one-character string [c] *)
Fixpoint repeat_char (n : nat) (c : ascii) : string :=
  match n with
  | O => EmptyString
  | S n' => String c (repeat_char n' c)
  end.

(** [s.padStart(n, c)] for a one-character filler [c]: the filler is
    repeated [n - s.length] times in front of [s]. *)
Definition padStart (n : nat) (c : ascii) (s : string) : string :=
  if Nat.leb n (String.length s) then s
  else repeat_char (n - String.length s) c +:+ s.

(** ** Lemmas *)

Lemma map_chars_length f s : String.length (map_chars f s) = String.length s.
Proof. induction s; simpl; auto. Qed.

Lemma map_chars_compose f g s : map_chars f (map_chars g s) = map_chars (λ c, f (g c)) s.
Proof. induction s; simpl; congruence. Qed.

Lemma map_chars_ext f g s : (∀ c, f c = g c) → map_chars f s = map_chars g s.
Proof. intros H. induction s; simpl; congruence. Qed.

Lemma map_chars_id f s : (∀ c, f c = c) → map_chars f s = s.
Proof. intros H. induction s; simpl; congruence. Qed.

(** Case mapping is decided on the 256 byte values. *)
Ltac by_bytes c := destruct c as [[] [] [] [] [] [] [] []]; reflexivity.

Lemma ascii_upper_idem c : ascii_upper (ascii_upper c) = ascii_upper c.
Proof. by_bytes c. Qed.

Lemma ascii_upper_lower c : ascii_upper (ascii_lower c) = ascii_upper c.
Proof. by_bytes c. Qed.

Lemma ascii_lower_upper c : ascii_lower (ascii_upper c) = ascii_lower c.
Proof. by_bytes c. Qed.

Lemma ascii_lower_idem c : ascii_lower (ascii_lower c) = ascii_lower c.
Proof. by_bytes c. Qed.

Lemma toUpperCase_idem s : toUpperCase (toUpperCase s) = toUpperCase s.
Proof. unfold toUpperCase. rewrite map_chars_compose. apply map_chars_ext, ascii_upper_idem. Qed.

(** Upper-casing forgets the case of the input. *)
Lemma toUpperCase_toLowerCase s : toUpperCase (toLowerCase s) = toUpperCase s.
Proof. unfold toUpperCase, toLowerCase. rewrite map_chars_compose. apply map_chars_ext, ascii_upper_lower. Qed.

Lemma toLowerCase_toUpperCase s : toLowerCase (toUpperCase s) = toLowerCase s.
Proof. unfold toUpperCase, toLowerCase. rewrite map_chars_compose. apply map_chars_ext, ascii_lower_upper. Qed.

Lemma toLowerCase_idem s : toLowerCase (toLowerCase s) = toLowerCase s.
Proof. unfold toLowerCase. rewrite map_chars_compose. apply map_chars_ext, ascii_lower_idem. Qed.

Lemma toUpperCase_app s t : toUpperCase (s +:+ t) = toUpperCase s +:+ toUpperCase t.
Proof. unfold toUpperCase. induction s; js_simpl; congruence. Qed.

Lemma toLowerCase_app s t : toLowerCase (s +:+ t) = toLowerCase s +:+ toLowerCase t.
Proof. unfold toLowerCase. induction s; js_simpl; congruence. Qed.

#[export] Hint Rewrite toUpperCase_idem toUpperCase_toLowerCase toLowerCase_toUpperCase
  toLowerCase_idem toUpperCase_app toLowerCase_app : xmcp_rw.

(** A replacement without [$] is inserted verbatim. *)
Fixpoint has_dollar (s : string) : bool :=
  match s with
  | EmptyString => false
  | String c s' => Ascii.eqb c "$"%char || has_dollar s'
  end.

Lemma get_substitution_other c r m b a : c ≠ "$"%char →
  get_substitution (String c r) m b a = String c (get_substitution r m b a).
Proof. intros H. destruct c as [[] [] [] [] [] [] [] []]; try reflexivity. congruence. Qed.

Lemma get_substitution_plain rep m b a : has_dollar rep = false → get_substitution rep m b a = rep.
Proof.
  induction rep as [|c r IH]; [done|]. intros H. simpl in H.
  apply orb_false_iff in H as [Hc Hr].
  destruct (Ascii.eqb_spec c "$"%char) as [->|Hne]; [discriminate|].
  rewrite get_substitution_other by done. by rewrite IH.
Qed.

(** When the pattern does not occur, [replace] returns the subject. *)
Lemma replace_go_no_match pat rep before s :
  pat ≠ "" → includes s pat = false → replace_go pat rep before 0 s = s.
Proof.
  intros Hp. revert before. induction s as [|c s IH]; intros before H; [done|].
  simpl in H |- *. apply orb_false_iff in H as [H1 H2].
  rewrite H1. f_equal. by apply IH.
Qed.

Lemma replace_all_no_match s pat rep :
  pat ≠ "" → includes s pat = false → replace_all s pat rep = s.
Proof. apply replace_go_no_match. Qed.

Lemma parse_string_of_N n : parse_N (string_of_N n) = Some n.
Proof.
  unfold parse_N, string_of_N. rewrite NilEmpty.usu. simpl.
  by rewrite DecimalN.Unsigned.of_to.
Qed.

Lemma parse_string_of_Z n : parse_Z (string_of_Z n) = Some n.
Proof.
  unfold parse_Z, string_of_Z. rewrite NilEmpty.isi. simpl.
  by rewrite DecimalZ.of_to.
Qed.

Lemma string_of_N_inj n m : string_of_N n = string_of_N m → n = m.
Proof.
  intros H. apply (f_equal parse_N) in H. rewrite !parse_string_of_N in H. congruence.
Qed.

Lemma repeat_char_length n c : String.length (repeat_char n c) = n.
Proof. induction n; simpl; auto. Qed.

Lemma padStart_length n c s : String.length (padStart n c s) = Nat.max n (String.length s).
Proof.
  unfold padStart. destruct (Nat.leb_spec n (String.length s)); [lia|].
  rewrite str_app_length, repeat_char_length. lia.
Qed.

(** ** [s.trim()] on ASCII white space (tab, line feed, vertical tab,
    form feed, carriage return, space) *)

Definition is_space (c : ascii) : bool :=
  let n := nat_of_ascii c in (Nat.leb 9 n && Nat.leb n 13) || Nat.eqb n 32.

Fixpoint trim_start (s : string) : string :=
  match s with
  | EmptyString => EmptyString
  | String c s' => if is_space c then trim_start s' else s
  end.

Fixpoint trim_end (s : string) : string :=
  match s with
  | EmptyString => EmptyString
  | String c s' =>
      let r := trim_end s' in
      if String.eqb r "" && is_space c then EmptyString else String c r
  end.

Definition trim (s : string) : string := trim_end (trim_start s).

(** ** Templates with [{{NAME}}] placeholders

    A global [replace] of a placeholder [{{n}}] in a text made of literal
    pieces and placeholders fills exactly the placeholders named [n],
    provided no literal piece starts a ["{{"] (every ["{"] of it is
    followed, within the piece, by another character), the names have no
    braces, and the replacement has neither a ["{{"] nor a ["$"]. *)

Definition placeholder (n : string) : string := "{{" +:+ n +:+ "}}".

Fixpoint brace_free (s : string) : bool :=
  match s with
  | EmptyString => true
  | String c s' =>
      (if Ascii.eqb c "{"%char then
         match s' with String c' _ => negb (Ascii.eqb c' "{"%char) | EmptyString => false end
       else true) && brace_free s'
  end.

Fixpoint no_braces (s : string) : bool :=
  match s with
  | EmptyString => true
  | String c s' => negb (Ascii.eqb c "{"%char) && negb (Ascii.eqb c "}"%char) && no_braces s'
  end.

Inductive tseg : Type := TLit (s : string) | THole (n : string).

Definition render_seg (t : tseg) : string :=
  match t with TLit s => s | THole n => placeholder n end.

Definition render (ts : list tseg) : string := foldr (λ t acc, render_seg t +:+ acc) "" ts.

Definition seg_ok (t : tseg) : bool :=
  match t with TLit s => brace_free s | THole n => no_braces n end.

Definition fill_hole (n v : string) (t : tseg) : tseg :=
  match t with THole m => if String.eqb m n then TLit v else t | TLit _ => t end.

Lemma str_app_single_cons b c u : (b +:+ String c "") +:+ u = b +:+ String c u.
Proof. by rewrite <- str_app_assoc. Qed.

Lemma replace_go_skip pat rep b u y :
  replace_go pat rep b (String.length u) (u +:+ y) = replace_go pat rep (b +:+ u) 0 y.
Proof.
  revert b. induction u as [|c u IH]; intros b; [by rewrite str_app_nil_r|].
  rewrite str_app_cons. cbn [String.length replace_go]. by rewrite IH, str_app_single_cons.
Qed.

Lemma prefix_self_app p y : String.prefix p (p +:+ y) = true.
Proof.
  induction p as [|c p IH]; [by destruct y|]. rewrite str_app_cons. simpl.
  by destruct (ascii_dec c c).
Qed.

Lemma replace_go_match pat rep b y :
  pat ≠ "" → has_dollar rep = false →
  replace_go pat rep b 0 (pat +:+ y) = rep +:+ replace_go pat rep (b +:+ pat) 0 y.
Proof.
  intros Hp Hd. destruct pat as [|c p]; [done|]. rewrite str_app_cons. cbn [replace_go].
  rewrite <- str_app_cons, prefix_self_app, get_substitution_plain by done.
  cbn [String.length Nat.sub]. rewrite ?Nat.sub_0_r, replace_go_skip. by rewrite str_app_single_cons.
Qed.

Lemma replace_go_lit p rep b x y :
  brace_free x = true →
  replace_go (String "{" (String "{" p)) rep b 0 (x +:+ y)
  = x +:+ replace_go (String "{" (String "{" p)) rep (b +:+ x) 0 y.
Proof.
  revert b. induction x as [|c x IH]; intros b Hx; [by rewrite str_app_nil_r|].
  simpl in Hx. apply andb_true_iff in Hx as [Hc Hx].
  rewrite !str_app_cons. cbn [replace_go].
  assert (Hpre : String.prefix (String "{" (String "{" p)) (String c (x +:+ y)) = false).
  { cbn [String.prefix]. destruct (ascii_dec "{" c) as [<-|]; [|done]. destruct x as [|c' x]; [done|].
    rewrite str_app_cons. cbn [String.prefix]. simpl in Hc.
    destruct (ascii_dec "{" c') as [<-|]; [done|reflexivity]. }
  rewrite Hpre, IH by done. by rewrite str_app_single_cons.
Qed.

Lemma brace_free_app a b : no_braces a = true → brace_free b = true → brace_free (a +:+ b) = true.
Proof.
  induction a as [|c a IH]; intros Ha Hb; [done|]. rewrite str_app_cons.
  simpl in Ha |- *. apply andb_true_iff in Ha as [[Hl _]%andb_true_iff Ha].
  apply negb_true_iff in Hl. rewrite Hl. simpl. by apply IH.
Qed.

(** A placeholder without its first brace starts no ["{{"]. *)
Lemma brace_free_hole_tail m : no_braces m = true → brace_free (String "{" (m +:+ "}}")) = true.
Proof.
  intros Hm. cbn [brace_free]. rewrite brace_free_app by done. rewrite andb_true_r. simpl.
  destruct m as [|c m]; [done|]. rewrite str_app_cons.
  simpl in Hm. apply andb_true_iff in Hm as [[Hl _]%andb_true_iff _]. done.
Qed.

Lemma prefix_holes n m y :
  no_braces n = true → no_braces m = true →
  String.prefix (n +:+ "}}") (m +:+ ("}}" +:+ y)) = true → n = m.
Proof.
  revert m. induction n as [|c n IH]; intros [|c' m] Hn Hm H; try done.
  - autorewrite with xmcp_rw in H. cbn [String.prefix] in H.
    simpl in Hm. destruct (ascii_dec "}" c') as [<-|]; [|done]. by rewrite andb_false_r in Hm.
  - autorewrite with xmcp_rw in H. cbn [String.prefix] in H.
    simpl in Hn. destruct (ascii_dec c "}") as [->|]; [|done]. by rewrite andb_false_r in Hn.
  - rewrite !str_app_cons in H. cbn [String.prefix] in H. simpl in Hn, Hm.
    apply andb_true_iff in Hn as [_ Hn], Hm as [_ Hm].
    destruct (ascii_dec c c') as [<-|]; [|done]. f_equal. by apply IH.
Qed.

Lemma placeholder_eq n : placeholder n = String "{" (String "{" (n +:+ "}}")).
Proof. reflexivity. Qed.

Lemma str_app_assoc3 a b c : a +:+ (b +:+ c) = (a +:+ b) +:+ c.
Proof. apply str_app_assoc. Qed.

(** One step of the scan where the pattern does not start. *)
Lemma replace_go_step pat rep b c s :
  String.prefix pat (String c s) = false →
  replace_go pat rep b 0 (String c s) = String c (replace_go pat rep (b +:+ String c "") 0 s).
Proof. intros H. cbn [replace_go]. by rewrite H. Qed.

(** Another placeholder is left as it is. *)
Lemma replace_go_other_hole n m rep b y :
  no_braces n = true → no_braces m = true → n ≠ m →
  replace_go (placeholder n) rep b 0 (placeholder m +:+ y)
  = placeholder m +:+ replace_go (placeholder n) rep (b +:+ placeholder m) 0 y.
Proof.
  intros Hn Hm Hne. rewrite (placeholder_eq n).
  assert (Hm' : placeholder m +:+ y = String "{" (String "{" (m +:+ "}}") +:+ y)) by reflexivity.
  rewrite Hm', replace_go_step.
  - rewrite replace_go_lit by (by apply brace_free_hole_tail). by rewrite str_app_single_cons.
  - rewrite str_app_cons. cbn [String.prefix]. destruct (ascii_dec "{" "{"); [|done].
    destruct (String.prefix (n +:+ "}}") _) eqn:E; [|done].
    rewrite <- str_app_assoc3 in E. by apply prefix_holes in E.
Qed.

(** The placeholder itself is replaced. *)
Lemma replace_go_hole n rep b y :
  has_dollar rep = false →
  replace_go (placeholder n) rep b 0 (placeholder n +:+ y)
  = rep +:+ replace_go (placeholder n) rep (b +:+ placeholder n) 0 y.
Proof. intros Hd. by apply replace_go_match. Qed.

Lemma seg_ok_fill n v ts :
  brace_free v = true → forallb seg_ok ts = true → forallb seg_ok (map (fill_hole n v) ts) = true.
Proof.
  intros Hv. induction ts as [|[s|m] ts IH]; [done| |]; simpl; intros [Ht Hts]%andb_true_iff.
  - rewrite Ht. by apply IH.
  - destruct (String.eqb m n); simpl; [rewrite Hv|rewrite Ht]; by apply IH.
Qed.

(** A global [replace] of [{{n}}] fills the placeholders named [n]. *)
Lemma replace_render n v b ts :
  no_braces n = true → has_dollar v = false → forallb seg_ok ts = true →
  replace_go (placeholder n) v b 0 (render ts) = render (map (fill_hole n v) ts).
Proof.
  intros Hn Hv. revert b. induction ts as [|[s|m] ts IH]; intros b Hts; [by destruct b|..];
    simpl in Hts; apply andb_true_iff in Hts as [Ht Hts]; cbn [render foldr map fill_hole render_seg];
    fold (render ts); fold (render (map (fill_hole n v) ts)).
  - rewrite placeholder_eq, replace_go_lit, <- placeholder_eq by done. by rewrite IH.
  - destruct (String.eqb_spec m n) as [->|Hne]; cbn [render_seg].
    + rewrite replace_go_hole by done. by rewrite IH.
    + rewrite replace_go_other_hole by done. by rewrite IH.
Qed.

Lemma replace_all_render n v ts :
  no_braces n = true → has_dollar v = false → forallb seg_ok ts = true →
  replace_all (render ts) (placeholder n) v = render (map (fill_hole n v) ts).
Proof. apply replace_render. Qed.

Lemma has_dollar_app a b : has_dollar (a +:+ b) = has_dollar a || has_dollar b.
Proof. induction a as [|c a IH]; [done|]. rewrite str_app_cons. simpl. by rewrite IH, orb_assoc. Qed.

Lemma no_braces_app a b : no_braces (a +:+ b) = no_braces a && no_braces b.
Proof. induction a as [|c a IH]; [done|]. rewrite str_app_cons. simpl. by rewrite IH, !andb_assoc. Qed.

Lemma no_braces_brace_free s : no_braces s = true → brace_free s = true.
Proof. intros H. rewrite <- (str_app_nil_r s). by apply brace_free_app. Qed.

Lemma ascii_lower_dollar c : Ascii.eqb (ascii_lower c) "$"%char = Ascii.eqb c "$"%char.
Proof. by_bytes c. Qed.

Lemma ascii_lower_braces c :
  negb (Ascii.eqb (ascii_lower c) "{"%char) && negb (Ascii.eqb (ascii_lower c) "}"%char)
  = negb (Ascii.eqb c "{"%char) && negb (Ascii.eqb c "}"%char).
Proof. by_bytes c. Qed.

Lemma has_dollar_toLowerCase s : has_dollar (toLowerCase s) = has_dollar s.
Proof. induction s as [|c s IH]; [done|]. simpl. fold (toLowerCase s). by rewrite IH, ascii_lower_dollar. Qed.

Lemma no_braces_toLowerCase s : no_braces (toLowerCase s) = no_braces s.
Proof. induction s as [|c s IH]; [done|]. simpl. fold (toLowerCase s). by rewrite IH, ascii_lower_braces. Qed.

#[export] Hint Rewrite has_dollar_app no_braces_app has_dollar_toLowerCase no_braces_toLowerCase : xmcp_rw.

Lemma includes_app_r x y t : includes y t = true → includes (x +:+ y) t = true.
Proof.
  induction x as [|c x IH]; intros H; [done|]. rewrite str_app_cons. simpl.
  by rewrite IH, orb_true_r.
Qed.

Lemma includes_prefix t z : includes (t +:+ z) t = true.
Proof.
  destruct t as [|c t]; [by destruct z|]. rewrite str_app_cons. cbn [includes].
  by rewrite <- str_app_cons, prefix_self_app.
Qed.

(** A placeholder left unfilled is still in the text. *)
Lemma includes_render n ts :
  In (THole n) ts → includes (render ts) (placeholder n) = true.
Proof.
  induction ts as [|t ts IH]; intros H; [done|]. destruct H as [->|H].
  - apply includes_prefix.
  - cbn [render foldr]. apply includes_app_r. by apply IH.
Qed.

End JsString.
