(* ===== verification/JsValue.v ===== *)
(** * JavaScript values as the handlers see them

    The handlers receive parsed JSON from the upstream APIs and build
    object literals for their answers.  [jsv] is the part of the
    JavaScript value space they touch: [undefined], [null], booleans,
    numbers, strings, arrays, plain objects (their own enumerable
    properties, in enumeration order) and the built-in functions found on
    [Object.prototype].

    Holds: truthiness, strict equality [===], [String(v)] (template
    interpolation), ToNumber with the relational [>] and the loose [==]
    against a number, property read [v.k] and index read [v[i]] (both
    throw a [TypeError] on [undefined] / [null]), optional-chained
    [v?.map(f)], and [JSON.stringify(v, null, gap)].

    Modelling choices: numbers are integers ([Z]); NaN, infinities and
    fractional numbers are outside the model (a string that is not an
    integer literal converts to NaN here).  Two objects or arrays are never
    [===]: every object the handlers compare comes from a separate
    [JSON.parse] node.  Strings are UTF-8 bytes; [length] and indexing of
    strings count bytes, which agrees with JavaScript on ASCII strings. *)

From S2P Require Import Prelude JsString.
Import JsString.

Module JsValue.

#[local] Set Warnings "-register-all".
Inductive jsv : Type :=
  | JUndef
  | JNull
  | JBool (b : bool)
  | JNum (n : Z)
  | JStr (s : string)
  | JArr (l : list jsv)
  | JObj (fs : list (string * jsv))
  | JFun (name : string).

(** [if (v)] *)
Definition truthy (v : jsv) : bool :=
  match v with
  | JUndef | JNull => false
  | JBool b => b
  | JNum n => negb (Z.eqb n 0)
  | JStr s => negb (String.eqb s "")
  | JArr _ | JObj _ | JFun _ => true
  end.

(** [a || b] and [a && b] return one of their operands. *)
Definition js_or (a b : jsv) : jsv := if truthy a then a else b.
Definition js_and (a b : jsv) : jsv := if truthy a then b else a.

(** [a === b] *)
Definition strict_eq (a b : jsv) : bool :=
  match a, b with
  | JUndef, JUndef | JNull, JNull => true
  | JBool x, JBool y => Bool.eqb x y
  | JNum x, JNum y => Z.eqb x y
  | JStr x, JStr y => String.eqb x y
  | JFun x, JFun y => String.eqb x y
  | _, _ => false
  end.

(** The members every plain object inherits from [Object.prototype]. *)
Definition object_prototype_members : list string :=
  ["constructor"; "hasOwnProperty"; "isPrototypeOf"; "propertyIsEnumerable";
   "toLocaleString"; "toString"; "valueOf"; "__defineGetter__";
   "__defineSetter__"; "__lookupGetter__"; "__lookupSetter__"].

(** Reading a key that is not an own property. *)
Definition inherited (k : string) : jsv :=
  if String.eqb k "__proto__" then JObj []
  else if existsb (String.eqb k) object_prototype_members then JFun k
  else JUndef.

Fixpoint assoc (k : string) (fs : list (string * jsv)) : option jsv :=
  match fs with
  | [] => None
  | (k', v) :: fs' => if String.eqb k k' then Some v else assoc k fs'
  end.

Definition read_error (what k : string) : js_error :=
  TypeError ("Cannot read properties of " +:+ what +:+ " (reading '" +:+ k +:+ "')").

(** [v.k] *)
Definition get (v : jsv) (k : string) : js_res jsv :=
  match v with
  | JUndef => JThrow (read_error "undefined" k)
  | JNull => JThrow (read_error "null" k)
  | JObj fs => JOk (match assoc k fs with Some x => x | None => inherited k end)
  | JArr l =>
      if String.eqb k "length" then JOk (JNum (Z.of_nat (length l)))
      else match parse_N k with
           | Some i => JOk (default JUndef (nth_error l (N.to_nat i)))
           | None => JOk (inherited k)
           end
  | JStr s =>
      if String.eqb k "length" then JOk (JNum (Z.of_nat (String.length s)))
      else match parse_N k with
           | Some i => JOk (match String.get (N.to_nat i) s with
                            | Some c => JStr (String c EmptyString) | None => JUndef end)
           | None => JOk (inherited k)
           end
  | JBool _ | JNum _ | JFun _ => JOk (inherited k)
  end.

(** [v[i]] for a numeric index *)
Definition index (v : jsv) (i : nat) : js_res jsv := get v (string_of_N (N.of_nat i)).

(** [String(v)] *)
Fixpoint to_string (v : jsv) : string :=
  match v with
  | JUndef => "undefined"
  | JNull => "null"
  | JBool b => if b then "true" else "false"
  | JNum n => string_of_Z n
  | JStr s => s
  | JArr l =>
      (fix join (l : list jsv) : string :=
         match l with
         | [] => ""
         | x :: l' =>
             let ex := match x with JUndef | JNull => "" | _ => to_string x end in
             match l' with [] => ex | _ => ex +:+ "," +:+ join l' end
         end) l
  | JObj _ => "[object Object]"
  | JFun name => "function " +:+ name +:+ "() { [native code] }"
  end.

(** ToNumber of a string: an optionally signed decimal integer, or the
    empty string (which is 0).  [None] is NaN. *)
Definition string_to_number (s : string) : option Z :=
  if String.eqb s "" then Some 0%Z else parse_Z s.

(** ToNumber (after ToPrimitive for objects and arrays) *)
Definition to_number (v : jsv) : option Z :=
  match v with
  | JUndef => None
  | JNull => Some 0%Z
  | JBool b => Some (if b then 1 else 0)%Z
  | JNum n => Some n
  | _ => string_to_number (to_string v)
  end.

(** [v > n] for a number literal [n] *)
Definition gt_num (v : jsv) (n : Z) : bool :=
  match to_number v with Some x => Z.ltb n x | None => false end.

(** [v == n] for a number literal [n] ([null] and [undefined] are only
    loosely equal to each other) *)
Definition loose_eq_num (v : jsv) (n : Z) : bool :=
  match v with
  | JUndef | JNull => false
  | _ => match to_number v with Some x => Z.eqb x n | None => false end
  end.

(** [v?.map(f)]: [undefined] when [v] is nullish, a [TypeError] when [v]
    has no [map] method (a JSON value other than an array). *)
Definition opt_map (v : jsv) (f : jsv → js_res jsv) : js_res jsv :=
  match v with
  | JUndef | JNull => JOk JUndef
  | JArr l => JArr <$> js_map f l
  | _ => JThrow (TypeError "map is not a function")
  end.

(** [v.toUpperCase()] / [v.toLowerCase()]: a string method; reading it
    on [undefined]/[null] or calling it on a value without it throws. *)
Definition call_string_method (name : string) (f : string → string) (v : jsv) : js_res jsv :=
  match v with
  | JStr s => JOk (JStr (f s))
  | JUndef => JThrow (read_error "undefined" name)
  | JNull => JThrow (read_error "null" name)
  | _ => JThrow (TypeError (name +:+ " is not a function"))
  end.

Definition call_toUpperCase (v : jsv) : js_res jsv := call_string_method "toUpperCase" toUpperCase v.
Definition call_toLowerCase (v : jsv) : js_res jsv := call_string_method "toLowerCase" toLowerCase v.

(** [a ?? b] *)
Definition nullish_or (a b : jsv) : jsv :=
  match a with JUndef | JNull => b | _ => a end.

(** [o?.k] *)
Definition opt_get (o : jsv) (k : string) : js_res jsv :=
  match o with JUndef | JNull => JOk JUndef | _ => get o k end.

(** The members [...(v && { k: v })] adds to an object literal: none
    when [v] is falsy (spreading a primitive adds nothing). *)
Definition spread_truthy (k : string) (v : jsv) : list (string * jsv) :=
  if truthy v then [(k, v)] else [].

(** ** [JSON.stringify(v, null, gap)] (ECMAScript SerializeJSONProperty) *)

Definition nl : string := String (ascii_of_nat 10) EmptyString.

(** The double-quote character (34). *)
Definition dquote : ascii := ascii_of_nat 34.
Definition dq : string := String dquote EmptyString.

Definition hex_digit (n : nat) : ascii :=
  if Nat.ltb n 10 then ascii_of_nat (48 + n) else ascii_of_nat (87 + n).

(** QuoteJSONString, one byte *)
Definition quote_char (c : ascii) : string :=
  let n := nat_of_ascii c in
  if Nat.eqb n 8 then "\b"
  else if Nat.eqb n 9 then "\t"
  else if Nat.eqb n 10 then "\n"
  else if Nat.eqb n 12 then "\f"
  else if Nat.eqb n 13 then "\r"
  else if Nat.eqb n 34 then String "\"%char (String dquote EmptyString)
  else if Nat.eqb n 92 then "\\"
  else if Nat.ltb n 32 then
    "\u00" +:+ String (hex_digit (n / 16)) (String (hex_digit (n mod 16)) EmptyString)
  else String c EmptyString.

Fixpoint quote_body (s : string) : string :=
  match s with
  | EmptyString => EmptyString
  | String c s' => quote_char c +:+ quote_body s'
  end.

Definition quote (s : string) : string :=
  String dquote (quote_body s +:+ String dquote EmptyString).

Fixpoint join (sep : string) (l : list string) : string :=
  match l with
  | [] => ""
  | [x] => x
  | x :: l' => x +:+ sep +:+ join sep l'
  end.

(** The bracketing of SerializeJSONObject / SerializeJSONArray. *)
Definition wrap (op cl gap stepback indent : string) (items : list string) : string :=
  match items with
  | [] => op +:+ cl
  | _ =>
      if String.eqb gap "" then op +:+ join "," items +:+ cl
      else op +:+ nl +:+ indent +:+ join ("," +:+ nl +:+ indent) items +:+ nl +:+ stepback +:+ cl
  end.

Fixpoint serialize (gap indent : string) (v : jsv) {struct v} : option string :=
  match v with
  | JUndef | JFun _ => None
  | JNull => Some "null"
  | JBool b => Some (if b then "true" else "false")
  | JNum n => Some (string_of_Z n)
  | JStr s => Some (quote s)
  | JArr l =>
      Some (wrap "[" "]" gap indent (indent +:+ gap)
        ((fix items (l : list jsv) : list string :=
            match l with
            | [] => []
            | x :: l' => default "null" (serialize gap (indent +:+ gap) x) :: items l'
            end) l))
  | JObj fs =>
      Some (wrap "{" "}" gap indent (indent +:+ gap)
        ((fix members (fs : list (string * jsv)) : list string :=
            match fs with
            | [] => []
            | (k, x) :: fs' =>
                match serialize gap (indent +:+ gap) x with
                | Some sx => (quote k +:+ ":" +:+ (if String.eqb gap "" then "" else " ") +:+ sx) :: members fs'
                | None => members fs'
                end
            end) fs))
  end.

(** [JSON.stringify(v)]; [None] is the value [undefined]. *)
Definition stringify (v : jsv) : option string := serialize "" "" v.

(** [JSON.stringify(v, null, 2)] *)
Definition stringify_indent2 (v : jsv) : option string := serialize "  " "" v.

(** The string a template or a [text:] field receives: [undefined] when
    [JSON.stringify] returns [undefined]. *)
Definition stringify_value (v : jsv) : jsv :=
  match stringify v with Some s => JStr s | None => JUndef end.

(** ** [JSON.parse] of an array of strings

    The part of [JSON.parse] that reads what [JSON.stringify] writes for
    an array of strings: the one-letter escapes of the double quote, the
    backslash, the slash, b, f, n, r and t, and the escapes u00XX.
    Escapes of code points above 0xff are not read (they are not
    produced). *)

Definition hex_val (c : ascii) : option nat :=
  let n := nat_of_ascii c in
  if Nat.leb 48 n && Nat.leb n 57 then Some (n - 48)
  else if Nat.leb 97 n && Nat.leb n 102 then Some (n - 87)
  else if Nat.leb 65 n && Nat.leb n 70 then Some (n - 55)
  else None.

Definition backslash : ascii := ascii_of_nat 92.

(** The character a one-letter escape stands for. *)
Definition unescape (e : ascii) : option ascii :=
  let n := nat_of_ascii e in
  if Nat.eqb n 34 then Some dquote
  else if Nat.eqb n 92 then Some backslash
  else if Nat.eqb n 47 then Some "/"%char
  else if Nat.eqb n 98 then Some (ascii_of_nat 8)
  else if Nat.eqb n 102 then Some (ascii_of_nat 12)
  else if Nat.eqb n 110 then Some (ascii_of_nat 10)
  else if Nat.eqb n 114 then Some (ascii_of_nat 13)
  else if Nat.eqb n 116 then Some (ascii_of_nat 9)
  else None.

Definition cons_fst (c : ascii) (r : option (string * string)) : option (string * string) :=
  match r with Some (x, rest) => Some (String c x, rest) | None => None end.

(** The body of a JSON string up to its closing quote, and what follows. *)
Fixpoint unquote_body (s : string) : option (string * string) :=
  match s with
  | EmptyString => None
  | String c s' =>
      if Ascii.eqb c dquote then Some ("", s')
      else if Ascii.eqb c backslash then
        match s' with
        | String "u" (String h1 (String h2 (String h3 (String h4 rest)))) =>
            match hex_val h1, hex_val h2, hex_val h3, hex_val h4 with
            | Some 0, Some 0, Some d3, Some d4 => cons_fst (ascii_of_nat (16 * d3 + d4)) (unquote_body rest)
            | _, _, _, _ => None
            end
        | String e rest =>
            match unescape e with Some c' => cons_fst c' (unquote_body rest) | None => None end
        | EmptyString => None
        end
      else if Nat.ltb (nat_of_ascii c) 32 then None
      else cons_fst c (unquote_body s')
  end.

Fixpoint parse_items (fuel : nat) (s : string) : option (list string) :=
  match fuel, s with
  | S f, String c r =>
      if Ascii.eqb c dquote then
        match unquote_body r with
        | Some (x, String "," rest) => xs ← parse_items f rest; Some (x :: xs)
        | Some (x, String "]" EmptyString) => Some [x]
        | _ => None
        end
      else None
  | _, _ => None
  end.

(** [JSON.parse(s)] when [s] is an array of strings. *)
Definition parse_string_array (s : string) : option (list string) :=
  match s with
  | String "[" r => if String.eqb r "]" then Some [] else parse_items (String.length r) r
  | _ => None
  end.

(** ** Lemmas *)

(** The value of [o.k] for a plain object [o]. *)
Definition field (fs : list (string * jsv)) (k : string) : jsv :=
  match assoc k fs with Some x => x | None => inherited k end.

Lemma get_obj fs k : get (JObj fs) k = JOk (field fs k).
Proof. reflexivity. Qed.

Lemma assoc_not_in fs k : k ∉ fs.*1 → assoc k fs = None.
Proof.
  induction fs as [|[k' v] fs IH]; intros Hk; [done|]. simpl in *.
  destruct (String.eqb_spec k k'); [set_solver|]. apply IH. set_solver.
Qed.

(** A key that is not an own property reads the inherited member. *)
Lemma field_not_in fs k : k ∉ fs.*1 → field fs k = inherited k.
Proof. intros Hk. unfold field. by rewrite assoc_not_in. Qed.

Lemma get_nullish v k : (v = JUndef ∨ v = JNull) → ∃ msg, get v k = JThrow (TypeError msg).
Proof. intros [-> | ->]; eexists; reflexivity. Qed.

Lemma strict_eq_str v s : strict_eq v (JStr s) = true ↔ v = JStr s.
Proof.
  destruct v; simpl; split; try discriminate; try congruence.
  - by intros ->%String.eqb_eq.
  - intros [= ->]. apply String.eqb_refl.
Qed.

Lemma strict_eq_num v n : strict_eq v (JNum n) = true ↔ v = JNum n.
Proof.
  destruct v; simpl; split; try discriminate; try congruence.
  - by intros ->%Z.eqb_eq.
  - intros [= ->]. apply Z.eqb_refl.
Qed.

Lemma strict_eq_sym a b : strict_eq a b = strict_eq b a.
Proof.
  destruct a, b; simpl; try reflexivity;
    [by destruct b, b0 | apply Z.eqb_sym | apply String.eqb_sym | apply String.eqb_sym].
Qed.

(** [JSON.stringify] of an object or array is always a string. *)
Lemma serialize_obj gap indent fs : ∃ s, serialize gap indent (JObj fs) = Some s.
Proof. eexists. reflexivity. Qed.

Lemma serialize_arr gap indent l : ∃ s, serialize gap indent (JArr l) = Some s.
Proof. eexists. reflexivity. Qed.

(** [JSON.stringify] of an array of strings: the quoted strings,
    comma-separated, in brackets ([[]] for the empty array). *)
Lemma stringify_strings l :
  stringify (JArr (map JStr l)) = Some ("[" +:+ join "," (map quote l) +:+ "]").
Proof.
  unfold stringify. cbn [serialize].
  match goal with |- Some (wrap _ _ _ _ _ ?its) = _ => replace its with (map quote l) end.
  - by destruct l.
  - induction l as [|x l IH]; [done|]. cbn [map]. f_equal. exact IH.
Qed.

Lemma unquote_quote_char c t :
  unquote_body (quote_char c +:+ t) = cons_fst c (unquote_body t).
Proof. destruct c as [[] [] [] [] [] [] [] []]; reflexivity. Qed.

Lemma unquote_quote_body x rest :
  unquote_body (quote_body x +:+ String dquote rest) = Some (x, rest).
Proof.
  induction x as [|c x IH]; [reflexivity|]. cbn [quote_body].
  by rewrite <- str_app_assoc, unquote_quote_char, IH.
Qed.

Lemma quote_app x r : quote x +:+ r = String dquote (quote_body x +:+ String dquote r).
Proof. unfold quote. rewrite str_app_cons, <- str_app_assoc. reflexivity. Qed.

Lemma join_cons2 sep a b l : join sep (a :: b :: l) = a +:+ sep +:+ join sep (b :: l).
Proof. reflexivity. Qed.

Lemma parse_items_quoted f x l :
  (length l < f)%nat →
  parse_items f (join "," (map quote (x :: l)) +:+ "]") = Some (x :: l).
Proof.
  revert f x. induction l as [|y l IH]; intros [|f] x Hf; try lia.
  - cbn [map join]. rewrite quote_app. cbn [parse_items]. rewrite Ascii.eqb_refl, unquote_quote_body.
    reflexivity.
  - cbn [map]. rewrite (join_cons2 "," (quote x) (quote y) (map quote l)).
    change (join "," (quote y :: map quote l)) with (join "," (map quote (y :: l))).
    rewrite <- !str_app_assoc, quote_app. cbn [parse_items].
    rewrite Ascii.eqb_refl, unquote_quote_body. rewrite str_app_cons, str_app_nil_l.
    rewrite IH by (simpl in Hf; lia). reflexivity.
Qed.

Lemma quote_length x : String.length (quote x) = S (S (String.length (quote_body x))).
Proof. unfold quote. cbn [String.length]. rewrite str_app_length. simpl. lia. Qed.

Lemma join_quote_length x l : (S (length l) ≤ String.length (join "," (map quote (x :: l))))%nat.
Proof.
  revert x. induction l as [|y l IH]; intros x.
  - cbn [map join length]. rewrite quote_length. lia.
  - cbn [map]. rewrite (join_cons2 "," (quote x) (quote y) (map quote l)).
    change (join "," (quote y :: map quote l)) with (join "," (map quote (y :: l))).
    rewrite !str_app_length, quote_length. specialize (IH y). cbn [length] in IH |- *. lia.
Qed.

(** [JSON.parse] reads back the array of strings [JSON.stringify] wrote. *)
Lemma parse_stringify_strings l :
  parse_string_array ("[" +:+ join "," (map quote l) +:+ "]") = Some l.
Proof.
  destruct l as [|x l]; [reflexivity|].
  change ("[" +:+ join "," (map quote (x :: l)) +:+ "]")
    with (String "[" (join "," (map quote (x :: l)) +:+ "]")).
  cbn [parse_string_array].
  destruct (String.eqb_spec (join "," (map quote (x :: l)) +:+ "]") "]") as [E|_].
  - apply (f_equal String.length) in E. rewrite str_app_length in E.
    pose proof (join_quote_length x l). change (String.length "]") with 1 in E. lia.
  - apply parse_items_quoted. rewrite str_app_length. pose proof (join_quote_length x l). lia.
Qed.

(** [JSON.stringify] returns a string for every value but [undefined]
    and functions. *)
Lemma serialize_some gap indent v :
  v ≠ JUndef → (∀ n, v ≠ JFun n) → ∃ s, serialize gap indent v = Some s.
Proof. intros Hu Hf. destruct v; [done| | | | | | |by destruct (Hf name)]; eexists; reflexivity. Qed.

Lemma opt_map_arr l f : opt_map (JArr l) f = JArr <$> js_map f l.
Proof. reflexivity. Qed.

Lemma call_toUpperCase_toLowerCase s :
  call_toUpperCase (JStr (toLowerCase s)) = call_toUpperCase (JStr s).
Proof. unfold call_toUpperCase. simpl. by rewrite toUpperCase_toLowerCase. Qed.

#[export] Hint Rewrite get_obj opt_map_arr call_toUpperCase_toLowerCase : xmcp_rw.

End JsValue.
