(* ===== verification/Io.v ===== *)
(** * Effects: the outbound requests of a handler, in order

    A handler is an [async] function that awaits outbound requests
    ([fetch], [axios.get], [child_process.exec]) and writes to the console.
    It is modelled as a finite program [io A] that either returns, throws,
    or issues an event and continues with the answer (a free monad; each
    handler awaits a bounded number of requests, so the type is
    inductive).  [run] executes a program against an oracle that answers
    every event (the upstream API, the shell, the console) and returns the
    trace of events issued, in order, with the outcome.  The continuation
    of an event receives the answer or the rejection ([NetworkError]);
    [fetch] rethrows it, as an [await] of a rejected promise does, and
    [io_catch] models a [try]/[catch] around a program.

    [request] records what the code sends: method, URL, headers and the
    payload object (the [params] object of an [axios.get], the object a
    [fetch] body is [JSON.stringify] of). *)

From S2P Require Import Prelude JsString JsValue.
Import JsValue.

Module Io.

Record request : Type := mk_request {
  req_method : string;
  req_url : string;
  req_headers : list (string * string);
  req_payload : jsv
}.

(** The answer of [child_process.exec]: [err] set or not, [stdout], [stderr]. *)
Record exec_result : Type := mk_exec_result {
  exec_failed : bool;
  exec_stdout : string;
  exec_stderr : string
}.

(** The local-time fields of [new Date()]: [getFullYear()], [getMonth()]
    (0-based), [getDate()], [getHours()], [getMinutes()], [getSeconds()]. *)
Record local_date : Type := mk_date {
  year : N; month : nat; day : nat; hours : nat; minutes : nat; seconds : nat
}.

Inductive event : Type :=
  | EvFetch (r : request)     (** await an HTTP request; the answer is the parsed JSON body *)
  | EvExec (cmd : string)     (** run a shell command; the answer is its callback arguments *)
  | EvLog (msg : string)      (** [console.log] / [console.error] *)
  | EvRandom                  (** [Math.random()]; the answer [k] stands for [k / 2^53] *)
  | EvNow                     (** [Date.now()], in milliseconds *)
  | EvLocalDate               (** [new Date()] read through its local-time getters *)
  | EvReadFile (path : string) (** [fs.promises.readFile(path)]; the answer is the file's bytes *)
  | EvCwd                     (** [process.cwd()], read by [path.resolve] *)
  | EvConnect                 (** [server.connect(transport)] of the stdio transport *)
  | EvExit (code : Z).        (** [process.exit(code)] *)

Definition answer (e : event) : Type :=
  match e with
  | EvFetch _ => jsv
  | EvExec _ => exec_result
  | EvLog _ => unit
  | EvRandom | EvNow => Z
  | EvLocalDate => local_date
  | EvReadFile _ => list Byte.byte
  | EvCwd => string
  | EvConnect | EvExit _ => unit
  end.

Inductive io (A : Type) : Type :=
  | IoRet (a : A)
  | IoThrow (err : js_error)
  | IoCall (e : event) (k : js_res (answer e) → io A).
Arguments IoRet {A} a.
Arguments IoThrow {A} err.
Arguments IoCall {A} e k.

Fixpoint io_bind {A B} (m : io A) (f : A → io B) : io B :=
  match m with
  | IoRet a => f a
  | IoThrow err => IoThrow err
  | IoCall e k => IoCall e (λ x, io_bind (k x) f)
  end.

#[global] Instance io_ret_inst : MRet io := λ A a, IoRet a.
#[global] Instance io_bind_inst : MBind io := λ A B f m, io_bind m f.
#[global] Instance io_fmap_inst : FMap io := λ A B f m, io_bind m (λ a, IoRet (f a)).

(** A synchronous JavaScript computation inside a handler. *)
Definition lift {A} (m : js_res A) : io A :=
  match m with JOk a => IoRet a | JThrow e => IoThrow e end.

(** [await] of an event: its answer, or its rejection rethrown. *)
Definition fetch (r : request) : io jsv := IoCall (EvFetch r) lift.
Definition exec (cmd : string) : io exec_result := IoCall (EvExec cmd) lift.
Definition log (msg : string) : io unit := IoCall (EvLog msg) lift.
Definition math_random : io Z := IoCall EvRandom lift.
Definition date_now : io Z := IoCall EvNow lift.
Definition new_date : io local_date := IoCall EvLocalDate lift.
Definition read_file (path : string) : io (list Byte.byte) := IoCall (EvReadFile path) lift.
Definition process_cwd : io string := IoCall EvCwd lift.
Definition connect_transport : io unit := IoCall EvConnect lift.
(** Nothing of the program runs after [process.exit]; the program that
    calls it ends there. *)
Definition process_exit (code : Z) : io unit := IoCall (EvExit code) (λ _, IoRet tt).

(** [try { m } catch (e) { h(e) }] *)
Fixpoint io_catch {A} (m : io A) (h : js_error → io A) : io A :=
  match m with
  | IoRet a => IoRet a
  | IoThrow err => h err
  | IoCall e k => IoCall e (λ x, io_catch (k x) h)
  end.

(** The environment: an answer, or a rejection, for every event. *)
Definition oracle : Type := ∀ e : event, js_res (answer e).

(** [console.log] returns. *)
Definition console_ok (o : oracle) : Prop := ∀ msg, o (EvLog msg) = JOk tt.

(** The environment of the engine itself: [console.log] returns,
    [Math.random()] is in [[0, 1)], [Date.now()] and [new Date()] return. *)
Definition runtime_ok (o : oracle) : Prop :=
  console_ok o ∧
  (∃ k, o EvRandom = JOk k ∧ valid_random k) ∧
  (∃ t, o EvNow = JOk t) ∧
  (∃ d, o EvLocalDate = JOk d).

Fixpoint run {A} (o : oracle) (m : io A) : list event * js_res A :=
  match m with
  | IoRet a => ([], JOk a)
  | IoThrow err => ([], JThrow err)
  | IoCall e k => let '(t, r) := run o (k (o e)) in (e :: t, r)
  end.

Definition trace {A} (o : oracle) (m : io A) : list event := fst (run o m).
Definition outcome {A} (o : oracle) (m : io A) : js_res A := snd (run o m).

(** The requests among the events of a trace. *)
Definition requests (t : list event) : list request :=
  omap (λ e, match e with EvFetch r => Some r | _ => None end) t.

(** ** Lemmas *)

Lemma io_bind_ret {A B} (a : A) (f : A → io B) : io_bind (IoRet a) f = f a.
Proof. reflexivity. Qed.

(** Running a sequence runs its first part, then, when it returned, the
    rest: the traces are concatenated. *)
Lemma run_bind {A B} (o : oracle) (m : io A) (f : A → io B) :
  run o (io_bind m f) =
    let '(t, r) := run o m in
    match r with
    | JOk a => let '(t', r') := run o (f a) in (app t t', r')
    | JThrow err => (t, JThrow err)
    end.
Proof.
  induction m as [a|err|e k IH]; simpl.
  - by destruct (run o (f a)).
  - done.
  - rewrite IH. destruct (run o (k (o e))) as [t [a|err]]; [|done].
    by destruct (run o (f a)).
Qed.

Lemma run_lift {A} (o : oracle) (m : js_res A) : run o (lift m) = ([], m).
Proof. by destruct m. Qed.

Lemma run_ret {A} (o : oracle) (a : A) : run o (IoRet a) = ([], JOk a).
Proof. reflexivity. Qed.

Lemma run_throw {A} (o : oracle) err : run o (@IoThrow A err) = ([], JThrow err).
Proof. reflexivity. Qed.

#[export] Hint Rewrite @run_bind @run_lift @run_ret @run_throw : xmcp_rw.

(** A program that does not call anything returns at once with no trace. *)
Lemma run_lift_bind {A B} (o : oracle) (m : js_res A) (f : A → io B) :
  run o (io_bind (lift m) f) =
    match m with JOk a => run o (f a) | JThrow err => ([], JThrow err) end.
Proof. destruct m; simpl; [by destruct (run o (f a))|done]. Qed.

(** [try]/[catch]: the handler runs only when the program threw. *)
Lemma run_catch {A} (o : oracle) (m : io A) (h : js_error → io A) :
  run o (io_catch m h) =
    let '(t, r) := run o m in
    match r with
    | JOk a => (t, JOk a)
    | JThrow err => let '(t', r') := run o (h err) in (app t t', r')
    end.
Proof.
  induction m as [a|err|e k IH]; simpl.
  - done.
  - by destruct (run o (h err)).
  - rewrite IH. destruct (run o (k (o e))) as [t [a|err]]; [done|].
    by destruct (run o (h err)).
Qed.

Lemma run_fmap {A B} (o : oracle) (f : A → B) (m : io A) :
  run o (f <$> m) = let '(t, r) := run o m in (t, f <$> r).
Proof.
  unfold fmap, io_fmap_inst. rewrite run_bind.
  destruct (run o m) as [t [a|err]]; simpl; [by rewrite app_nil_r|done].
Qed.

Lemma run_log (o : oracle) msg : console_ok o → run o (log msg) = ([EvLog msg], JOk tt).
Proof. intros H. cbn [run log]. by rewrite H. Qed.

Lemma run_exec (o : oracle) cmd r : o (EvExec cmd) = JOk r → run o (exec cmd) = ([EvExec cmd], JOk r).
Proof. intros H. cbn [run exec]. by rewrite H. Qed.

(** ** Postconditions

    [io_post P m]: every value [m] returns, whatever the environment
    answers, satisfies [P] (a thrown exception satisfies any
    postcondition).  The rules below compose along the program's
    structure, so an invariant of a handler's answers is proved by
    following the handler. *)

Fixpoint io_post {A} (P : A → Prop) (m : io A) : Prop :=
  match m with
  | IoRet a => P a
  | IoThrow _ => True
  | IoCall e k => ∀ x, io_post P (k x)
  end.

Lemma io_post_run {A} (P : A → Prop) (m : io A) (o : oracle) v :
  io_post P m → outcome o m = JOk v → P v.
Proof.
  unfold outcome. induction m as [a|err|e k IH]; simpl; [congruence|congruence|].
  intros Hp. specialize (IH (o e) (Hp (o e))). destruct (run o (k (o e))). exact IH.
Qed.

Lemma io_post_ret {A} (P : A → Prop) a : P a → io_post P (IoRet a).
Proof. done. Qed.

Lemma io_post_throw {A} (P : A → Prop) err : io_post P (IoThrow err).
Proof. done. Qed.

Lemma io_post_bind {A B} (P : B → Prop) (m : io A) (f : A → io B) :
  io_post (λ a, io_post P (f a)) m → io_post P (io_bind m f).
Proof. induction m as [a|err|e k IH]; simpl; [done|done|]. intros H x. by apply IH. Qed.

Lemma io_post_lift {A} (P : A → Prop) (r : js_res A) : (∀ a, r = JOk a → P a) → io_post P (lift r).
Proof. destruct r; simpl; [eauto|done]. Qed.

Lemma io_post_lift_post {A} (P : A → Prop) (r : js_res A) : js_post P r → io_post P (lift r).
Proof. by destruct r. Qed.

Lemma io_post_lift_bind {A B} (P : B → Prop) (r : js_res A) (f : A → io B) :
  (∀ a, r = JOk a → io_post P (f a)) → io_post P (io_bind (lift r) f).
Proof. intros H. apply io_post_bind, io_post_lift, H. Qed.

Lemma io_post_event {B} (P : B → Prop) (e : event) (f : answer e → io B) :
  (∀ a, io_post P (f a)) → io_post P (io_bind (IoCall e lift : io (answer e)) f).
Proof. intros H. cbn. intros [a|err]; [apply H|done]. Qed.

Lemma io_post_catch {A} (P : A → Prop) (m : io A) (h : js_error → io A) :
  io_post P m → (∀ err, io_post P (h err)) → io_post P (io_catch m h).
Proof. induction m as [a|err|e k IH]; simpl; [done|auto|]. intros Hm Hh x. by apply IH. Qed.

Lemma io_post_mono {A} (P Q : A → Prop) (m : io A) : (∀ a, P a → Q a) → io_post P m → io_post Q m.
Proof. intros HPQ. induction m as [a|err|e k IH]; simpl; auto. Qed.

Lemma io_post_true {A} (m : io A) : io_post (λ _, True) m.
Proof. induction m; simpl; auto. Qed.

#[export] Hint Resolve io_post_ret io_post_throw io_post_bind io_post_lift_bind io_post_event : xmcp.

(** ** Bounded programs

    [io_events_le n m]: in every environment [m] issues at most [n]
    events before it returns or throws.  A handler is an [async] function
    that settles once its awaited requests are answered; this bound is
    its termination measure: the number of answers it still waits for
    decreases at every event. *)

Fixpoint io_events_le {A} (n : nat) (m : io A) {struct m} : Prop :=
  match m with
  | IoRet _ | IoThrow _ => True
  | IoCall e k => match n with 0 => False | S n' => ∀ x, io_events_le n' (k x) end
  end.

Lemma io_events_le_mono {A} (m : io A) n n' : (n ≤ n')%nat → io_events_le n m → io_events_le n' m.
Proof.
  revert n n'. induction m as [a|err|e k IH]; intros n n' Hle H; [exact I|exact I|].
  destruct n as [|n]; [destruct H|]. destruct n' as [|n']; [lia|].
  intros x. apply (IH x n); [lia|apply H].
Qed.

Lemma io_events_le_ret {A} n (a : A) : io_events_le n (IoRet a).
Proof. done. Qed.

Lemma io_events_le_throw {A} n err : io_events_le n (@IoThrow A err).
Proof. done. Qed.

Lemma io_events_le_lift {A} n (r : js_res A) : io_events_le n (lift r).
Proof. by destruct r. Qed.

Lemma io_events_le_bind {A B} n k (m : io A) (f : A → io B) :
  io_events_le n m → (∀ a, io_events_le k (f a)) → io_events_le (n + k) (io_bind m f).
Proof.
  revert n. induction m as [a|err|e c IH]; intros n Hm Hf; simpl.
  - apply (io_events_le_mono _ k); [lia|apply Hf].
  - done.
  - destruct n as [|n]; [done|]. intros x. by apply IH.
Qed.

(** One event followed by a program with at most [n] events. *)
Lemma io_events_le_event {B} n (e : event) (f : answer e → io B) :
  (∀ a, io_events_le n (f a)) → io_events_le (S n) (io_bind (IoCall e lift : io (answer e)) f).
Proof. intros H. cbn. intros [a|err]; [apply H|done]. Qed.

Lemma io_events_le_lift_bind {A B} n (r : js_res A) (f : A → io B) :
  (∀ a, io_events_le n (f a)) → io_events_le n (io_bind (lift r) f).
Proof. destruct r; simpl; auto. Qed.

Lemma io_events_le_catch {A} n k (m : io A) (h : js_error → io A) :
  io_events_le n m → (∀ err, io_events_le k (h err)) → io_events_le (n + k) (io_catch m h).
Proof.
  revert n. induction m as [a|err|e c IH]; intros n Hm Hh; simpl.
  - done.
  - apply (io_events_le_mono _ k); [lia|apply Hh].
  - destruct n as [|n]; [done|]. intros x. by apply IH.
Qed.

Lemma io_events_le_fmap {A B} n (f : A → B) (m : io A) : io_events_le n m → io_events_le n (f <$> m).
Proof.
  intros H. unfold fmap, io_fmap_inst. rewrite <- (Nat.add_0_r n).
  apply io_events_le_bind; [done|intros; done].
Qed.

(** A bounded program's trace has at most [n] events. *)
Lemma io_events_le_trace {A} n (m : io A) (o : oracle) : io_events_le n m → (length (trace o m) ≤ n)%nat.
Proof.
  unfold trace. revert n. induction m as [a|err|e k IH]; intros n H; simpl; [lia|lia|].
  destruct n as [|n]; [done|]. specialize (IH (o e) n (H (o e))).
  destruct (run o (k (o e))). simpl in *. lia.
Qed.

(** A prefix [m] with at most [n] events leaves [N - n] to the rest. *)
Lemma io_events_le_bind_sub {A B} N n (m : io A) (f : A → io B) :
  io_events_le n m → (∀ a, io_events_le (N - n) (f a)) → (n ≤ N)%nat → io_events_le N (io_bind m f).
Proof. intros Hm Hf Hle. replace N with (n + (N - n))%nat by lia. by apply io_events_le_bind. Qed.

Lemma io_events_le_call {A} n (e : event) (k : js_res (answer e) → io A) :
  (∀ x, io_events_le n (k x)) → io_events_le (S n) (IoCall e k).
Proof. done. Qed.

Create HintDb io_bound discriminated.
#[export] Hint Resolve io_events_le_ret io_events_le_throw io_events_le_lift : io_bound.

(** Follows a program: a synchronous step costs nothing, an event costs
    one, a call of a bounded sub-program costs its bound (a lemma of the
    [io_bound] database), a branch is split. *)
Ltac io_bound :=
  unfold mbind, io_bind_inst;
  repeat match goal with
  | |- ∀ _, _ => intros ?
  | |- io_events_le (?a - ?b) _ => cbn [Nat.sub]
  | |- io_events_le _ (IoRet _) => exact I
  | |- io_events_le _ (IoThrow _) => exact I
  | |- io_events_le _ (lift _) => apply io_events_le_lift
  | |- io_events_le _ (io_bind (lift _) _) => apply io_events_le_lift_bind
  | |- io_events_le (S _) (io_bind (IoCall _ lift) _) => apply io_events_le_event
  | |- io_events_le (S _) (IoCall _ _) => apply io_events_le_call
  | |- io_events_le _ (io_bind (IoRet _) _) => cbn [io_bind]
  | |- io_events_le _ (io_bind _ _) =>
      eapply io_events_le_bind_sub; [solve [eauto with io_bound]| |lia]
  | |- io_events_le _ (if ?b then _ else _) => destruct b
  | |- io_events_le _ (match ?x with _ => _ end) => destruct x
  | |- io_events_le _ _ => solve [eauto with io_bound]
  end.

(** ** Programs that always return

    [io_total m]: whatever the environment answers, [m] returns a value
    and never throws. *)

Fixpoint io_total {A} (m : io A) : Prop :=
  match m with
  | IoRet _ => True
  | IoThrow _ => False
  | IoCall e k => ∀ x, io_total (k x)
  end.

Lemma io_total_run {A} (m : io A) (o : oracle) : io_total m → ∃ v, outcome o m = JOk v.
Proof.
  unfold outcome. induction m as [a|err|e k IH]; simpl; [eauto|done|].
  intros H. destruct (IH (o e) (H (o e))) as [v Hv]. destruct (run o (k (o e))). eauto.
Qed.

(** A [try]/[catch] whose handler returns makes any program total. *)
Lemma io_total_catch {A} (m : io A) (h : js_error → io A) :
  (∀ err, io_total (h err)) → io_total (io_catch m h).
Proof. intros Hh. induction m as [a|err|e k IH]; simpl; auto. Qed.

Lemma io_total_fmap {A B} (f : A → B) (m : io A) : io_total m → io_total (f <$> m).
Proof. unfold fmap, io_fmap_inst. induction m as [a|err|e k IH]; simpl; auto. Qed.

End Io.
