(* ===== verification/Mcp.v ===== *)
(** * The MCP SDK surface the servers rely on

    The servers call [McpServer.registerTool(name, config, cb)] and
    [McpServer.tool(name, description, schemaOrAnnotations, cb)] of
    [@modelcontextprotocol/sdk] (a library, outside the repository).  This
    file holds what the theorems about the servers need of it, written
    from the specification (section 4.1 of spec.md) and the documented
    behaviour of the library:
    - the answer envelope [{content: [{type: "text", text}]}];
    - the zod object schema of a tool and its parse: every declared field
      is checked, an absent optional field is left out, and keys that are
      not declared are stripped;
    - the registry: registering a name twice fails, calling an unknown
      name fails, a call first parses the arguments against the tool's
      schema (a tool registered without one receives the request's
      [extra] object instead), and an exception thrown by the handler is
      returned as a result flagged [isError].

    It also gives the JSON-Schema [inputSchema] of a tool descriptor its
    meaning ([schema_valid]), for comparison with the zod shapes.

    The registry is reached through the class [ToolHost] and its laws
    [ToolHostLaws]; the clients' theorems use only the laws, and
    [assoc_host] is the implementation that discharges them. *)

From S2P Require Import Prelude JsString JsValue Io.
Import JsString JsValue Io.

Module Mcp.

(** ** The answer envelope *)

Definition text_content (text : jsv) : jsv :=
  JArr [JObj [("type", JStr "text"); ("text", text)]].

(** [{content: [{type: "text", text}]}] *)
Definition text_result (text : jsv) : jsv := JObj [("content", text_content text)].

(** What the SDK returns when a handler throws. *)
Definition error_result (msg : string) : jsv :=
  JObj [("content", text_content (JStr msg)); ("isError", JBool true)].

Definition js_error_message (e : js_error) : string :=
  match e with TypeError m | NetworkError m | Rejected m => m end.

(** The error flag a client reads: [isError], false when absent. *)
Definition client_is_error (result : jsv) : bool :=
  match result with
  | JObj fs => truthy (field fs "isError")
  | _ => false
  end.

(** A result the client can display: its [content] is an array of
    blocks [{type: "text", text}] whose [text] is a string. *)
Definition text_block_ok (b : jsv) : bool :=
  match b with
  | JObj fs => strict_eq (field fs "type") (JStr "text") &&
               match field fs "text" with JStr _ => true | _ => false end
  | _ => false
  end.

Definition envelope_ok (v : jsv) : bool :=
  match v with
  | JObj fs => match field fs "content" with JArr bs => forallb text_block_ok bs | _ => false end
  | _ => false
  end.

Lemma text_result_ok s : envelope_ok (text_result (JStr s)) = true.
Proof. reflexivity. Qed.

Lemma error_result_ok msg : envelope_ok (error_result msg) = true.
Proof. reflexivity. Qed.

(** ** zod object schemas *)

Inductive ztype : Type :=
  | ZString
  | ZNumber
  | ZArray (t : ztype)
  | ZEnum (vals : list string).

Record zfield : Type := mk_zfield { zf_name : string; zf_type : ztype; zf_optional : bool }.

Fixpoint zcheck (t : ztype) (v : jsv) : bool :=
  match t, v with
  | ZString, JStr _ => true
  | ZNumber, JNum _ => true
  | ZArray t', JArr l => forallb (zcheck t') l
  | ZEnum vs, JStr s => existsb (String.eqb s) vs
  | _, _ => false
  end.

(** [z.object(shape).parse(args)]: the parsed object, or the name of the
    first offending field. *)
Fixpoint zparse_fields (sh : list zfield) (fs : list (string * jsv)) : string + list (string * jsv) :=
  match sh with
  | [] => inr []
  | f :: sh' =>
      let v := field fs (zf_name f) in
      match v with
      | JUndef =>
          if zf_optional f then zparse_fields sh' fs else inl (zf_name f)
      | _ =>
          if zcheck (zf_type f) v then
            match zparse_fields sh' fs with
            | inl e => inl e
            | inr out => inr ((zf_name f, v) :: out)
            end
          else inl (zf_name f)
      end
  end.

Definition zparse (sh : list zfield) (args : jsv) : string + jsv :=
  match args with
  | JObj fs => match zparse_fields sh fs with inl f => inl f | inr out => inr (JObj out) end
  | _ => inl "(arguments)"
  end.

(** ** JSON Schema input contracts

    The [inputSchema] a tool descriptor declares in JSON Schema: the
    keywords [type] (the primitive type names), [properties] (each
    present own member is checked against the [type] of its property
    schema) and [required] (each listed name is an own member); other
    keywords ([description]) do not constrain.  The descriptors of the
    repository have property schemas of depth one. *)

Definition json_type_ok (t : jsv) (v : jsv) : bool :=
  match t with
  | JUndef => true
  | JStr n =>
      if String.eqb n "object" then match v with JObj _ => true | _ => false end
      else if String.eqb n "string" then match v with JStr _ => true | _ => false end
      else if String.eqb n "number" then match v with JNum _ => true | _ => false end
      else if String.eqb n "array" then match v with JArr _ => true | _ => false end
      else if String.eqb n "boolean" then match v with JBool _ => true | _ => false end
      else false
  | _ => false
  end.

Definition schema_valid (schema v : jsv) : bool :=
  match schema with
  | JObj sfs =>
      json_type_ok (field sfs "type") v &&
      match v with
      | JObj vfs =>
          match field sfs "properties" with
          | JObj props =>
              forallb (λ kp, match assoc kp.1 vfs, kp.2 with
                             | Some x, JObj pfs => json_type_ok (field pfs "type") x
                             | _, _ => true
                             end) props
          | _ => true
          end &&
          match field sfs "required" with
          | JArr req => forallb (λ r, match r with
                                      | JStr k => match assoc k vfs with Some _ => true | None => false end
                                      | _ => false
                                      end) req
          | _ => true
          end
      | _ => true
      end
  | _ => true
  end.

(** ** Tools and the registry *)

Record tool : Type := mk_tool {
  tool_name : string;
  tool_schema : option (list zfield);   (** [None]: registered without an input schema *)
  tool_handler : jsv → io jsv
}.

Inductive mcp_error : Type :=
  | DuplicateTool (name : string)
  | UnknownTool (name : string)
  | InvalidArguments (name field : string).

(** The [extra] object the SDK passes to a handler: the abort signal, the
    request id and the notification callbacks. *)
Definition request_extra (request_id : Z) : jsv :=
  JObj [("signal", JObj []); ("requestId", JNum request_id);
        ("sendNotification", JFun "sendNotification"); ("sendRequest", JFun "sendRequest")].

(** The interface a tool host offers the servers. *)
Class ToolHost (S : Type) := {
  host_empty : S;
  host_register : S → tool → mcp_error + S;
  host_lookup : S → string → option tool
}.

Class ToolHostLaws (S : Type) `{ToolHost S} := {
  host_lookup_empty : ∀ n, host_lookup host_empty n = None;
  host_register_fresh : ∀ s t, host_lookup s (tool_name t) = None →
    ∃ s', host_register s t = inr s' ∧ host_lookup s' (tool_name t) = Some t ∧
          ∀ n, n ≠ tool_name t → host_lookup s' n = host_lookup s n;
  host_register_taken : ∀ s t, host_lookup s (tool_name t) ≠ None →
    host_register s t = inl (DuplicateTool (tool_name t))
}.

(** [callTool]: look the tool up, parse the arguments, run the handler
    with its exceptions caught. *)
Definition call_tool {S} `{ToolHost S} (s : S) (name : string) (args : jsv) (request_id : Z)
    : io (mcp_error + jsv) :=
  match host_lookup s name with
  | None => IoRet (inl (UnknownTool name))
  | Some t =>
      let run_handler (input : jsv) :=
        inr <$> io_catch (tool_handler t input) (λ err, IoRet (error_result (js_error_message err))) in
      match tool_schema t with
      | None => run_handler (request_extra request_id)
      | Some sh =>
          match zparse sh args with
          | inl f => IoRet (inl (InvalidArguments name f))
          | inr parsed => run_handler parsed
          end
      end
  end.

(** Registering a list of tools in order, as [forEach(registerTool)]. *)
Fixpoint register_all {S} `{ToolHost S} (s : S) (ts : list tool) : mcp_error + S :=
  match ts with
  | [] => inr s
  | t :: ts' => match host_register s t with inl e => inl e | inr s' => register_all s' ts' end
  end.

(** ** What a server can rely on *)

Section Clients.
Context {S : Type} `{ToolHostLaws S}.

(** Registering tools with distinct fresh names succeeds, and afterwards
    each of them is found under its name; other names are unchanged. *)
Lemma register_all_ok (s : S) (ts : list tool) :
  NoDup (map tool_name ts) → Forall (λ t, host_lookup s (tool_name t) = None) ts →
  ∃ s', register_all s ts = inr s' ∧
        Forall (λ t, host_lookup s' (tool_name t) = Some t) ts ∧
        ∀ n, n ∉ map tool_name ts → host_lookup s' n = host_lookup s n.
Proof.
  revert s. induction ts as [|t ts IH]; intros s Hnd Hfresh; simpl.
  - exists s. split; [done|]. split; [constructor|done].
  - apply NoDup_cons in Hnd as [Hnin Hnd]. apply Forall_cons in Hfresh as [Ht Hts].
    destruct (host_register_fresh s t Ht) as (s1 & Hreg & Hfound & Hother). rewrite Hreg.
    assert (Hts1 : Forall (λ t', host_lookup s1 (tool_name t') = None) ts).
    { apply Forall_forall. intros t' Hin'. rewrite Hother.
      - by eapply Forall_forall in Hts.
      - intros Heq. apply Hnin. rewrite <- Heq. by apply list_elem_of_fmap_2. }
    destruct (IH s1 Hnd Hts1) as (s2 & Hall & Hfound2 & Hother2).
    exists s2. split; [done|]. split.
    + constructor; [|done]. rewrite Hother2; [done|done].
    + intros n Hn. rewrite Hother2, Hother; [done| |]; set_solver.
Qed.

(** A name registered twice makes the registration fail. *)
Lemma register_dup (s : S) t : host_lookup s (tool_name t) = Some t →
  host_register s t = inl (DuplicateTool (tool_name t)).
Proof. intros Hs. apply host_register_taken. by rewrite Hs. Qed.

(** A call of a registered tool whose arguments parse runs the handler
    on the parsed object and turns its exceptions into [isError]
    results. *)
Lemma call_tool_parsed (o : oracle) (s : S) name args rid t sh parsed :
  host_lookup s name = Some t → tool_schema t = Some sh → zparse sh args = inr parsed →
  run o (call_tool s name args rid) =
    let '(tr, r) := run o (tool_handler t parsed) in
    match r with
    | JOk v => (tr, JOk (inr v))
    | JThrow err => (tr, JOk (inr (error_result (js_error_message err))))
    end.
Proof.
  intros Hl Hs Hp. unfold call_tool. rewrite Hl, Hs, Hp.
  rewrite run_fmap, run_catch. destruct (run o (tool_handler t parsed)) as [tr [v|err]]; [done|].
  simpl. by rewrite app_nil_r.
Qed.

(** Arguments that do not parse are refused before the handler runs: no
    event at all. *)
Lemma call_tool_invalid (o : oracle) (s : S) name args rid t sh f :
  host_lookup s name = Some t → tool_schema t = Some sh → zparse sh args = inl f →
  run o (call_tool s name args rid) = ([], JOk (inl (InvalidArguments name f))).
Proof. intros Hl Hs Hp. unfold call_tool. by rewrite Hl, Hs, Hp. Qed.

(** A tool registered without a schema receives the request's [extra]
    object, whatever the arguments. *)
Lemma call_tool_no_schema (o : oracle) (s : S) name args rid t :
  host_lookup s name = Some t → tool_schema t = None →
  run o (call_tool s name args rid) =
    let '(tr, r) := run o (tool_handler t (request_extra rid)) in
    match r with
    | JOk v => (tr, JOk (inr v))
    | JThrow err => (tr, JOk (inr (error_result (js_error_message err))))
    end.
Proof.
  intros Hl Hs. unfold call_tool. rewrite Hl, Hs.
  rewrite run_fmap, run_catch. destruct (run o (tool_handler t _)) as [tr [v|err]]; [done|].
  simpl. by rewrite app_nil_r.
Qed.

(** Whatever the handler does, a call returns an answer: the SDK catches
    what the handler throws. *)
Lemma call_tool_total (s : S) name args rid : io_total (call_tool s name args rid).
Proof.
  unfold call_tool. destruct (host_lookup s name) as [t|]; [|done].
  destruct (tool_schema t) as [sh|]; [destruct (zparse sh args)|];
    try done; apply io_total_fmap, io_total_catch; done.
Qed.

(** A call of a registered name is answered by the handler's result or
    by a refusal of its arguments, never by [UnknownTool]. *)
Lemma call_tool_found_post (s : S) name args rid t :
  host_lookup s name = Some t →
  io_post (λ r, (∃ f, r = inl (InvalidArguments name f)) ∨ ∃ v, r = inr v) (call_tool s name args rid).
Proof.
  intros Hl. unfold call_tool. rewrite Hl.
  assert (Hrun : ∀ input, io_post (λ r : mcp_error + jsv, (∃ f, r = inl (InvalidArguments name f)) ∨ ∃ v, r = inr v)
    (inr <$> io_catch (tool_handler t input) (λ err, IoRet (error_result (js_error_message err))))).
  { intros input. unfold fmap, io_fmap_inst. apply io_post_bind.
    apply (io_post_mono (λ _, True)); [intros a _; simpl; eauto|apply io_post_true]. }
  destruct (tool_schema t) as [sh|]; [destruct (zparse sh args)|]; [simpl; eauto|apply Hrun|apply Hrun].
Qed.

(** A call issues no more events than the handler it runs. *)
Lemma call_tool_events_le (s : S) name args rid n :
  (∀ t input, host_lookup s name = Some t → io_events_le n (tool_handler t input)) →
  io_events_le n (call_tool s name args rid).
Proof.
  intros Hn. unfold call_tool. destruct (host_lookup s name) as [t|] eqn:Hl; [|done].
  assert (Hrun : ∀ input, io_events_le n
    (inr <$> io_catch (tool_handler t input) (λ err, IoRet (error_result (js_error_message err))) : io (mcp_error + jsv))).
  { intros input. apply io_events_le_fmap. rewrite <- (Nat.add_0_r n).
    apply io_events_le_catch; [by apply Hn|done]. }
  destruct (tool_schema t) as [sh|]; [destruct (zparse sh args)|]; [done|apply Hrun|apply Hrun].
Qed.

End Clients.

(** ** The implementation: tools in registration order *)

Definition assoc_registry : Type := list tool.

Definition assoc_lookup (reg : assoc_registry) (n : string) : option tool :=
  find (λ t, String.eqb (tool_name t) n) reg.

#[global] Instance assoc_host : ToolHost assoc_registry := {
  host_empty := [];
  host_register := λ reg t,
    match assoc_lookup reg (tool_name t) with
    | Some _ => inl (DuplicateTool (tool_name t))
    | None => inr (reg ++ [t])%list
    end;
  host_lookup := assoc_lookup
}.

Lemma assoc_lookup_app reg t n :
  assoc_lookup (reg ++ [t])%list n =
    match assoc_lookup reg n with
    | Some x => Some x
    | None => if String.eqb (tool_name t) n then Some t else None
    end.
Proof.
  induction reg as [|x reg IH]; simpl; [by destruct (String.eqb _ _)|].
  by destruct (String.eqb (tool_name x) n).
Qed.

#[global] Instance assoc_host_laws : ToolHostLaws assoc_registry.
Proof.
  split.
  - done.
  - intros reg t Hnone. simpl in *. rewrite Hnone. eexists. split; [done|]. split.
    + rewrite assoc_lookup_app, Hnone. by rewrite String.eqb_refl.
    + intros n Hn. rewrite assoc_lookup_app.
      destruct (assoc_lookup reg n); [done|].
      destruct (String.eqb_spec (tool_name t) n); congruence.
  - intros reg t Hsome. simpl in *. by destruct (assoc_lookup reg (tool_name t)).
Qed.

(** With unique names, a registered tool is found under its name. *)
Lemma assoc_lookup_in reg t : NoDup (map tool_name reg) → t ∈ reg → assoc_lookup reg (tool_name t) = Some t.
Proof.
  unfold assoc_lookup. induction reg as [|t' reg IH]; simpl; [set_solver|].
  intros Hnd Hin. apply NoDup_cons in Hnd as [Hnin Hnd].
  destruct (String.eqb_spec (tool_name t') (tool_name t)) as [Heq|Hne].
  - apply elem_of_cons in Hin as [->|Hin]; [done|].
    exfalso. apply Hnin. rewrite Heq. by apply list_elem_of_fmap_2.
  - apply elem_of_cons in Hin as [->|Hin]; [done|auto].
Qed.

(** A call of a tool of a registry with unique names is answered, by the
    handler's result, an [isError] result or a refusal of the
    arguments, after at most the handler's bound of events. *)
Lemma call_answered (reg : assoc_registry) t args rid n (o : oracle) :
  NoDup (map tool_name reg) → t ∈ reg →
  (∀ input, io_events_le n (tool_handler t input)) →
  (length (trace o (call_tool reg (tool_name t) args rid)) ≤ n)%nat ∧
  ∃ r, outcome o (call_tool reg (tool_name t) args rid) = JOk r ∧
       ((∃ f, r = inl (InvalidArguments (tool_name t) f)) ∨ ∃ v, r = inr v).
Proof.
  intros Hnd Hin Hn.
  assert (Hl : host_lookup reg (tool_name t) = Some t) by (by apply assoc_lookup_in).
  split.
  - apply io_events_le_trace, call_tool_events_le. intros t' input Hl'.
    rewrite Hl in Hl'. injection Hl' as <-. apply Hn.
  - destruct (io_total_run _ o (call_tool_total reg (tool_name t) args rid)) as [r Hr'].
    exists r. split; [done|]. exact (io_post_run _ _ o r (call_tool_found_post _ _ args rid t Hl) Hr').
Qed.

(** ** Schemas of required strings *)

Definition is_str (v : jsv) : bool := match v with JStr _ => true | _ => false end.

(** A zod shape of required strings parses exactly the objects whose
    members of these names are strings. *)
Lemma zparse_fields_strings (names : list string) fs :
  (∃ out, zparse_fields (map (λ n, mk_zfield n ZString false) names) fs = inr out) ↔
  Forall (λ n, is_str (field fs n) = true) names.
Proof.
  induction names as [|n names IH]; cbn [map zparse_fields]; [split; [constructor|eauto]|].
  rewrite Forall_cons. cbn [zf_name zf_optional zf_type].
  rewrite <- IH. destruct (field fs n); cbn [zcheck is_str];
    try destruct (zparse_fields _ fs); naive_solver.
Qed.

Lemma zparse_obj_ok sh fs : (∃ out, zparse sh (JObj fs) = inr out) ↔ ∃ out, zparse_fields sh fs = inr out.
Proof. cbn [zparse]. destruct (zparse_fields sh fs); naive_solver. Qed.

Lemma is_str_inherited k : is_str (inherited k) = false.
Proof. unfold inherited. destruct (String.eqb k _); [done|]. by destruct (existsb _ _). Qed.

Lemma is_str_field fs k : is_str (field fs k) = true ↔ ∃ s, assoc k fs = Some (JStr s).
Proof.
  unfold field. destruct (assoc k fs) as [v|]; [|rewrite is_str_inherited; naive_solver].
  destruct v; cbn; naive_solver.
Qed.

(** A JSON Schema object of string properties, all required, accepts
    exactly the objects whose members of these names are strings. *)
Lemma schema_valid_strings props req fs :
  Forall (λ kp, ∃ rest, kp.2 = JObj (("type", JStr "string") :: rest)) props →
  req = map (λ kp, JStr kp.1) props →
  schema_valid (JObj [("type", JStr "object"); ("properties", JObj props);
                      ("required", JArr req)]) (JObj fs) = true ↔
  Forall (λ kp, ∃ s, assoc kp.1 fs = Some (JStr s)) props.
Proof.
  intros Hp ->. cbn [schema_valid field assoc String.eqb Ascii.eqb Bool.eqb json_type_ok andb].
  rewrite andb_true_iff, !forallb_forall, Forall_forall. split.
  - intros [Hprops Hreq] kp Hin. apply list_elem_of_In in Hin as Hin'.
    specialize (Hprops kp Hin'). specialize (Hreq (JStr kp.1) (in_map _ _ _ Hin')). cbn in Hreq.
    destruct (proj1 (Forall_forall _ _) Hp kp Hin) as [rest Hr]. rewrite Hr in Hprops.
    destruct (assoc kp.1 fs) as [v|]; [|done]. cbn in Hprops. destruct v; try discriminate; eauto.
  - intros Hall. split.
    + intros kp Hin%list_elem_of_In. destruct (Hall kp Hin) as [s ->].
      destruct (proj1 (Forall_forall _ _) Hp kp Hin) as [rest ->]. reflexivity.
    + intros r (kp & <- & Hin%list_elem_of_In)%in_map_iff. by destruct (Hall kp Hin) as [s ->].
Qed.

End Mcp.
