(* ===== verification/Lifecycle.v ===== *)
(** * The server object and the process around it

    Every server file of the repository is a script that, at module load,
    builds one [McpServer] ([new McpServer(serverInfo)]), registers its
    tools (and, for the Binance server, one resource), and then runs
    [main()]: [await init()] (an empty [async] function),
    [await server.connect(new StdioServerTransport())] and a
    [console.error] banner; [main().catch(...)] logs a fatal error and
    calls [process.exit(1)] when any of it rejects.

    This file models what these scripts use of [McpServer] and of its
    inner [Server] (library code of [@modelcontextprotocol/sdk], written
    from the library's behaviour):
    - the constructor keeps its first argument as [serverInfo] and reads
      [capabilities] and [instructions] from its second argument,
      [options] ([this._capabilities = options?.capabilities ?? {}],
      [this._instructions = options?.instructions]);
    - [registerTool] refuses a name already registered; the first
      registration installs the tool request handlers, which registers
      the [tools] capability, and [registerCapabilities] throws once a
      transport is connected; [registerResource] does the same for
      resources, keyed by URI;
    - [connect] attaches the transport; [close] detaches it;
    - the answer to [initialize]: the negotiated protocol version, the
      capabilities, [serverInfo], and [instructions] when set.

    [step] is the state machine of these operations and [rtc step] from
    [new_McpServer] its reachable states; [server_wf] is the registry
    invariant every reachable state satisfies.  [main_catch] is the
    [main().catch(...)] every server file ends with.  The list-changed
    notifications the SDK sends for a registration after [connect] carry
    no state and are not modelled. *)

From stdpp Require Import relations.
From S2P Require Import Prelude JsString JsValue Io Mcp.
Import JsString JsValue Io Mcp.

Module Lifecycle.

(** A resource registered with [registerResource(name, uri, metadata, readCallback)];
    the read callback receives the requested URI. *)
Record resource : Type := mk_resource {
  res_name : string;
  res_uri : string;
  res_metadata : jsv;
  res_read : string → io jsv
}.

(** [Starting]: built, no transport yet; [Serving]: a transport is
    connected; [Closed]: the transport was closed; [Exited c]: the
    process called [process.exit(c)]. *)
Inductive phase : Type :=
  | Starting
  | Serving
  | Closed
  | Exited (code : Z).

Record server : Type := mk_server {
  srv_info : jsv;              (** [serverInfo], the first constructor argument *)
  srv_options : jsv;           (** [options], the second one ([undefined] when absent) *)
  srv_capabilities : jsv;      (** [this._capabilities] *)
  srv_tools : assoc_registry;  (** [_registeredTools], in registration order *)
  srv_tool_handlers : bool;    (** [_toolHandlersInitialized] *)
  srv_resources : list resource;   (** [_registeredResources] *)
  srv_resource_handlers : bool;    (** [_resourceHandlersInitialized] *)
  srv_phase : phase
}.

Inductive server_error : Type :=
  | ToolAlreadyRegistered (name : string)
  | ResourceAlreadyRegistered (uri : string)
  | CapabilitiesAfterConnect.

(** [options?.capabilities ?? {}] *)
Definition initial_capabilities (options : jsv) : jsv :=
  match opt_get options "capabilities" with
  | JOk v => nullish_or v (JObj [])
  | JThrow _ => JObj []
  end.

(** [new McpServer(serverInfo, options)] *)
Definition new_McpServer (info options : jsv) : server :=
  mk_server info options (initial_capabilities options) [] false [] false Starting.

Definition set_phase (s : server) (p : phase) : server :=
  mk_server (srv_info s) (srv_options s) (srv_capabilities s) (srv_tools s)
            (srv_tool_handlers s) (srv_resources s) (srv_resource_handlers s) p.

(** [acc[k] = v]: an existing member keeps its place, a new one goes last. *)
Fixpoint obj_set (fs : list (string * jsv)) (k : string) (v : jsv) : list (string * jsv) :=
  match fs with
  | [] => [(k, v)]
  | (k', v') :: fs' => if String.eqb k' k then (k, v) :: fs' else (k', v') :: obj_set fs' k v
  end.

(** [mergeCapabilities(base, {[key]: {...vfs}})]: the object member
    [key] is merged into the one already there, if any. *)
Definition merge_capability (caps : jsv) (key : string) (vfs : list (string * jsv)) : jsv :=
  let fs := match caps with JObj fs => fs | _ => [] end in
  let merged := match field fs key with
                | JObj old => JObj (fold_left (λ acc kv, obj_set acc kv.1 kv.2) vfs old)
                | _ => JObj vfs
                end in
  JObj (obj_set fs key merged).

(** [Server.registerCapabilities]: refused once a transport is connected. *)
Definition register_capabilities (s : server) (key : string) : server_error + server :=
  match srv_phase s with
  | Serving => inl CapabilitiesAfterConnect
  | _ => inr (mk_server (srv_info s) (srv_options s)
                (merge_capability (srv_capabilities s) key [("listChanged", JBool true)])
                (srv_tools s) (srv_tool_handlers s) (srv_resources s) (srv_resource_handlers s)
                (srv_phase s))
  end.

(** [setToolRequestHandlers]: once; registers the [tools] capability. *)
Definition set_tool_handlers (s : server) : server_error + server :=
  if srv_tool_handlers s then inr s else
  match register_capabilities s "tools" with
  | inl e => inl e
  | inr s' => inr (mk_server (srv_info s') (srv_options s') (srv_capabilities s') (srv_tools s')
                     true (srv_resources s') (srv_resource_handlers s') (srv_phase s'))
  end.

Definition set_resource_handlers (s : server) : server_error + server :=
  if srv_resource_handlers s then inr s else
  match register_capabilities s "resources" with
  | inl e => inl e
  | inr s' => inr (mk_server (srv_info s') (srv_options s') (srv_capabilities s') (srv_tools s')
                     (srv_tool_handlers s') (srv_resources s') true (srv_phase s'))
  end.

(** [registerTool(name, config, cb)] (and [tool(...)]): refuse a taken
    name, record the tool, install the handlers. *)
Definition register_tool (s : server) (t : tool) : server_error + server :=
  match assoc_lookup (srv_tools s) (tool_name t) with
  | Some _ => inl (ToolAlreadyRegistered (tool_name t))
  | None =>
      set_tool_handlers
        (mk_server (srv_info s) (srv_options s) (srv_capabilities s) (srv_tools s ++ [t])%list
                   (srv_tool_handlers s) (srv_resources s) (srv_resource_handlers s) (srv_phase s))
  end.

Definition resource_lookup (rs : list resource) (uri : string) : option resource :=
  find (λ r, String.eqb (res_uri r) uri) rs.

(** [registerResource(name, uri, metadata, readCallback)] for a fixed URI. *)
Definition register_resource (s : server) (r : resource) : server_error + server :=
  match resource_lookup (srv_resources s) (res_uri r) with
  | Some _ => inl (ResourceAlreadyRegistered (res_uri r))
  | None =>
      set_resource_handlers
        (mk_server (srv_info s) (srv_options s) (srv_capabilities s) (srv_tools s)
                   (srv_tool_handlers s) (srv_resources s ++ [r])%list (srv_resource_handlers s)
                   (srv_phase s))
  end.

(** Registering tools in order, stopping at the first refusal. *)
Fixpoint register_tools (s : server) (ts : list tool) : server_error + server :=
  match ts with
  | [] => inr s
  | t :: ts' => match register_tool s t with inl e => inl e | inr s' => register_tools s' ts' end
  end.

(** [await server.connect(transport)]: the transport's [start()] is
    awaited; a rejection propagates. *)
Definition server_connect (s : server) : io server :=
  connect_transport;; IoRet (set_phase s Serving).

(** [async function init() {}] *)
Definition init : io unit := IoRet tt.

(** [async function main() { ...; await init(); await server.connect(transport); console.error(banner); }] *)
Definition main (s : server) (banner : string) : io server :=
  init;;
  s' ← server_connect s;
  log banner;;
  IoRet s'.

Definition FATAL : string := "Fatal error in main(): ".

(** [main().catch((error) => { console.error("Fatal error in main():", error); process.exit(1); })];
    the error is printed by its message. *)
Definition main_catch (s : server) (banner : string) : io server :=
  io_catch (main s banner)
    (λ err, log (FATAL +:+ js_error_message err);;
            process_exit 1;;
            IoRet (set_phase s (Exited 1))).

(** The result of [initialize] for a negotiated protocol version. *)
Definition initialize_result (s : server) (version : string) : jsv :=
  let instructions := match opt_get (srv_options s) "instructions" with JOk v => v | JThrow _ => JUndef end in
  JObj ([("protocolVersion", JStr version); ("capabilities", srv_capabilities s);
         ("serverInfo", srv_info s)] ++ spread_truthy "instructions" instructions)%list.

(** ** The state machine *)

Definition exited (s : server) : Prop := ∃ c, srv_phase s = Exited c.

Inductive step : server → server → Prop :=
  | step_tool s t s' : ¬ exited s → register_tool s t = inr s' → step s s'
  | step_resource s r s' : ¬ exited s → register_resource s r = inr s' → step s s'
  | step_connect s : srv_phase s = Starting ∨ srv_phase s = Closed → step s (set_phase s Serving)
  | step_close s : srv_phase s = Serving → step s (set_phase s Closed)
  | step_exit s c : ¬ exited s → step s (set_phase s (Exited c)).

(** The capability [k] is announced: [capabilities[k]] is set. *)
Definition has_cap (caps : jsv) (k : string) : Prop := ∃ fs, caps = JObj fs ∧ field fs k ≠ JUndef.

(** What every reachable server satisfies: tool names and resource URIs
    are unique, and a server with tools (resources) announces the [tools]
    ([resources]) capability. *)
Definition server_wf (s : server) : Prop :=
  NoDup (map tool_name (srv_tools s)) ∧
  NoDup (map res_uri (srv_resources s)) ∧
  (srv_tools s ≠ [] → srv_tool_handlers s = true) ∧
  (srv_resources s ≠ [] → srv_resource_handlers s = true) ∧
  (srv_tool_handlers s = true → has_cap (srv_capabilities s) "tools") ∧
  (srv_resource_handlers s = true → has_cap (srv_capabilities s) "resources").

(** ** Lemmas *)

Lemma field_obj_set_eq fs k v : field (obj_set fs k v) k = v.
Proof.
  unfold field. induction fs as [|[k' v'] fs IH]; simpl; [by rewrite String.eqb_refl|].
  destruct (String.eqb_spec k' k) as [->|Hne]; simpl; [by rewrite String.eqb_refl|].
  destruct (String.eqb_spec k k'); [congruence|done].
Qed.

Lemma field_obj_set_ne fs k k' v : k' ≠ k → field (obj_set fs k v) k' = field fs k'.
Proof.
  intros Hne. unfold field. induction fs as [|[k0 v0] fs IH]; simpl.
  - by destruct (String.eqb_spec k' k).
  - destruct (String.eqb_spec k0 k) as [->|Hk]; simpl.
    + by destruct (String.eqb_spec k' k).
    + destruct (String.eqb_spec k' k0); [done|apply IH].
Qed.

Lemma has_cap_merge_same caps key vfs : has_cap (merge_capability caps key vfs) key.
Proof.
  unfold merge_capability. eexists. split; [done|]. rewrite field_obj_set_eq.
  by destruct (field _ key).
Qed.

Lemma has_cap_merge_other caps key vfs k : has_cap caps k → has_cap (merge_capability caps key vfs) k.
Proof.
  intros (fs & -> & Hk). destruct (String.eq_dec k key) as [->|Hne]; [apply has_cap_merge_same|].
  unfold merge_capability. eexists. split; [done|]. by rewrite field_obj_set_ne.
Qed.

(** What installing the tool handlers changes: the flag and the
    [tools] capability, nothing else. *)
Lemma set_tool_handlers_inr s s' :
  set_tool_handlers s = inr s' →
  (srv_tool_handlers s = true → has_cap (srv_capabilities s) "tools") →
  srv_tools s' = srv_tools s ∧ srv_resources s' = srv_resources s ∧
  srv_tool_handlers s' = true ∧ srv_resource_handlers s' = srv_resource_handlers s ∧
  srv_phase s' = srv_phase s ∧ has_cap (srv_capabilities s') "tools" ∧
  (∀ k, has_cap (srv_capabilities s) k → has_cap (srv_capabilities s') k).
Proof.
  unfold set_tool_handlers, register_capabilities. intros Hs Hcap.
  destruct (srv_tool_handlers s) eqn:Hf.
  - injection Hs as <-. auto 10.
  - destruct (srv_phase s) eqn:Hp; try discriminate; injection Hs as <-; cbn;
      auto 10 using has_cap_merge_same, has_cap_merge_other.
Qed.

Lemma set_resource_handlers_inr s s' :
  set_resource_handlers s = inr s' →
  (srv_resource_handlers s = true → has_cap (srv_capabilities s) "resources") →
  srv_tools s' = srv_tools s ∧ srv_resources s' = srv_resources s ∧
  srv_tool_handlers s' = srv_tool_handlers s ∧ srv_resource_handlers s' = true ∧
  srv_phase s' = srv_phase s ∧ has_cap (srv_capabilities s') "resources" ∧
  (∀ k, has_cap (srv_capabilities s) k → has_cap (srv_capabilities s') k).
Proof.
  unfold set_resource_handlers, register_capabilities. intros Hs Hcap.
  destruct (srv_resource_handlers s) eqn:Hf.
  - injection Hs as <-. auto 10.
  - destruct (srv_phase s) eqn:Hp; try discriminate; injection Hs as <-; cbn;
      auto 10 using has_cap_merge_same, has_cap_merge_other.
Qed.

Lemma assoc_lookup_none reg n : assoc_lookup reg n = None → n ∉ map tool_name reg.
Proof.
  unfold assoc_lookup. induction reg as [|t reg IH]; simpl; [set_solver|].
  destruct (String.eqb_spec (tool_name t) n); [done|]. intros H. set_solver.
Qed.

Lemma resource_lookup_none rs uri : resource_lookup rs uri = None → uri ∉ map res_uri rs.
Proof.
  unfold resource_lookup. induction rs as [|r rs IH]; simpl; [set_solver|].
  destruct (String.eqb_spec (res_uri r) uri); [done|]. intros H. set_solver.
Qed.

Lemma NoDup_map_snoc {A} (f : A → string) l x : NoDup (map f l) → f x ∉ map f l → NoDup (map f (l ++ [x])%list).
Proof.
  intros Hnd Hx. rewrite map_app. apply NoDup_app. split; [done|]. split; [|apply NoDup_singleton].
  intros y Hy ->%list_elem_of_singleton. done.
Qed.

Lemma register_tool_wf s t s' : server_wf s → register_tool s t = inr s' → server_wf s'.
Proof.
  unfold register_tool. intros (Ht & Hr & Hth & Hrh & Htc & Hrc) Hreg.
  destruct (assoc_lookup (srv_tools s) (tool_name t)) eqn:Hl; [discriminate|].
  destruct (set_tool_handlers_inr _ _ Hreg Htc) as (Et & Er & Hth' & Hrh' & _ & Htc' & Hkeep).
  unfold server_wf. rewrite Et, Er. cbn in *. split; [by apply NoDup_map_snoc, assoc_lookup_none|]. split; [done|].
  rewrite Hth', Hrh'. naive_solver.
Qed.

Lemma new_McpServer_wf info options : server_wf (new_McpServer info options).
Proof. repeat split; try constructor; done. Qed.

Lemma register_capabilities_phase s key s' : register_capabilities s key = inr s' → srv_phase s' = srv_phase s.
Proof. unfold register_capabilities. destruct (srv_phase s); intros H; try discriminate; by injection H as <-. Qed.

Lemma register_tool_phase s t s' : register_tool s t = inr s' → srv_phase s' = srv_phase s.
Proof.
  unfold register_tool, set_tool_handlers. destruct (assoc_lookup _ _); [discriminate|]. cbn.
  destruct (srv_tool_handlers s); [by intros [= <-]|].
  destruct (register_capabilities _ _) as [|s1] eqn:Hc; [discriminate|].
  intros [= <-]. apply register_capabilities_phase in Hc. exact Hc.
Qed.

Lemma register_tools_phase s ts s' : register_tools s ts = inr s' → srv_phase s' = srv_phase s.
Proof.
  revert s. induction ts as [|t ts IH]; intros s; simpl; [by intros [= <-]|].
  destruct (register_tool s t) as [|s1] eqn:Ht; [discriminate|].
  intros Hts. rewrite (IH _ Hts). exact (register_tool_phase _ _ _ Ht).
Qed.

Lemma register_resource_phase s r s' : register_resource s r = inr s' → srv_phase s' = srv_phase s.
Proof.
  unfold register_resource, set_resource_handlers. destruct (resource_lookup _ _); [discriminate|]. cbn.
  destruct (srv_resource_handlers s); [by intros [= <-]|].
  destruct (register_capabilities _ _) as [|s1] eqn:Hc; [discriminate|].
  intros [= <-]. apply register_capabilities_phase in Hc. exact Hc.
Qed.

(** A successful sequence of registrations is a run of the machine. *)
Lemma register_tools_steps s ts s' : ¬ exited s → register_tools s ts = inr s' → rtc step s s'.
Proof.
  revert s. induction ts as [|t ts IH]; intros s Hx; simpl; [by intros [= <-]|].
  destruct (register_tool s t) as [|s1] eqn:Ht; [discriminate|]. intros Hts.
  apply rtc_l with s1; [by eapply step_tool|]. apply IH; [|done].
  unfold exited. by rewrite (register_tool_phase _ _ _ Ht).
Qed.

(** The registry invariant holds in every state reachable from a
    well-formed one, by induction on the steps. *)
Lemma reachable_wf s0 s : rtc step s0 s → server_wf s0 → server_wf s.
Proof.
  induction 1 as [|x y z Hxy _ IH]; [done|]. intros Hx. apply IH.
  destruct Hxy as [x t y _ Hreg|x r y _ Hreg|x _|x _|x c _]; [by eapply register_tool_wf| |done..].
  unfold register_resource in Hreg. destruct Hx as (Ht & Hr' & Hth & Hrh & Htc & Hrc).
  destruct (resource_lookup (srv_resources x) (res_uri r)) eqn:Hl; [discriminate|].
  destruct (set_resource_handlers_inr _ _ Hreg Hrc) as (Et & Er & Hth' & Hrh' & _ & Hrc' & Hkeep).
  unfold server_wf. rewrite Et, Er. cbn in *. split; [done|].
  split; [by apply NoDup_map_snoc, resource_lookup_none|]. rewrite Hth', Hrh'. naive_solver.
Qed.

Lemma run_main_catch_ok (o : oracle) s banner :
  o EvConnect = JOk tt → console_ok o →
  run o (main_catch s banner) = ([EvConnect; EvLog banner], JOk (set_phase s Serving)).
Proof.
  intros Hc Hlog. unfold main_catch, main, server_connect, init, mbind, io_bind_inst.
  rewrite run_catch. cbn [io_bind run connect_transport log]. rewrite Hc. cbn [io_bind run lift]. rewrite Hlog. reflexivity.
Qed.

Lemma run_main_catch_fail (o : oracle) s banner err :
  o EvConnect = JThrow err → console_ok o →
  run o (main_catch s banner) =
    ([EvConnect; EvLog (FATAL +:+ js_error_message err); EvExit 1], JOk (set_phase s (Exited 1))).
Proof.
  intros Hc Hlog. unfold main_catch, main, server_connect, init, mbind, io_bind_inst.
  rewrite run_catch. cbn [io_bind run connect_transport log lift]. rewrite Hc.
  cbn [run io_bind log process_exit lift]. rewrite Hlog. reflexivity.
Qed.

Lemma assoc_lookup_notin reg n : n ∉ map tool_name reg → assoc_lookup reg n = None.
Proof.
  unfold assoc_lookup. induction reg as [|t reg IH]; simpl; [done|]. intros Hn.
  destruct (String.eqb_spec (tool_name t) n); [set_solver|]. apply IH. set_solver.
Qed.

(** The capabilities after the first tool registration on a server
    built without options. *)
Definition tools_capability : jsv := JObj [("tools", JObj [("listChanged", JBool true)])].

(** A server built without options on which the tools [ts] were
    registered. *)
Definition booted (info : jsv) (ts : list tool) : server :=
  mk_server info JUndef tools_capability ts true [] false Starting.

(** Once the handlers are installed, registering fresh distinct names
    appends them. *)
Lemma register_tools_app s ts :
  srv_tool_handlers s = true → NoDup (map tool_name (srv_tools s ++ ts)) →
  register_tools s ts =
    inr (mk_server (srv_info s) (srv_options s) (srv_capabilities s) (srv_tools s ++ ts)%list true
                   (srv_resources s) (srv_resource_handlers s) (srv_phase s)).
Proof.
  revert s. induction ts as [|t ts IH]; intros [i o c reg th rs rh p] Hth Hnd;
    cbn [srv_tool_handlers srv_tools] in Hth, Hnd; subst th; cbn [register_tools].
  - by rewrite app_nil_r.
  - unfold register_tool. cbn [srv_tools]. rewrite assoc_lookup_notin.
    + cbn [set_tool_handlers srv_tool_handlers srv_info srv_options srv_capabilities srv_tools
           srv_resources srv_resource_handlers srv_phase].
      rewrite IH; cbn [srv_tool_handlers srv_tools]; [by rewrite <- app_assoc|done|by rewrite <- app_assoc].
    + rewrite map_app in Hnd. cbn in Hnd. apply NoDup_app in Hnd as (_ & Hdis & _).
      intros Hin. apply (Hdis _ Hin). set_solver.
Qed.

(** Registering distinct names on a new server. *)
Lemma register_tools_new info ts :
  ts ≠ [] → NoDup (map tool_name ts) → register_tools (new_McpServer info JUndef) ts = inr (booted info ts).
Proof.
  destruct ts as [|t ts]; [done|]. intros _ Hnd.
  transitivity (register_tools (mk_server info JUndef tools_capability [t] true [] false Starting) ts);
    [reflexivity|].
  rewrite register_tools_app; [reflexivity|reflexivity|exact Hnd].
Qed.

(** A server that [main()] connects is [Serving], one step further. *)
Lemma main_catch_serves info options s banner (o : oracle) :
  rtc step (new_McpServer info options) s → srv_phase s = Starting →
  o EvConnect = JOk tt → console_ok o →
  run o (main_catch s banner) = ([EvConnect; EvLog banner], JOk (set_phase s Serving)) ∧
  rtc step (new_McpServer info options) (set_phase s Serving).
Proof.
  intros Hr Hp Hc Hlog. split; [by apply run_main_catch_ok|].
  apply rtc_r with s; [done|]. apply step_connect. by left.
Qed.

(** ** Properties *)

(** C33: Start-up failure: when [server.connect] rejects, [main().catch]
    logs the fatal error with the rejection's message and calls
    [process.exit(1)]: the process ends with exit code 1 right after the
    connection attempt, and this is a step of the server's lifecycle. *)
Theorem startup_failure_exits (o : oracle) s banner err :
  o EvConnect = JThrow err → console_ok o → ¬ exited s →
  run o (main_catch s banner) =
    ([EvConnect; EvLog (FATAL +:+ js_error_message err); EvExit 1], JOk (set_phase s (Exited 1))) ∧
  step s (set_phase s (Exited 1)).
Proof. intros Hc Hlog Hx. split; [by apply run_main_catch_fail|by constructor]. Qed.

(** An environment whose transport fails to start. *)
Definition failing_transport : oracle :=
  λ e, match e return js_res (answer e) with
       | EvConnect => JThrow (Rejected "stdin closed")
       | EvFetch _ => JOk (JStr "ok") | EvExec _ => JOk (mk_exec_result true "" "") | EvLog _ => JOk tt
       | EvRandom | EvNow => JOk 0%Z | EvLocalDate => JOk (mk_date 2025 7 30 9 5 0)
       | EvReadFile _ => JOk [] | EvCwd => JOk "/" | EvExit _ => JOk tt
       end.

Lemma startup_failure_exits_witness :
  run failing_transport (main_catch (new_McpServer (JObj [("name", JStr "sample")]) JUndef) "up") =
    ([EvConnect; EvLog (FATAL +:+ "stdin closed"); EvExit 1],
     JOk (set_phase (new_McpServer (JObj [("name", JStr "sample")]) JUndef) (Exited 1))) ∧
  step (new_McpServer (JObj [("name", JStr "sample")]) JUndef)
       (set_phase (new_McpServer (JObj [("name", JStr "sample")]) JUndef) (Exited 1)).
Proof.
  apply (startup_failure_exits failing_transport _ "up" (Rejected "stdin closed")).
  - reflexivity.
  - intros msg. reflexivity.
  - by intros [c Hc].
Defined.

End Lifecycle.
