(* ===== verification/NodeLib.v ===== *)
(** * Node.js library functions the Binance resource uses

    [Buffer.prototype.toString("base64")] (RFC 4648 base64 with the
    standard alphabet and [=] padding, as Node's encoder writes it: each
    group of three bytes [b1 b2 b3] gives the four 6-bit values
    [b1 >> 2], [(b1 & 3) << 4 | b2 >> 4], [(b2 & 15) << 2 | b3 >> 6] and
    [b3 & 63], a final group of one or two bytes is padded) and POSIX
    [path.resolve] with one relative argument (the current directory,
    then the argument, with empty and [.] segments dropped and [..]
    removing the previous segment, never above the root).  Both are
    library code outside the repository, written from their
    documentation.  [base64_decode] is the strict decoder of canonical
    base64 text ([Buffer.from(text, "base64")] on such text); it is the
    reference for the round trip [base64_decode_encode]. *)

From S2P Require Import Prelude JsString JsValue.
Import JsString JsValue.

Module Base64.

(** The alphabet [A-Z a-z 0-9 + /]. *)
Definition b64_char (i : Z) : ascii :=
  if (i <? 26)%Z then ascii_of_N (Z.to_N (65 + i))
  else if (i <? 52)%Z then ascii_of_N (Z.to_N (71 + i))
  else if (i <? 62)%Z then ascii_of_N (Z.to_N (i - 4))
  else if (i =? 62)%Z then "+"%char else "/"%char.

Definition b64_val (c : ascii) : option Z :=
  let n := Z.of_N (N_of_ascii c) in
  if (65 <=? n)%Z && (n <=? 90)%Z then Some (n - 65)%Z
  else if (97 <=? n)%Z && (n <=? 122)%Z then Some (n - 71)%Z
  else if (48 <=? n)%Z && (n <=? 57)%Z then Some (n + 4)%Z
  else if (n =? 43)%Z then Some 62%Z
  else if (n =? 47)%Z then Some 63%Z
  else None.

Definition pad : ascii := "="%char.

(** The encoder on byte values ([0 <= b < 256]). *)
Fixpoint encode_values (bs : list Z) : string :=
  match bs with
  | b1 :: b2 :: b3 :: rest =>
      String (b64_char (b1 / 4))
        (String (b64_char ((b1 mod 4) * 16 + b2 / 16))
          (String (b64_char ((b2 mod 16) * 4 + b3 / 64))
            (String (b64_char (b3 mod 64)) (encode_values rest))))
  | [b1; b2] =>
      String (b64_char (b1 / 4))
        (String (b64_char ((b1 mod 4) * 16 + b2 / 16))
          (String (b64_char ((b2 mod 16) * 4)) (String pad EmptyString)))
  | [b1] =>
      String (b64_char (b1 / 4))
        (String (b64_char ((b1 mod 4) * 16)) (String pad (String pad EmptyString)))
  | [] => EmptyString
  end.

Definition byte_value (b : Byte.byte) : Z := Z.of_N (Byte.to_N b).

(** [buffer.toString("base64")] *)
Definition buffer_to_base64 (bs : list Byte.byte) : string := encode_values (map byte_value bs).

(** The strict decoder: groups of four characters, padding only in the
    last group. *)
Fixpoint decode_values (s : string) : option (list Z) :=
  match s with
  | EmptyString => Some []
  | String c1 (String c2 (String c3 (String c4 rest))) =>
      v1 ← b64_val c1; v2 ← b64_val c2;
      if Ascii.eqb c3 pad then
        if Ascii.eqb c4 pad && String.eqb rest EmptyString then Some [v1 * 4 + v2 / 16]%Z else None
      else
        v3 ← b64_val c3;
        if Ascii.eqb c4 pad then
          if String.eqb rest EmptyString then Some [v1 * 4 + v2 / 16; (v2 mod 16) * 16 + v3 / 4]%Z else None
        else
          v4 ← b64_val c4; vs ← decode_values rest;
          Some ((v1 * 4 + v2 / 16) :: ((v2 mod 16) * 16 + v3 / 4) :: ((v3 mod 4) * 64 + v4) :: vs)%Z
  | _ => None
  end.

Definition base64_decode (s : string) : option (list Byte.byte) :=
  vs ← decode_values s; mapM (λ v, Byte.of_N (Z.to_N v)) vs.

(** ** Lemmas *)

Ltac b64_arith := Z.div_mod_to_equations; lia.

(** The alphabet is inverted by [b64_val], checked on its 64 entries. *)
Lemma b64_table : Forall (λ n : nat, b64_val (b64_char (Z.of_nat n)) = Some (Z.of_nat n)) (seq 0 64).
Proof. apply (bool_decide_unpack _). vm_compute. reflexivity. Qed.

Lemma b64_val_char i : (0 ≤ i < 64)%Z → b64_val (b64_char i) = Some i.
Proof.
  intros Hi. pose proof (proj1 (Forall_forall _ _) b64_table (Z.to_nat i)) as Ht.
  cbv beta in Ht. rewrite Z2Nat.id in Ht by lia. apply Ht, elem_of_seq. lia.
Qed.

Lemma b64_char_not_pad i : (0 ≤ i < 64)%Z → Ascii.eqb (b64_char i) pad = false.
Proof.
  intros Hi. destruct (Ascii.eqb_spec (b64_char i) pad) as [He|]; [|done].
  pose proof (b64_val_char i Hi) as Hv. rewrite He in Hv. discriminate.
Qed.

Ltac b64_group :=
  repeat first [ rewrite b64_val_char by b64_arith | rewrite b64_char_not_pad by b64_arith ];
  cbn [mbind option_bind andb Ascii.eqb pad String.eqb].

Lemma decode_encode_values bs :
  Forall (λ b, 0 ≤ b < 256)%Z bs → decode_values (encode_values bs) = Some bs.
Proof.
  revert bs. fix IH 1. intros [|b1 [|b2 [|b3 rest]]] Hb; [done| | |].
  - apply Forall_cons in Hb as [H1 _]. cbn [encode_values decode_values]. b64_group.
    do 2 f_equal. b64_arith.
  - apply Forall_cons in Hb as [H1 Hb]. apply Forall_cons in Hb as [H2 _].
    cbn [encode_values decode_values]. b64_group. do 2 f_equal; [b64_arith|f_equal; b64_arith].
  - apply Forall_cons in Hb as [H1 Hb]. apply Forall_cons in Hb as [H2 Hb]. apply Forall_cons in Hb as [H3 Hb].
    cbn [encode_values decode_values]. b64_group. rewrite (IH rest Hb). cbn [mbind option_bind].
    f_equal. f_equal; [b64_arith|]. f_equal; [b64_arith|]. f_equal. b64_arith.
Qed.

Lemma byte_value_bounds b : (0 ≤ byte_value b < 256)%Z.
Proof. unfold byte_value. pose proof (Byte.to_N_bounded b). lia. Qed.

Lemma mapM_of_byte_value bs : mapM (λ v, Byte.of_N (Z.to_N v)) (map byte_value bs) = Some bs.
Proof.
  induction bs as [|b bs IH]; [done|]. cbn [map mapM].
  change (byte_value b) with (Z.of_N (Byte.to_N b)). rewrite N2Z.id, Byte.of_to_N. cbn [mbind option_bind]. rewrite IH. reflexivity.
Qed.

(** [Buffer.from(buffer.toString("base64"), "base64")] gives back the bytes. *)
Lemma base64_decode_encode bs : base64_decode (buffer_to_base64 bs) = Some bs.
Proof.
  unfold base64_decode, buffer_to_base64. rewrite decode_encode_values.
  - apply mapM_of_byte_value.
  - apply Forall_forall. intros v (b & -> & _)%list_elem_of_fmap. apply byte_value_bounds.
Qed.

End Base64.

Module Path.

(** The segments of a path between [/] separators. *)
Fixpoint split_slash (s : string) : list string :=
  match s with
  | EmptyString => [EmptyString]
  | String c s' =>
      if Ascii.eqb c "/"%char then EmptyString :: split_slash s'
      else match split_slash s' with
           | seg :: segs => String c seg :: segs
           | [] => [String c EmptyString]
           end
  end.

(** [normalizeString]: the segments kept, innermost first. *)
Definition normalize_step (acc : list string) (seg : string) : list string :=
  if String.eqb seg EmptyString || String.eqb seg "." then acc
  else if String.eqb seg ".." then tail acc
  else seg :: acc.

Definition normalize (segs : list string) : list string := foldl normalize_step [] segs.

Definition is_absolute (p : string) : bool :=
  match p with String c _ => Ascii.eqb c "/"%char | EmptyString => false end.

(** [path.resolve(p)] in the current directory [cwd] (itself absolute). *)
Definition path_resolve (cwd p : string) : string :=
  let full := if is_absolute p then p else cwd +:+ "/" +:+ p in
  "/" +:+ join "/" (rev (normalize (split_slash full))).

(** ** Lemmas *)

Lemma split_slash_nonempty s : split_slash s ≠ [].
Proof. destruct s as [|c s]; simpl; [done|]. destruct (Ascii.eqb c _); [done|]. by destruct (split_slash s). Qed.

(** A separator splits the segments of the two sides. *)
Lemma split_slash_app a b : split_slash (a +:+ "/" +:+ b) = (split_slash a ++ split_slash b)%list.
Proof.
  induction a as [|c a IH]; [reflexivity|]. cbn [split_slash]. rewrite str_app_cons. cbn [split_slash].
  rewrite IH. destruct (Ascii.eqb c "/"%char); [done|].
  pose proof (split_slash_nonempty a). by destruct (split_slash a).
Qed.

(** A relative path is resolved against the current directory. *)
Lemma path_resolve_relative cwd p : is_absolute p = false →
  path_resolve cwd p = "/" +:+ join "/" (rev (foldl normalize_step (normalize (split_slash cwd)) (split_slash p))).
Proof. intros Hp. unfold path_resolve, normalize. rewrite Hp, split_slash_app, foldl_app. reflexivity. Qed.

End Path.
