(* ===== verification/Train.v ===== *)
(** * The train-ticket server ([src/dist/12306_tool.js])

    [handleGetHuochepiaoList] validates its three arguments, POSTs
    the two station names to the code-resolution endpoint, POSTs the two
    codes with the date to the search endpoint, and renames the fields of
    the answer ([convertFieldNames], [convertSeatName]).  Its answers use
    [buildSuccessResponse] / [buildErrorResponse], which flag errors with
    an [error] key.  [handleGetSystemTime] formats the local time as
    [yyyy-MM-dd hh:mm:ss].

    The handler is an [Io.io] program: [Math.random()] (for the
    User-Agent), the two POSTs, [Date.now()] and the [console.log] between
    them are its events, and the answers of the upstream are the
    oracle's. *)

From S2P Require Import Prelude JsString JsValue Io Mcp Lifecycle.
Import JsString JsValue Io Mcp Lifecycle.

Module Train.

Definition TONGCHENG_CODE_URL : string := "https://www.ly.com/trainbffapi/getCodeByStationName".
Definition TONGCHENG_TRAIN_URL : string := "https://www.ly.com/trainsearchbffapi/trainSearch".

Definition USER_AGENTS : list string := [
  "Mozilla/5.0 (Windows NT 10.0; Win64; x64) AppleWebKit/537.36 (KHTML, like Gecko) Chrome/124.0.0.0 Safari/537.36";
  "Mozilla/5.0 (Macintosh; Intel Mac OS X 10_15_7) AppleWebKit/537.36 (KHTML, like Gecko) Chrome/124.0.0.0 Safari/537.36";
  "Mozilla/5.0 (Windows NT 10.0; Win64; x64; rv:125.0) Gecko/20100101 Firefox/125.0";
  "Mozilla/5.0 (Macintosh; Intel Mac OS X 10.15; rv:125.0) Gecko/20100101 Firefox/125.0";
  "Mozilla/5.0 (Macintosh; Intel Mac OS X 10_15_7) AppleWebKit/605.1.15 (KHTML, like Gecko) Version/17.4 Safari/605.1.15";
  "Mozilla/5.0 (Windows NT 10.0; Win64; x64) AppleWebKit/537.36 (KHTML, like Gecko) Chrome/124.0.0.0 Safari/537.36 Edg/124.0.2478.67";
  "Mozilla/5.0 (iPhone; CPU iPhone OS 17_4 like Mac OS X) AppleWebKit/605.1.15 (KHTML, like Gecko) Version/17.4 Mobile/15E148 Safari/604.1";
  "Mozilla/5.0 (Linux; Android 13; SM-G998B) AppleWebKit/537.36 (KHTML, like Gecko) Chrome/124.0.0.0 Mobile Safari/537.36";
  "Mozilla/5.0 (Windows NT 10.0; Win64; x64) AppleWebKit/537.36 (KHTML, like Gecko) Chrome/124.0.0.0 Safari/537.36 OPR/85.0.4341.18";
  "Mozilla/5.0 (X11; Linux x86_64) AppleWebKit/537.36 (KHTML, like Gecko) Chrome/124.0.0.0 Safari/537.36 Vivaldi/6.2.3105.47"].

(** [USER_AGENTS[Math.floor(Math.random() * USER_AGENTS.length)]], with
    [Math.random() = ua_seed / 2^53]; [undefined] out of range. *)
Definition getRandomUserAgent (ua_seed : Z) : jsv :=
  match random_pick USER_AGENTS ua_seed with
  | Some ua => JStr ua
  | None => JUndef
  end.

(** The envelope [{content: [{type: "text", text}], error}]. *)
Definition buildSuccessResponse (text : jsv) : jsv :=
  JObj [("content", text_content text); ("error", JBool false)].

Definition buildErrorResponse (text : jsv) : jsv :=
  JObj [("content", text_content text); ("error", JBool true)].

(** [convertSeatName]: a chain of [===] tests against string literals. *)
Definition convertSeatName (seatClassCode : jsv) : string :=
  if strict_eq seatClassCode (JStr "9") then "商务座"
  else if strict_eq seatClassCode (JStr "M") then "一等座"
  else if strict_eq seatClassCode (JStr "O") then "二等座"
  else if strict_eq seatClassCode (JStr "4") then "软卧"
  else if strict_eq seatClassCode (JStr "3") then "硬卧"
  else if strict_eq seatClassCode (JStr "1") then "硬座"
  else if strict_eq seatClassCode (JStr "W") then "无座"
  else "".

(** The callback of [item.trainAvs?.map(seat => ...)]. *)
Definition convertSeat (seat : jsv) : js_res jsv :=
  code ← get seat "seatClassCode";
  price ← get seat "price";
  num ← get seat "num";
  JOk (JObj [("类型", JStr (convertSeatName code)); ("价格", price); ("余票", num)]).

(** The callback of [resultData.trains?.map(item => ...)]. *)
Definition convertTrain (item : jsv) : js_res jsv :=
  arrivalDays ← get item "arrivalDays";
  depStationCode ← get item "depStationCode";
  startStationCode ← get item "startStationCode";
  trainCode ← get item "trainCode";
  depStationName ← get item "depStationName";
  depDate ← get item "depDate";
  depTime ← get item "depTime";
  arrStationName ← get item "arrStationName";
  arrDate ← get item "arrDate";
  arrTime ← get item "arrTime";
  runTime ← get item "runTime";
  trainAvs ← get item "trainAvs";
  seats ← opt_map trainAvs convertSeat;
  let origin := strict_eq depStationCode startStationCode in
  JOk (JObj [
    ("是否当日到达", JStr (if gt_num arrivalDays 1 then "否" else "是"));
    ("出发火车站是否是经停站", JStr (if origin then "不是经停站" else "是经停站"));
    ("出发火车站是否是始发站", JStr (if origin then "是始发站" else "不是始发站"));
    ("车次号", trainCode);
    ("出发车站名称", depStationName);
    ("出发日期", depDate);
    ("出发时间", depTime);
    ("到达车站名称", arrStationName);
    ("到达日期", arrDate);
    ("到达时间", arrTime);
    ("历时小时分钟", runTime);
    ("座位类型", seats)]).

(** [convertFieldNames(resultData, depStationName, arrStationName)] *)
Definition convertFieldNames (resultData depStationName arrStationName : jsv) : js_res jsv :=
  if negb (truthy resultData) then JOk resultData
  else
    trains ← get resultData "trains";
    list ← opt_map trains convertTrain;
    JOk (JObj [
      ("用户查询出发站", depStationName);
      ("用户查询到达站", arrStationName);
      ("车次列表", js_or list (JArr []))]).

Definition request_headers (ua_seed : Z) : list (string * string) :=
  [("Content-Type", "application/json");
   ("Host", "www.ly.com");
   ("Origin", "https://www.ly.com");
   ("Accept-Encoding", "gzip, deflate, br, zstd");
   ("User-Agent", to_string (getRandomUserAgent ua_seed))].

Definition code_request (ua_seed : Z) (depStationName arrStationName : jsv) : request :=
  mk_request "POST" TONGCHENG_CODE_URL (request_headers ua_seed)
    (JObj [("names", JArr [depStationName; arrStationName]); ("pid", JNum 1)]).

Definition search_params (startCode endCode depDate : jsv) (now : Z) : jsv :=
  JObj [("depStation", startCode); ("arrStation", endCode); ("depDate", depDate);
        ("type", JStr "ADULT"); ("traceId", JStr (string_of_Z now)); ("pid", JNum 1)].

Definition search_request (ua_seed : Z) (params2 : jsv) : request :=
  mk_request "POST" TONGCHENG_TRAIN_URL (request_headers ua_seed) params2.

Definition MSG_INCOMPLETE : string := "参数不完整，请确保提供了depStationName、arrStationName、depDate".
Definition MSG_CODE_FAILED : string := "获取火车票城市编码数据失败".
Definition MSG_LIST_FAILED : string := "获取火车票列表数据失败:".
Definition MSG_EMPTY : string := "数据为空".

(** [!x || x == ""]: a falsy value, or one loosely equal to the empty
    string (among truthy values only an array whose [String] is empty,
    such as [[]], is). *)
Definition blank (x : jsv) : bool :=
  negb (truthy x) || match x with JArr _ => String.eqb (to_string x) "" | _ => false end.

Definition args_missing (depStationName arrStationName depDate : jsv) : bool :=
  blank depStationName || blank arrStationName || blank depDate.

(** The code-resolution answer: [None] when [respBody.code !== 200]
    (the handler returns early), else [respBody.data[0]] and
    [respBody.data[1]]. *)
Definition codes_of (respBody : jsv) : js_res (option (jsv * jsv)) :=
  code ← get respBody "code";
  if negb (strict_eq code (JNum 200)) then JOk None
  else
    data ← get respBody "data";
    startCode ← index data 0;
    endCode ← index data 1;
    JOk (Some (startCode, endCode)).

(** [!resultData.trains || resultData.trains.length == 0] *)
Definition trains_empty (trains : jsv) : js_res bool :=
  if negb (truthy trains) then JOk true
  else len ← get trains "length"; JOk (loose_eq_num len 0).

(** What the handler does with the search answer [data2]. *)
Definition searchResult (depStationName arrStationName data2 : jsv) : js_res jsv :=
  code2 ← get data2 "code";
  if truthy code2 && negb (strict_eq code2 (JNum 200)) then
    message ← get data2 "message";
    JOk (buildErrorResponse (JStr (MSG_LIST_FAILED +:+ to_string message)))
  else
    success ← get data2 "success";
    if negb (truthy success) then
      errorMessage ← get data2 "errorMessage";
      JOk (buildErrorResponse (JStr (MSG_LIST_FAILED +:+ to_string errorMessage)))
    else
      resultData ← get data2 "data";
      trains ← get resultData "trains";
      empty ← trains_empty trains;
      if (empty : bool) then JOk (buildSuccessResponse (JStr MSG_EMPTY))
      else
        finalResult ← convertFieldNames resultData depStationName arrStationName;
        JOk (buildSuccessResponse
               (match stringify_indent2 finalResult with Some s => JStr s | None => JUndef end)).

(** The handler after the code request: the early return, or the
    search request and its processing. *)
Definition after_codes (depStationName arrStationName depDate : jsv) (ua_seed : Z)
    (codes : option (jsv * jsv)) : io jsv :=
  match codes with
  | None => IoRet (buildErrorResponse (JStr MSG_CODE_FAILED))
  | Some (startCode, endCode) =>
      now ← date_now;
      let params2 := search_params startCode endCode depDate now in
      log (default "undefined" (stringify params2));;
      data2 ← fetch (search_request ua_seed params2);
      lift (searchResult depStationName arrStationName data2)
  end.

(** [handleGetHuochepiaoList(depStationName, arrStationName, depDate)] *)
Definition handleGetHuochepiaoList (depStationName arrStationName depDate : jsv) : io jsv :=
  if args_missing depStationName arrStationName depDate
  then IoRet (buildErrorResponse (JStr MSG_INCOMPLETE))
  else
    ua_seed ← math_random;
    respBody ← fetch (code_request ua_seed depStationName arrStationName);
    codes ← lift (codes_of respBody);
    after_codes depStationName arrStationName depDate ua_seed codes.

(** ** [handleGetSystemTime] *)

(** [String(x).padStart(2, "0")] *)
Definition pad2 (x : nat) : string := padStart 2 "0"%char (string_of_N (N.of_nat x)).

Definition formatTime (d : local_date) : string :=
  string_of_N (year d) +:+ "-" +:+ pad2 (S (month d)) +:+ "-" +:+ pad2 (day d) +:+ " "
  +:+ pad2 (hours d) +:+ ":" +:+ pad2 (minutes d) +:+ ":" +:+ pad2 (seconds d).

Definition handleGetSystemTime : io jsv :=
  now ← new_date;
  IoRet (JObj [("content", text_content (JStr (formatTime now))); ("isError", JBool false)]).

(** ** Registration ([server.registerTool], [server.tool]) *)

Definition huochepiao_schema : list zfield :=
  [mk_zfield "depStationName" ZString false; mk_zfield "arrStationName" ZString false;
   mk_zfield "depDate" ZString false].

(** [GET_HUOCHEPIAO_LIST]: the callback destructures the parsed
    arguments and calls [handleGetHuochepiaoList]. *)
Definition huochepiao_tool : tool :=
  mk_tool "query_train_tickets_list" (Some huochepiao_schema)
    (λ args,
       depStationName ← lift (get args "depStationName");
       arrStationName ← lift (get args "arrStationName");
       depDate ← lift (get args "depDate");
       handleGetHuochepiaoList depStationName arrStationName depDate).

(** [GET_SYSTIME], registered with the empty shape [{}]. *)
Definition systime_tool : tool :=
  mk_tool "get_current_system_time" (Some []) (λ _, handleGetSystemTime).

Definition train_tools : list tool := [huochepiao_tool; systime_tool].

(** ** The exported descriptors [GET_HUOCHEPIAO_LIST] and [GET_SYSTIME]

    Objects with a [name], a [description] and a JSON-Schema
    [inputSchema]; the registrations read their [name] and
    [description] and pass zod shapes of their own. *)

Definition GET_HUOCHEPIAO_LIST : jsv :=
  JObj [("name", JStr "query_train_tickets_list");
        ("description", JStr "火车票车次列表查询功能，查询指定日期、出发地和目的地之间的火车票信息。输入用户提供的出发站出发城市、到达站到达城市、出发日期进行查询结果，返回包含车次列表、出发/到达站信息、座位类型及票价等详细信息。本工具提供中国境内火车票班次信息的全面查询服务，数据实时对接同程旅行网官方接口。 提供不同座位类型（商务座/一等座/二等座等）的实时票价");
        ("inputSchema", JObj [
           ("type", JStr "object");
           ("properties", JObj [
              ("depStationName", JObj [("type", JStr "string");
                 ("description", JStr "出发火车站名称或者出发城市名称。支持输入火车站全称（如北京西站）或城市名（如北京）")]);
              ("arrStationName", JObj [("type", JStr "string");
                 ("description", JStr "目的地火车站名称或者到城市名称。支持输入火车站全称（如北京西站）或城市名（如北京）")]);
              ("depDate", JObj [("type", JStr "string");
                 ("description", JStr "出发日期：格式必须为yyyy-MM-dd")])]);
           ("required", JArr [JStr "depStationName"; JStr "arrStationName"; JStr "depDate"])])].

Definition GET_SYSTIME : jsv :=
  JObj [("name", JStr "get_current_system_time");
        ("description", JStr ("查询当前系统时间工具，它可以帮助你获取当前系统日期时间，返回格式为:yyyy-MM-dd hh:mm:ss，可用于火车票查询等需要时间验证的场景。" +:+
                              "例如获取今天北京到上海的火车票，则先调用当前方法获取时间，再获取火车票详情"));
        ("inputSchema", JObj [("type", JStr "object"); ("properties", JObj []); ("required", JArr [])])].

(** [descriptor.inputSchema] *)
Definition input_schema (d : jsv) : jsv :=
  match d with JObj fs => field fs "inputSchema" | _ => JUndef end.

(** ** The server process ([src/dist/12306_tool.js])

    [new McpServer({name, version, capabilities, instructions})], the
    registration above, and [main().catch(...)]. *)

Definition train_instructions : string :=
  "本 MCP 服务专为12306火车票查询设计，提供车次列表查询和当前系统时间查询功能。服务功能和规则如下".

(** The argument of [new McpServer(...)]. *)
Definition train_info : jsv :=
  JObj [("name", JStr "xing-12306-mcp"); ("version", JStr "1.0.0");
        ("capabilities", JObj [("resources", JObj []); ("tools", JObj [])]); ("instructions", JStr train_instructions)].

Definition train_boot : server_error + server :=
  register_tools (new_McpServer train_info JUndef) train_tools.

Definition TRAIN_BANNER : string := "MCP Server running on stdio @Xing".

(** [main().catch(...)] *)
Definition train_main (s : server) : io server := main_catch s TRAIN_BANNER.

(** ** The request protocol of [handleGetHuochepiaoList] *)

(** An upstream that answers the code request with [codes] and any other
    request with [search]; [Math.random()] is [seed / 2^53] and
    [Date.now()] is [now]. *)
Definition stub_oracle (seed now : Z) (codes search : jsv) : oracle :=
  λ e, match e return js_res (answer e) with
       | EvFetch r => if String.eqb (req_url r) TONGCHENG_CODE_URL then JOk codes else JOk search
       | EvExec _ => JOk (mk_exec_result true "" "")
       | EvLog _ => JOk tt
       | EvRandom => JOk seed
       | EvNow => JOk now
       | EvLocalDate => JOk (mk_date 2025 7 30 9 5 0)
       | EvReadFile _ => JOk [] | EvCwd => JOk "/" | EvConnect | EvExit _ => JOk tt
       end.

Lemma stub_console_ok seed now codes search : console_ok (stub_oracle seed now codes search).
Proof. intros msg. reflexivity. Qed.

(** The run once the code request has been answered with [body]. *)
Lemma run_handle_after_codes dep arr date (o : oracle) k body :
  args_missing dep arr date = false →
  o EvRandom = JOk k →
  o (EvFetch (code_request k dep arr)) = JOk body →
  run o (handleGetHuochepiaoList dep arr date) =
    let '(t, r) := run o (lift (codes_of body) ≫= after_codes dep arr date k) in
    (EvRandom :: EvFetch (code_request k dep arr) :: t, r).
Proof.
  intros Hargs Hk Ho. unfold handleGetHuochepiaoList. rewrite Hargs.
  cbn [run io_bind lift fetch math_random mbind io_bind_inst]. rewrite Hk.
  cbn [run io_bind lift fetch]. rewrite Ho. cbn [io_bind lift].
  by destruct (run o (lift (codes_of body) ≫= after_codes dep arr date k)).
Qed.

(** The run once both codes are known. *)
Lemma run_handle_after_search dep arr date (o : oracle) k now body sc ec :
  args_missing dep arr date = false → console_ok o →
  o EvRandom = JOk k → o EvNow = JOk now →
  o (EvFetch (code_request k dep arr)) = JOk body →
  codes_of body = JOk (Some (sc, ec)) →
  run o (handleGetHuochepiaoList dep arr date) =
    let req2 := search_request k (search_params sc ec date now) in
    let evs := [EvRandom; EvFetch (code_request k dep arr); EvNow;
                EvLog (default "undefined" (stringify (search_params sc ec date now)));
                EvFetch req2] in
    match o (EvFetch req2) with
    | JOk data2 => (evs, searchResult dep arr data2)
    | JThrow err => (evs, JThrow err)
    end.
Proof.
  intros Hargs Hlog Hk Hnow Ho Hc. rewrite (run_handle_after_codes _ _ _ _ _ _ Hargs Hk Ho), Hc.
  cbn [run io_bind lift fetch log date_now after_codes mbind io_bind_inst]. rewrite Hnow.
  cbn [run io_bind lift].
  rewrite Hlog. cbn [run io_bind lift].
  destruct (o (EvFetch (search_request k (search_params sc ec date now)))) as [data2|err];
    cbn [run io_bind lift]; [|done].
  by destruct (searchResult dep arr data2).
Qed.

Lemma run_handle_missing dep arr date (o : oracle) :
  args_missing dep arr date = true →
  run o (handleGetHuochepiaoList dep arr date) = ([], JOk (buildErrorResponse (JStr MSG_INCOMPLETE))).
Proof. intros H. unfold handleGetHuochepiaoList. by rewrite H. Qed.

(** The registered callback is the handler on the three fields. *)
Lemma run_huochepiao_tool (o : oracle) fs :
  run o (tool_handler huochepiao_tool (JObj fs)) =
  run o (handleGetHuochepiaoList (field fs "depStationName") (field fs "arrStationName") (field fs "depDate")).
Proof. reflexivity. Qed.

(** The validation on string arguments: [!x || x == ""] holds of a
    string exactly when it is empty. *)
Lemma args_missing_strings dep arr date :
  args_missing (JStr dep) (JStr arr) (JStr date) = true ↔ dep = "" ∨ arr = "" ∨ date = "".
Proof.
  unfold args_missing, blank. cbn [truthy].
  rewrite !negb_involutive, !orb_false_r, !orb_true_iff, !String.eqb_eq. tauto.
Qed.

(** Past the validation, the first thing the handler does is an event
    (the User-Agent draw). *)
Lemma run_handle_nonempty dep arr date (o : oracle) :
  args_missing dep arr date = false → trace o (handleGetHuochepiaoList dep arr date) ≠ [].
Proof.
  intros H. unfold trace, handleGetHuochepiaoList. rewrite H.
  unfold mbind, io_bind_inst, math_random. cbn [io_bind run]. by destruct (run _ _).
Qed.

(** On strings, the handler does nothing at all exactly when one of them
    is empty. *)
Lemma run_handle_silent dep arr date (o : oracle) :
  trace o (handleGetHuochepiaoList (JStr dep) (JStr arr) (JStr date)) = [] →
  dep = "" ∨ arr = "" ∨ date = "".
Proof.
  intros Ht. apply args_missing_strings.
  destruct (args_missing _ _ _) eqn:E; [done|]. by apply run_handle_nonempty with (o := o) in E.
Qed.

Lemma run_handle_strings dep arr date (o : oracle) :
  run o (handleGetHuochepiaoList (JStr dep) (JStr arr) (JStr date))
    = ([], JOk (buildErrorResponse (JStr MSG_INCOMPLETE)))
  ↔ dep = "" ∨ arr = "" ∨ date = "".
Proof.
  split.
  - intros Hrun. apply (run_handle_silent _ _ _ o). unfold trace. by rewrite Hrun.
  - intros H. by apply run_handle_missing, args_missing_strings.
Qed.

(** C1: Called with string arguments (what the registered schema lets
    through), the handler answers the incomplete-parameters error without
    any event (no User-Agent draw, no request) exactly when the departure
    station, the arrival station or the date is the empty string; with
    three non-empty strings it always goes on to the requests. *)
Theorem handle_missing_args (dep arr date : string) (o : oracle) :
  run o (handleGetHuochepiaoList (JStr dep) (JStr arr) (JStr date))
    = ([], JOk (buildErrorResponse (JStr MSG_INCOMPLETE)))
  ↔ dep = "" ∨ arr = "" ∨ date = "".
Proof. apply run_handle_strings. Qed.

Lemma handle_missing_args_witness :
  run (stub_oracle 0 0 JNull JNull) (handleGetHuochepiaoList (JStr "北京") (JStr "") (JStr "2025-08-30"))
  = ([], JOk (buildErrorResponse (JStr MSG_INCOMPLETE))).
Proof. apply (proj2 (handle_missing_args "北京" "" "2025-08-30" _)). right. left. reflexivity. Defined.

(** C2: With complete arguments, the handler issues exactly two requests,
    in this order: the code request carrying both station names, then
    the search request carrying the two codes [data[0]], [data[1]] of the
    first answer, the date and [Date.now()]; both carry the same randomly
    chosen User-Agent. *)
Theorem handle_two_requests dep arr date (o : oracle) k now body sc ec :
  args_missing dep arr date = false → console_ok o →
  o EvRandom = JOk k → o EvNow = JOk now →
  o (EvFetch (code_request k dep arr)) = JOk body →
  codes_of body = JOk (Some (sc, ec)) →
  requests (trace o (handleGetHuochepiaoList dep arr date))
  = [code_request k dep arr; search_request k (search_params sc ec date now)].
Proof.
  intros Hargs Hlog Hk Hnow Ho Hc. unfold trace.
  rewrite (run_handle_after_search _ _ _ _ _ _ _ _ _ Hargs Hlog Hk Hnow Ho Hc).
  simpl. by case_match.
Qed.

(** C3: When the code-resolution answer's [code] is not [200], the
    handler answers the code error after that one request: the search
    request is never sent. *)
Theorem handle_code_failure dep arr date (o : oracle) k body c :
  args_missing dep arr date = false →
  o EvRandom = JOk k →
  o (EvFetch (code_request k dep arr)) = JOk body →
  get body "code" = JOk c → c ≠ JNum 200 →
  run o (handleGetHuochepiaoList dep arr date)
  = ([EvRandom; EvFetch (code_request k dep arr)], JOk (buildErrorResponse (JStr MSG_CODE_FAILED))).
Proof.
  intros Hargs Hk Ho Hcode Hne. rewrite (run_handle_after_codes _ _ _ _ _ _ Hargs Hk Ho).
  unfold codes_of. rewrite Hcode. simpl.
  destruct (strict_eq c (JNum 200)) eqn:E; [by apply strict_eq_num in E|done].
Qed.

(** The search parameters of a station the code endpoint did not
    resolve: [JSON.stringify] leaves the [undefined] member out. *)
Definition unresolved_arrival_params (startCode depDate : jsv) (now : Z) : jsv :=
  JObj [("depStation", startCode); ("depDate", depDate); ("type", JStr "ADULT");
        ("traceId", JStr (string_of_Z now)); ("pid", JNum 1)].

(** C4: The handler does not check that the code endpoint resolved both
    stations.  When it answers [code: 200] with a single code (an arrival
    station it does not know), [respBody.data[1]] is [undefined] and the
    handler still goes on: it logs the search parameters and sends the
    search request, and the JSON text it logs and sends as the body has
    no [arrStation] member at all. *)
Theorem handle_unresolved_station dep arr date (o : oracle) k now sc :
  args_missing dep arr date = false → console_ok o →
  o EvRandom = JOk k → o EvNow = JOk now →
  o (EvFetch (code_request k dep arr)) = JOk (JObj [("code", JNum 200); ("data", JArr [sc])]) →
  trace o (handleGetHuochepiaoList dep arr date)
  = [EvRandom; EvFetch (code_request k dep arr); EvNow;
     EvLog (default "undefined" (stringify (unresolved_arrival_params sc date now)));
     EvFetch (search_request k (search_params sc JUndef date now))] ∧
  stringify (req_payload (search_request k (search_params sc JUndef date now)))
  = stringify (unresolved_arrival_params sc date now).
Proof.
  intros Hargs Hlog Hk Hnow Ho. split; [|reflexivity]. unfold trace.
  rewrite (run_handle_after_search _ _ _ _ _ _ _ sc JUndef Hargs Hlog Hk Hnow Ho); [|reflexivity].
  cbv zeta. destruct (o (EvFetch (search_request _ _))); reflexivity.
Qed.

Lemma handle_unresolved_station_witness :
  trace (stub_oracle 0 1756512000000 (JObj [("code", JNum 200); ("data", JArr [JStr "BJP"])]) JNull)
    (handleGetHuochepiaoList (JStr "北京") (JStr "火星") (JStr "2025-08-30"))
  = [EvRandom; EvFetch (code_request 0 (JStr "北京") (JStr "火星")); EvNow;
     EvLog (default "undefined" (stringify (unresolved_arrival_params (JStr "BJP") (JStr "2025-08-30") 1756512000000)));
     EvFetch (search_request 0 (search_params (JStr "BJP") JUndef (JStr "2025-08-30") 1756512000000))].
Proof.
  apply (handle_unresolved_station (JStr "北京") (JStr "火星") (JStr "2025-08-30") _ 0%Z 1756512000000%Z (JStr "BJP"));
    [reflexivity | apply stub_console_ok | reflexivity | reflexivity | reflexivity].
Defined.

(** The answer of the code endpoint in the shape of the source comment
    [{"code":200,"data":["CQW","BJP"]}]. *)
Definition codes_answer (sc ec : string) : jsv :=
  JObj [("code", JNum 200); ("data", JArr [JStr sc; JStr ec])].

Lemma codes_of_answer sc ec : codes_of (codes_answer sc ec) = JOk (Some (JStr sc, JStr ec)).
Proof. reflexivity. Qed.

(** A search answer with no train. *)
Definition empty_search_answer : list (string * jsv) :=
  [("code", JNum 200); ("success", JBool true); ("data", JObj [("trains", JArr [])])].

(** The scenario of the spec: Beijing to Shanghai on 2025-08-30, the
    stations resolving to [BJP] and [SHH]. *)
Definition scenario_oracle (search : jsv) : oracle :=
  stub_oracle 0 1756512000000 (codes_answer "BJP" "SHH") search.

Lemma handle_two_requests_witness :
  requests (trace (scenario_oracle JNull) (handleGetHuochepiaoList (JStr "北京") (JStr "上海") (JStr "2025-08-30")))
  = [code_request 0 (JStr "北京") (JStr "上海");
     search_request 0 (search_params (JStr "BJP") (JStr "SHH") (JStr "2025-08-30") 1756512000000)].
Proof.
  apply (handle_two_requests (JStr "北京") (JStr "上海") (JStr "2025-08-30") (scenario_oracle JNull) 0%Z 1756512000000%Z
           (codes_answer "BJP" "SHH"));
    [reflexivity | apply stub_console_ok | reflexivity | reflexivity | reflexivity | reflexivity].
Defined.

Lemma handle_code_failure_witness :
  run (stub_oracle 0 0 (JObj [("code", JNum 500)]) JNull) (handleGetHuochepiaoList (JStr "北京") (JStr "上海") (JStr "2025-08-30"))
  = ([EvRandom; EvFetch (code_request 0 (JStr "北京") (JStr "上海"))], JOk (buildErrorResponse (JStr MSG_CODE_FAILED))).
Proof.
  apply (handle_code_failure (JStr "北京") (JStr "上海") (JStr "2025-08-30") _ 0%Z (JObj [("code", JNum 500)]) (JNum 500));
    [reflexivity | reflexivity | reflexivity | reflexivity | discriminate].
Defined.

(** The registered shape checks the three members in order and keeps
    exactly them. *)
Lemma zparse_huochepiao fs :
  zparse huochepiao_schema (JObj fs) =
    if negb (is_str (field fs "depStationName")) then inl "depStationName"
    else if negb (is_str (field fs "arrStationName")) then inl "arrStationName"
    else if negb (is_str (field fs "depDate")) then inl "depDate"
    else inr (JObj [("depStationName", field fs "depStationName");
                    ("arrStationName", field fs "arrStationName"); ("depDate", field fs "depDate")]).
Proof.
  unfold huochepiao_schema. cbn [zparse zparse_fields zf_name zf_optional zf_type].
  destruct (field fs "depStationName"), (field fs "arrStationName"), (field fs "depDate"); reflexivity.
Qed.

(** C11: Through the tool registry (any host satisfying the registry
    laws), the two train tools register, and a call of
    [query_train_tickets_list] with any argument object is refused by the
    schema, naming the first of [depStationName], [arrStationName],
    [depDate] that is not a string, before the handler runs; when all
    three are strings, the call is answered by the incomplete-parameters
    error with no event at all exactly when one of them is empty.  In
    every refused case there is no event.  That error answer carries
    [error: true] but no [isError], so a client reads it as a successful
    result. *)
Theorem train_call_validation {S} `{ToolHostLaws S} (o : oracle) rid :
  ∃ s, register_all host_empty train_tools = inr s ∧
  (∀ fs,
    (is_str (field fs "depStationName") = false →
       run o (call_tool s "query_train_tickets_list" (JObj fs) rid)
       = ([], JOk (inl (InvalidArguments "query_train_tickets_list" "depStationName")))) ∧
    (is_str (field fs "depStationName") = true → is_str (field fs "arrStationName") = false →
       run o (call_tool s "query_train_tickets_list" (JObj fs) rid)
       = ([], JOk (inl (InvalidArguments "query_train_tickets_list" "arrStationName")))) ∧
    (is_str (field fs "depStationName") = true → is_str (field fs "arrStationName") = true →
       is_str (field fs "depDate") = false →
       run o (call_tool s "query_train_tickets_list" (JObj fs) rid)
       = ([], JOk (inl (InvalidArguments "query_train_tickets_list" "depDate")))) ∧
    (∀ dep arr date, field fs "depStationName" = JStr dep → field fs "arrStationName" = JStr arr →
       field fs "depDate" = JStr date →
       run o (call_tool s "query_train_tickets_list" (JObj fs) rid)
       = ([], JOk (inr (buildErrorResponse (JStr MSG_INCOMPLETE))))
       ↔ dep = "" ∨ arr = "" ∨ date = "")) ∧
  client_is_error (buildErrorResponse (JStr MSG_INCOMPLETE)) = false.
Proof.
  destruct (register_all_ok host_empty train_tools) as (s & Hreg & Hfound & _).
  { by repeat constructor; set_solver. }
  { repeat constructor; apply host_lookup_empty. }
  exists s. split; [done|]. split; [|reflexivity].
  apply Forall_cons in Hfound as [Hh _]. simpl in Hh. intros fs.
  split; [|split; [|split]].
  - intros Hd. eapply call_tool_invalid; [exact Hh|reflexivity|]. by rewrite zparse_huochepiao, Hd.
  - intros Hd Ha. eapply call_tool_invalid; [exact Hh|reflexivity|]. by rewrite zparse_huochepiao, Hd, Ha.
  - intros Hd Ha Ht. eapply call_tool_invalid; [exact Hh|reflexivity|].
    by rewrite zparse_huochepiao, Hd, Ha, Ht.
  - intros dep arr date Hd Ha Ht.
    erewrite call_tool_parsed; [| exact Hh | reflexivity | by rewrite zparse_huochepiao, Hd, Ha, Ht].
    change (run o (tool_handler huochepiao_tool (JObj [("depStationName", JStr dep);
              ("arrStationName", JStr arr); ("depDate", JStr date)])))
      with (run o (handleGetHuochepiaoList (JStr dep) (JStr arr) (JStr date))).
    rewrite <- run_handle_strings with (o := o).
    destruct (run o (handleGetHuochepiaoList _ _ _)) as [tr [v|err]];
      [split; [by intros [= -> ->]|by intros [= -> ->]]|].
    split; [|done]. by intros [= -> Herr].
Qed.

Lemma train_call_validation_witness :
  ∃ s, register_all host_empty train_tools = inr s ∧
    run (stub_oracle 0 0 JNull JNull) (call_tool s "query_train_tickets_list"
             (JObj [("depStationName", JStr "北京"); ("depDate", JStr "2025-08-30")]) 1)
    = ([], JOk (inl (InvalidArguments "query_train_tickets_list" "arrStationName"))) ∧
    run (stub_oracle 0 0 JNull JNull) (call_tool s "query_train_tickets_list"
             (JObj [("depStationName", JStr "北京"); ("arrStationName", JStr ""); ("depDate", JStr "2025-08-30")]) 1)
    = ([], JOk (inr (buildErrorResponse (JStr MSG_INCOMPLETE)))).
Proof.
  destruct (@train_call_validation assoc_registry _ _ (stub_oracle 0 0 JNull JNull) 1) as (s & Hreg & Hall & _).
  exists s. split; [exact Hreg|]. split.
  - apply (proj1 (proj2 (Hall _))); reflexivity.
  - apply (proj2 (proj2 (proj2 (Hall _))) "北京" "" "2025-08-30"); try reflexivity. right. left. reflexivity.
Defined.

(** ** The field translation *)

(** The seat-class table of the spec: code and label. *)
Definition seat_labels : list (string * string) :=
  [("9", "商务座"); ("M", "一等座"); ("O", "二等座"); ("4", "软卧");
   ("3", "硬卧"); ("1", "硬座"); ("W", "无座")].

Definition seat_label (code : string) : string :=
  default "" (snd <$> find (λ p, String.eqb (fst p) code) seat_labels).

(** C5: [convertSeatName] is the lookup of the seat table: each of the
    seven codes, given as a string, gets its label; any other string and
    any value that is not a string (the number [9], [undefined]) gets the
    empty label, since every test is a strict [===]. *)
Theorem convertSeatName_table v :
  convertSeatName v = match v with JStr c => seat_label c | _ => "" end.
Proof.
  destruct v as [| | | |c| | |]; try reflexivity.
  unfold convertSeatName, seat_label, seat_labels. cbn [strict_eq find fst snd].
  rewrite !(String.eqb_sym _ c).
  repeat match goal with
  | |- context [String.eqb c ?k] =>
      let E := fresh in destruct (String.eqb c k) eqn:E; [apply String.eqb_eq in E; subst; reflexivity|]
  end.
  reflexivity.
Qed.

(** The keys of one converted train entry, in order. *)
Definition train_keys : list string :=
  ["是否当日到达"; "出发火车站是否是经停站"; "出发火车站是否是始发站"; "车次号";
   "出发车站名称"; "出发日期"; "出发时间"; "到达车站名称"; "到达日期"; "到达时间";
   "历时小时分钟"; "座位类型"].

(** A [trainAvs] value the seat map accepts: absent, [null], or an array
    of objects. *)
Definition seats_ok (v : jsv) : Prop :=
  v = JUndef ∨ v = JNull ∨ ∃ l, v = JArr l ∧ Forall (λ x, ∃ sfs, x = JObj sfs) l.

Lemma convertSeat_obj sfs :
  convertSeat (JObj sfs) =
    JOk (JObj [("类型", JStr (convertSeatName (field sfs "seatClassCode")));
               ("价格", field sfs "price"); ("余票", field sfs "num")]).
Proof. reflexivity. Qed.

Lemma seats_js_map_ok l :
  Forall (λ x, ∃ sfs, x = JObj sfs) l → ∃ rs, js_map convertSeat l = JOk rs.
Proof.
  induction 1 as [|x l [sfs ->] _ [rs IH]]; [by eexists|].
  cbn [js_map]. rewrite convertSeat_obj, IH. by eexists.
Qed.

Lemma seats_map_ok v : seats_ok v → ∃ r, opt_map v convertSeat = JOk r.
Proof.
  intros [-> | [-> | (l & -> & Hl)]]; [by eexists|by eexists|].
  destruct (seats_js_map_ok l Hl) as [rs Hrs].
  rewrite opt_map_arr, Hrs. by eexists.
Qed.

(** C6: Every train entry that is an object, whose [trainAvs] is absent,
    [null] or an array of objects, is converted without a [TypeError];
    the entry has the twelve localized keys in order, "arrives the same
    day" is "否" exactly when [arrivalDays > 1], and "is origin station"
    and "is not a via station" both hold exactly when [depStationCode ===
    startStationCode]. *)
Theorem convertTrain_spec fs :
  seats_ok (field fs "trainAvs") →
  ∃ ofs, convertTrain (JObj fs) = JOk (JObj ofs) ∧ map fst ofs = train_keys ∧
    assoc "是否当日到达" ofs = Some (JStr (if gt_num (field fs "arrivalDays") 1 then "否" else "是")) ∧
    (assoc "出发火车站是否是始发站" ofs = Some (JStr "是始发站") ↔
       strict_eq (field fs "depStationCode") (field fs "startStationCode") = true) ∧
    (assoc "出发火车站是否是经停站" ofs = Some (JStr "不是经停站") ↔
       strict_eq (field fs "depStationCode") (field fs "startStationCode") = true).
Proof.
  intros Hs. destruct (seats_map_ok _ Hs) as [seats Hseats].
  unfold convertTrain. rewrite !get_obj. simpl. rewrite Hseats. simpl.
  eexists. split; [reflexivity|]. split; [reflexivity|].
  simpl. split; [reflexivity|].
  destruct (strict_eq _ _); split; split; congruence.
Qed.

Lemma convertTrain_spec_witness :
  seats_ok (field [("trainAvs", JArr [JObj [("seatClassCode", JStr "O")]])] "trainAvs") ∧
  ∃ ofs, convertTrain (JObj [("trainAvs", JArr [JObj [("seatClassCode", JStr "O")]])]) = JOk (JObj ofs) ∧
    map fst ofs = train_keys ∧
    assoc "是否当日到达" ofs = Some (JStr "是") ∧
    (assoc "出发火车站是否是始发站" ofs = Some (JStr "是始发站") ↔ strict_eq JUndef JUndef = true) ∧
    (assoc "出发火车站是否是经停站" ofs = Some (JStr "不是经停站") ↔ strict_eq JUndef JUndef = true).
Proof.
  assert (Hs : seats_ok (field [("trainAvs", JArr [JObj [("seatClassCode", JStr "O")]])] "trainAvs")).
  { right; right. eexists. split; [reflexivity|]. repeat constructor. by eexists. }
  split; [exact Hs|]. exact (convertTrain_spec _ Hs).
Defined.

(** A null train entry is a [TypeError]: the map aborts. *)
Lemma convertTrain_null : ∃ msg, convertTrain JNull = JThrow (TypeError msg).
Proof. by eexists. Qed.

(** ** The answer processing *)

(** The guard [data2.code && data2.code !== 200] lets a falsy or a [200]
    code through. *)
Definition code_passes (c : jsv) : Prop := truthy c = false ∨ c = JNum 200.

Lemma code_passes_guard c : code_passes c → truthy c && negb (strict_eq c (JNum 200)) = false.
Proof. intros [-> | ->]; reflexivity. Qed.

Lemma code_fails_guard c :
  truthy c = true → c ≠ JNum 200 → truthy c && negb (strict_eq c (JNum 200)) = true.
Proof.
  intros Ht Hne. rewrite Ht. destruct (strict_eq c (JNum 200)) eqn:E; [|done].
  by apply strict_eq_num in E.
Qed.

(** The object [convertFieldNames] builds from converted entries. *)
Definition train_result (dep arr : jsv) (outs : list jsv) : jsv :=
  JObj [("用户查询出发站", dep); ("用户查询到达站", arr); ("车次列表", JArr outs)].

(** C7: For a search answer whose code passes, with [success] set and a
    [data.trains] array: an empty array gives the success answer "数据为空";
    a non-empty array whose entries all convert gives the success answer
    whose text is [JSON.stringify(result, null, 2)] of the two queried
    station names and the converted entries, in the upstream order. *)
Theorem searchResult_trains dep arr dfs rfs l outs :
  code_passes (field dfs "code") → truthy (field dfs "success") = true →
  field dfs "data" = JObj rfs → field rfs "trains" = JArr l →
  (l = [] → searchResult dep arr (JObj dfs) = JOk (buildSuccessResponse (JStr MSG_EMPTY))) ∧
  (l ≠ [] → js_map convertTrain l = JOk outs →
   ∃ text, stringify_indent2 (train_result dep arr outs) = Some text ∧
           searchResult dep arr (JObj dfs) = JOk (buildSuccessResponse (JStr text))).
Proof.
  intros Hc Hs Hd Ht. unfold searchResult, convertFieldNames.
  rewrite !get_obj, !js_bind_ok, (code_passes_guard _ Hc), Hs, Hd, !get_obj, !js_bind_ok, Ht.
  split.
  - by intros ->.
  - intros Hne Hmap. destruct l as [|x l]; [done|].
    rewrite opt_map_arr, Hmap. by eexists.
Qed.

Lemma searchResult_trains_witness :
  code_passes (field empty_search_answer "code") ∧
  truthy (field empty_search_answer "success") = true ∧
  ((([] : list jsv) = [] →
    searchResult (JStr "北京") (JStr "上海") (JObj empty_search_answer) = JOk (buildSuccessResponse (JStr MSG_EMPTY))) ∧
   (([] : list jsv) ≠ [] → js_map convertTrain [] = JOk [] →
    ∃ text, stringify_indent2 (train_result (JStr "北京") (JStr "上海") []) = Some text ∧
      searchResult (JStr "北京") (JStr "上海") (JObj empty_search_answer) = JOk (buildSuccessResponse (JStr text)))).
Proof.
  assert (Hc : code_passes (field empty_search_answer "code")) by (right; reflexivity).
  split; [exact Hc|]. split; [reflexivity|].
  exact (searchResult_trains (JStr "北京") (JStr "上海") empty_search_answer [("trains", JArr [])] [] [] Hc
           eq_refl eq_refl eq_refl).
Defined.

(** C8: The two upstream failures of the search answer are error
    answers whose text ends with the upstream's own message: a truthy
    code other than [200] reports [message]; otherwise a falsy [success]
    reports [errorMessage] ([String(undefined)] when absent). *)
Theorem searchResult_errors dep arr dfs :
  (truthy (field dfs "code") = true → field dfs "code" ≠ JNum 200 →
   searchResult dep arr (JObj dfs)
   = JOk (buildErrorResponse (JStr (MSG_LIST_FAILED +:+ to_string (field dfs "message"))))) ∧
  (code_passes (field dfs "code") → truthy (field dfs "success") = false →
   searchResult dep arr (JObj dfs)
   = JOk (buildErrorResponse (JStr (MSG_LIST_FAILED +:+ to_string (field dfs "errorMessage"))))).
Proof.
  unfold searchResult. rewrite !get_obj, !js_bind_ok. split.
  - intros Ht Hne. by rewrite (code_fails_guard _ Ht Hne).
  - intros Hc Hs. by rewrite (code_passes_guard _ Hc), Hs.
Qed.

Lemma searchResult_errors_witness :
  truthy (field [("code", JNum 500); ("message", JStr "busy")] "code") = true ∧
  field [("code", JNum 500); ("message", JStr "busy")] "code" ≠ JNum 200 ∧
  searchResult (JStr "北京") (JStr "上海") (JObj [("code", JNum 500); ("message", JStr "busy")])
  = JOk (buildErrorResponse (JStr (MSG_LIST_FAILED +:+ "busy"))).
Proof.
  assert (Ht : truthy (field [("code", JNum 500); ("message", JStr "busy")] "code") = true) by reflexivity.
  assert (Hne : field [("code", JNum 500); ("message", JStr "busy")] "code" ≠ JNum 200) by discriminate.
  split; [exact Ht|]. split; [exact Hne|].
  exact (proj1 (searchResult_errors (JStr "北京") (JStr "上海") _) Ht Hne).
Defined.

(** ** The system-time format *)

Definition digit_char (d : nat) : ascii := ascii_of_nat (48 + d).

Definition digit_val (c : ascii) : option nat :=
  let n := nat_of_ascii c in
  if Nat.leb 48 n && Nat.leb n 57 then Some (n - 48) else None.

Definition parse2 (a b : ascii) : option nat :=
  x ← digit_val a; y ← digit_val b; Some (10 * x + y).

(** The text before the first ["-"] and the text after it. *)
Fixpoint split_dash (s : string) : option (string * string) :=
  match s with
  | EmptyString => None
  | String c s' =>
      if Ascii.eqb c "-"%char then Some (EmptyString, s')
      else (λ p, (String c (fst p), snd p)) <$> split_dash s'
  end.

(** A reader of the [yyyy-MM-dd hh:mm:ss] text (the inverse the tool's
    callers rely on). *)
Definition parseTime (s : string) : option local_date :=
  p ← split_dash s;
  match snd p with
  | String m1 (String m2 (String "-"%char (String d1 (String d2 (String " "%char
      (String h1 (String h2 (String ":"%char (String i1 (String i2 (String ":"%char
      (String s1 (String s2 EmptyString))))))))))))) =>
      y ← parse_N (fst p);
      mo ← parse2 m1 m2; d ← parse2 d1 d2; h ← parse2 h1 h2;
      mi ← parse2 i1 i2; se ← parse2 s1 s2;
      Some (mk_date y (mo - 1) d h mi se)
  | _ => None
  end.

(** The ranges of the fields of a [Date]. *)
Definition valid_date (d : local_date) : Prop :=
  (month d < 12 ∧ 1 ≤ day d ≤ 31 ∧ hours d < 24 ∧ minutes d < 60 ∧ seconds d < 60)%nat.

Lemma pad2_digits n :
  n < 100 → pad2 n = String (digit_char (n / 10)) (String (digit_char (n mod 10)) EmptyString).
Proof.
  intros Hn. do 100 (destruct n as [|n]; [reflexivity|]). lia.
Qed.

Lemma parse2_digits n : n < 100 → parse2 (digit_char (n / 10)) (digit_char (n mod 10)) = Some n.
Proof.
  intros Hn.
  assert (Hd : ∀ d, d < 10 → digit_val (digit_char d) = Some d).
  { intros d Hd. do 10 (destruct d as [|d]; [reflexivity|]). lia. }
  pose proof (Nat.div_mod_eq n 10). pose proof (Nat.mod_upper_bound n 10).
  unfold parse2. rewrite !Hd by lia.
  change (Some (10 * (n / 10) + n mod 10) = Some n). f_equal. lia.
Qed.

Lemma split_dash_digits (u : Decimal.uint) t :
  split_dash (NilEmpty.string_of_uint u +:+ String "-"%char t) = Some (NilEmpty.string_of_uint u, t).
Proof. induction u; simpl; rewrite ?IHu; reflexivity. Qed.

(** C9: The text of [handleGetSystemTime] can be read back: for every
    date whose fields are in the ranges of a [Date] (any year),
    [parseTime] of the formatted text gives back the date; in particular
    month is printed 1-based and each two-digit field is zero-padded. *)
Theorem formatTime_roundtrip d : valid_date d → parseTime (formatTime d) = Some d.
Proof.
  destruct d as [y mo dd h mi se]. unfold valid_date. cbn [year month day hours minutes seconds].
  intros (Hmo & Hd & Hh & Hmi & Hse).
  unfold formatTime. cbn [year month day hours minutes seconds].
  rewrite !pad2_digits by lia. rewrite !str_app_cons, !str_app_nil_l.
  unfold parseTime, string_of_N. rewrite split_dash_digits.
  cbn [mbind option_bind fst snd].
  fold (string_of_N y). rewrite parse_string_of_N.
  rewrite !parse2_digits by lia. cbn [mbind option_bind].
  by rewrite Nat.sub_succ, Nat.sub_0_r.
Qed.

Lemma formatTime_roundtrip_witness :
  valid_date (mk_date 2025 7 30 9 5 0) ∧ parseTime (formatTime (mk_date 2025 7 30 9 5 0)) = Some (mk_date 2025 7 30 9 5 0).
Proof.
  assert (H : valid_date (mk_date 2025 7 30 9 5 0)) by (repeat split; cbn; lia).
  split; [exact H|]. exact (formatTime_roundtrip _ H).
Defined.

Lemma formatTime_sample : formatTime (mk_date 2025 7 3 9 5 0) = "2025-08-03 09:05:00".
Proof. reflexivity. Qed.

(** ** The User-Agent header *)

(** C10: For every value of [Math.random()], the User-Agent is one of
    the ten strings of [USER_AGENTS] (never [undefined]), and every one of
    them is chosen for some value. *)
Theorem getRandomUserAgent_range :
  (∀ k, valid_random k → ∃ ua, getRandomUserAgent k = JStr ua ∧ In ua USER_AGENTS) ∧
  (∀ ua, In ua USER_AGENTS → ∃ k, valid_random k ∧ getRandomUserAgent k = JStr ua).
Proof.
  destruct (random_pick_range USER_AGENTS) as [Hin Hsurj]; [done|unfold random_bits; simpl; lia|].
  unfold getRandomUserAgent. split.
  - intros k Hk. destruct (Hin k Hk) as (ua & -> & H). by eexists.
  - intros ua H. destruct (Hsurj ua H) as (k & Hk & Hpick). exists k. by rewrite Hpick.
Qed.

(** ** Every answer is a text envelope *)

Lemma buildSuccessResponse_ok s : envelope_ok (buildSuccessResponse (JStr s)) = true.
Proof. reflexivity. Qed.

Lemma buildErrorResponse_ok s : envelope_ok (buildErrorResponse (JStr s)) = true.
Proof. reflexivity. Qed.

(** What [convertFieldNames] returns is serializable. *)
Lemma convertFieldNames_value rd dep arr fr :
  rd ≠ JUndef → convertFieldNames rd dep arr = JOk fr → fr ≠ JUndef ∧ ∀ n, fr ≠ JFun n.
Proof.
  intros Hrd. unfold convertFieldNames. destruct (truthy rd) eqn:Ht; cbn [negb].
  - intros H. js_inv. subst. done.
  - intros [= <-]. split; [done|]. intros n ->. discriminate.
Qed.

Lemma searchResult_envelope dep arr data2 :
  js_post (λ v, envelope_ok v = true) (searchResult dep arr data2).
Proof.
  unfold searchResult. apply js_post_bind. intros code2.
  destruct (truthy code2 && _); [apply js_post_bind; intros; apply buildErrorResponse_ok|].
  apply js_post_bind. intros success. destruct (negb (truthy success));
    [apply js_post_bind; intros; apply buildErrorResponse_ok|].
  apply js_post_bind. intros rd. apply js_post_bind_eq. intros trains Htr.
  apply js_post_bind. intros empty. destruct empty; [apply buildSuccessResponse_ok|].
  apply js_post_bind_eq. intros fr Hfr.
  assert (Hu : rd ≠ JUndef) by (intros ->; discriminate Htr).
  destruct (convertFieldNames_value _ _ _ _ Hu Hfr) as [Hfu Hff].
  destruct (serialize_some "  " "" fr Hfu Hff) as [t Ht].
  unfold stringify_indent2. rewrite Ht. apply buildSuccessResponse_ok.
Qed.

Lemma handleGetHuochepiaoList_envelope dep arr date :
  io_post (λ v, envelope_ok v = true) (handleGetHuochepiaoList dep arr date).
Proof.
  unfold handleGetHuochepiaoList. destruct (args_missing dep arr date); [apply buildErrorResponse_ok|].
  unfold mbind, io_bind_inst, math_random, fetch. apply io_post_event. intros seed.
  apply io_post_event. intros body. apply io_post_lift_bind. intros [[sc ec]|] _;
    [|apply buildErrorResponse_ok].
  unfold after_codes, date_now, log, mbind, io_bind_inst, fetch.
  apply io_post_event. intros now. apply io_post_event. intros _.
  apply io_post_event. intros data2. apply io_post_lift_post, searchResult_envelope.
Qed.

Lemma handleGetSystemTime_envelope : io_post (λ v, envelope_ok v = true) handleGetSystemTime.
Proof. unfold handleGetSystemTime, mbind, io_bind_inst, new_date. apply io_post_event. done. Qed.

(** ** The descriptors and the registered schemas *)

(** C27: The exported descriptors agree with the registrations: the
    tools are registered under [GET_HUOCHEPIAO_LIST.name] and
    [GET_SYSTIME.name], and the JSON-Schema [inputSchema] of each
    descriptor accepts exactly the arguments the zod shape the tool is
    registered with parses: for the train search, the objects whose
    [depStationName], [arrStationName] and [depDate] are strings; for
    the system time, every object. *)
Theorem descriptors_match_registration v :
  get GET_HUOCHEPIAO_LIST "name" = JOk (JStr (tool_name huochepiao_tool)) ∧
  get GET_SYSTIME "name" = JOk (JStr (tool_name systime_tool)) ∧
  (schema_valid (input_schema GET_HUOCHEPIAO_LIST) v = true ↔ ∃ out, zparse huochepiao_schema v = inr out) ∧
  (schema_valid (input_schema GET_SYSTIME) v = true ↔ ∃ out, tool_schema systime_tool = Some [] ∧ zparse [] v = inr out).
Proof.
  split; [reflexivity|]. split; [reflexivity|].
  destruct v as [| | | | | |fs|];
    try (split; split; [done|intros [? [=]]|done|intros [? [_ [=]]]]).
  split.
  - unfold input_schema, GET_HUOCHEPIAO_LIST. cbn [field assoc String.eqb Ascii.eqb Bool.eqb].
    rewrite schema_valid_strings; [|repeat constructor; eexists; reflexivity|reflexivity].
    change huochepiao_schema
      with (map (λ n, mk_zfield n ZString false) ["depStationName"; "arrStationName"; "depDate"]).
    rewrite zparse_obj_ok, zparse_fields_strings, !Forall_cons, !is_str_field. cbn [fst]. naive_solver.
  - split; [|done]. intros _. eexists. split; reflexivity.
Qed.

End Train.
