(* ===== verification/Binance.v ===== *)
(** * The Binance market-data server ([src/src/binance/*])

    [binance_get_api.ts] builds one GET request per call through
    [axiosBinanceGet(path, params)], which prefixes the path with a base
    URL chosen at random by [getBaseUrl()] ([src/dist/binance/
    binance_config.js]) and returns the response body.  The builders
    upper-case the symbol (except the ticker-price, book-ticker and
    windowed-ticker ones), default or drop optional numbers, and
    JSON-encode symbol lists.  [binance_get_tool.ts] wraps eight of them
    as tools whose answer is [JSON.stringify] of the body;
    [binance_server.ts] registers the eight with the SDK.

    Arguments are JavaScript values ([jsv]): the tool callbacks pass the
    fields of the zod-parsed argument object, and the builders are also
    exported and called directly (the tests call them with literals). *)

From S2P Require Import Prelude JsString JsValue Io Mcp.
Import JsString JsValue Io Mcp.

Module Binance.

(** ** [binance_config.js] *)

Definition binanceBaseUrls : list string :=
  ["https://api.binance.com"; "https://api-gcp.binance.com"; "https://api1.binance.com";
   "https://api2.binance.com"; "https://api3.binance.com"; "https://api4.binance.com"].

(** [getBaseUrl()]: [binanceBaseUrls[Math.floor(Math.random() * 6)]] *)
Definition getBaseUrl : io jsv :=
  k ← math_random;
  IoRet (match random_pick binanceBaseUrls k with Some u => JStr u | None => JUndef end).

(** ** [binance_get_api.ts] *)

(** [axiosBinanceGet(path, params)]: GET [`${baseUrl}${path}`] with the
    query [params]; the body of the answer. *)
Definition axiosBinanceGet (path : string) (params : jsv) : io jsv :=
  baseUrl ← getBaseUrl;
  fetch (mk_request "GET" (to_string baseUrl +:+ path) [] params).

(** The builders that start with [symbol.toUpperCase()]. *)
Definition with_upper_symbol (symbol : jsv) (k : jsv → io jsv) : io jsv :=
  sym ← lift (call_toUpperCase symbol); k sym.

Definition fetchBinanceTrades (symbol limit : jsv) : io jsv :=
  with_upper_symbol symbol (λ sym,
    axiosBinanceGet "/api/v3/trades" (JObj [("symbol", sym); ("limit", nullish_or limit (JNum 100))])).

Definition binanceDepth (symbol limit : jsv) : io jsv :=
  with_upper_symbol symbol (λ sym,
    axiosBinanceGet "/api/v3/depth" (JObj [("symbol", sym); ("limit", nullish_or limit (JNum 100))])).

Definition ping : io jsv := axiosBinanceGet "/api/v3/ping" JUndef.

Definition serverTime : io jsv := axiosBinanceGet "/api/v3/time" JUndef.

Definition exchangeInfo (params : jsv) : io jsv := axiosBinanceGet "/api/v3/exchangeInfo" params.

Definition orderBook (symbol limit : jsv) : io jsv :=
  with_upper_symbol symbol (λ sym,
    axiosBinanceGet "/api/v3/depth" (JObj ([("symbol", sym)] ++ spread_truthy "limit" limit)%list)).

Definition recentTrades (symbol limit : jsv) : io jsv :=
  with_upper_symbol symbol (λ sym,
    axiosBinanceGet "/api/v3/trades" (JObj ([("symbol", sym)] ++ spread_truthy "limit" limit)%list)).

Definition historicalTrades (symbol limit fromId : jsv) : io jsv :=
  with_upper_symbol symbol (λ sym,
    axiosBinanceGet "/api/v3/historicalTrades"
      (JObj ([("symbol", sym)] ++ spread_truthy "limit" limit ++ spread_truthy "fromId" fromId)%list)).

(** The [...(opts?.k && { k: opts.k })] members of [aggTrades],
    [klines] and [uiKlines]. *)
Fixpoint spread_opts (opts : jsv) (keys : list string) : js_res (list (string * jsv)) :=
  match keys with
  | [] => JOk []
  | k :: keys' =>
      v ← opt_get opts k;
      rest ← spread_opts opts keys';
      JOk (spread_truthy k v ++ rest)%list
  end.

Definition aggTrades (symbol opts : jsv) : io jsv :=
  with_upper_symbol symbol (λ sym,
    members ← lift (spread_opts opts ["fromId"; "startTime"; "endTime"; "limit"]);
    axiosBinanceGet "/api/v3/aggTrades" (JObj (("symbol", sym) :: members))).

Definition klines (symbol interval opts : jsv) : io jsv :=
  with_upper_symbol symbol (λ sym,
    members ← lift (spread_opts opts ["startTime"; "endTime"; "limit"; "timeZone"]);
    axiosBinanceGet "/api/v3/klines" (JObj (("symbol", sym) :: ("interval", interval) :: members))).

Definition uiKlines (symbol interval opts : jsv) : io jsv :=
  with_upper_symbol symbol (λ sym,
    members ← lift (spread_opts opts ["startTime"; "endTime"; "limit"; "timeZone"]);
    axiosBinanceGet "/api/v3/uiKlines" (JObj (("symbol", sym) :: ("interval", interval) :: members))).

Definition avgPrice (symbol : jsv) : io jsv :=
  with_upper_symbol symbol (λ sym, axiosBinanceGet "/api/v3/avgPrice" (JObj [("symbol", sym)])).

Definition ticker24hr (symbol : jsv) : io jsv :=
  with_upper_symbol symbol (λ sym, axiosBinanceGet "/api/v3/ticker/24hr" (JObj [("symbol", sym)])).

Definition binanceTradingDay (symbol : jsv) : io jsv :=
  with_upper_symbol symbol (λ sym, axiosBinanceGet "/api/v3/ticker/tradingDay" (JObj [("symbol", sym)])).

(** [symbol ? { symbol } : undefined]: the symbol is sent as given. *)
Definition symbol_or_all (symbol : jsv) : jsv :=
  if truthy symbol then JObj [("symbol", symbol)] else JUndef.

Definition binanceTickerPrice (symbol : jsv) : io jsv :=
  axiosBinanceGet "/api/v3/ticker/price" (symbol_or_all symbol).

Definition binanceBookTicker (symbol : jsv) : io jsv :=
  axiosBinanceGet "/api/v3/ticker/bookTicker" (symbol_or_all symbol).

(** [binanceTicker]: the members are added in the order of the [if]s;
    [symbols] is sent as its JSON text. *)
Definition ticker_params (symbol symbols windowSize type : jsv) : jsv :=
  JObj ((if truthy symbol then [("symbol", symbol)] else []) ++
        (if truthy symbols then [("symbols", stringify_value symbols)] else []) ++
        (if truthy windowSize then [("windowSize", windowSize)] else []) ++
        (if truthy type then [("type", type)] else []))%list.

Definition binanceTicker (symbol symbols windowSize type : jsv) : io jsv :=
  axiosBinanceGet "/api/v3/ticker" (ticker_params symbol symbols windowSize type).

(** ** [binance_get_tool.ts] *)

(** [{ content: [{ type: "text", text: JSON.stringify(data) }] }] *)
Definition tool_answer (data : jsv) : jsv := text_result (stringify_value data).

Definition symbol_field : zfield := mk_zfield "symbol" ZString false.
Definition optional_symbol_field : zfield := mk_zfield "symbol" ZString true.
Definition limit_field : zfield := mk_zfield "limit" ZNumber true.

Definition getCryptoPrice : tool :=
  mk_tool "getCryptoPrice" (Some [symbol_field; limit_field])
    (λ args, symbol ← lift (get args "symbol"); limit ← lift (get args "limit");
             data ← binanceDepth symbol limit; IoRet (tool_answer data)).

Definition binanceRecentTradesTool : tool :=
  mk_tool "binanceRecentTrades" (Some [symbol_field; limit_field])
    (λ args, symbol ← lift (get args "symbol"); limit ← lift (get args "limit");
             data ← fetchBinanceTrades symbol limit; IoRet (tool_answer data)).

Definition binanceTradingDayTool : tool :=
  mk_tool "binanceTradingDay" (Some [symbol_field])
    (λ args, symbol ← lift (get args "symbol");
             data ← binanceTradingDay symbol; IoRet (tool_answer data)).

Definition binanceAvgPriceTool : tool :=
  mk_tool "binanceAvgPrice" (Some [symbol_field])
    (λ args, symbol ← lift (get args "symbol");
             data ← avgPrice symbol; IoRet (tool_answer data)).

(** The description says [symbol] may be left out to get every pair,
    but the schema requires it. *)
Definition binanceTicker24hrTool : tool :=
  mk_tool "binanceTicker24hr" (Some [symbol_field])
    (λ args, symbol ← lift (get args "symbol");
             data ← ticker24hr symbol; IoRet (tool_answer data)).

Definition binanceTickerPriceTool : tool :=
  mk_tool "binanceTickerPrice" (Some [optional_symbol_field])
    (λ args, symbol ← lift (get args "symbol");
             data ← binanceTickerPrice symbol; IoRet (tool_answer data)).

Definition binanceBookTickerTool : tool :=
  mk_tool "binanceBookTicker" (Some [optional_symbol_field])
    (λ args, symbol ← lift (get args "symbol");
             data ← binanceBookTicker symbol; IoRet (tool_answer data)).

Definition binanceTickerTool : tool :=
  mk_tool "binanceTicker"
    (Some [optional_symbol_field; mk_zfield "symbols" (ZArray ZString) true;
           mk_zfield "windowSize" ZString true; mk_zfield "type" (ZEnum ["FULL"; "MINI"]) true])
    (λ args, symbol ← lift (get args "symbol"); symbols ← lift (get args "symbols");
             windowSize ← lift (get args "windowSize"); type ← lift (get args "type");
             data ← binanceTicker symbol symbols windowSize type; IoRet (tool_answer data)).

(** ** [binance_server.ts] *)

(** [binanceGetToolList], in the order of the array *)
Definition binanceGetToolList : list tool :=
  [getCryptoPrice; binanceRecentTradesTool; binanceAvgPriceTool; binanceBookTickerTool;
   binanceTicker24hrTool; binanceTradingDayTool; binanceTickerPriceTool; binanceTickerTool].

(** [registerBinanceGetTool()]: [forEach(registerBinanceTool)] *)
Definition registerBinanceGetTool {S} `{ToolHost S} (s : S) : mcp_error + S :=
  register_all s binanceGetToolList.

(** ** Properties *)

(** The request a builder sends, with the base URL [base]. *)
Definition get_request (base path : string) (params : jsv) : request :=
  mk_request "GET" (base +:+ path) [] params.

(** An environment whose [Math.random()] is [k] and whose upstream
    answers every request with [answer]. *)
Definition binance_oracle (k : Z) (answer : jsv) : oracle :=
  λ e, match e return js_res (Io.answer e) with
       | EvFetch _ => JOk answer
       | EvExec _ => JOk (mk_exec_result true "" "")
       | EvLog _ => JOk tt
       | EvRandom => JOk k
       | EvNow => JOk 0%Z
       | EvLocalDate => JOk (mk_date 2025 7 30 9 5 0)
       | EvReadFile _ => JOk [] | EvCwd => JOk "/" | EvConnect | EvExit _ => JOk tt
       end.

(** The base URL for the draw [k], as it is interpolated. *)
Definition baseUrl_of (k : Z) : string :=
  to_string (match random_pick binanceBaseUrls k with Some u => JStr u | None => JUndef end).

(** The run of [axiosBinanceGet]: the random draw, then the request. *)
Lemma run_axiosBinanceGet (o : oracle) k path params :
  o EvRandom = JOk k →
  run o (axiosBinanceGet path params) =
    let req := get_request (baseUrl_of k) path params in
    ([EvRandom; EvFetch req], o (EvFetch req)).
Proof.
  intros Hk. unfold axiosBinanceGet, getBaseUrl.
  cbn [run io_bind lift fetch math_random mbind io_bind_inst]. rewrite Hk.
  cbn [run io_bind lift fetch]. by rewrite run_lift.
Qed.

(** C12: For every value of [Math.random()], [getBaseUrl()] is one of
    the six Binance hosts (never [undefined]), and each host is chosen
    for some value. *)
Theorem getBaseUrl_range :
  (∀ k, valid_random k → ∃ u, In u binanceBaseUrls ∧
     run (binance_oracle k JNull) getBaseUrl = ([EvRandom], JOk (JStr u))) ∧
  (∀ u, In u binanceBaseUrls → ∃ k, valid_random k ∧
     run (binance_oracle k JNull) getBaseUrl = ([EvRandom], JOk (JStr u))).
Proof.
  destruct (random_pick_range binanceBaseUrls) as [Hin Hsurj]; [done|unfold random_bits; simpl; lia|].
  unfold getBaseUrl. split.
  - intros k Hk. destruct (Hin k Hk) as (u & Hu & H). exists u. split; [done|].
    cbn [run io_bind lift math_random mbind io_bind_inst binance_oracle]. by rewrite Hu.
  - intros u H. destruct (Hsurj u H) as (k & Hk & Hpick). exists k. split; [done|].
    cbn [run io_bind lift math_random mbind io_bind_inst binance_oracle]. by rewrite Hpick.
Qed.

Lemma requests_axiosBinanceGet (o : oracle) k path params :
  o EvRandom = JOk k →
  requests (trace o (axiosBinanceGet path params)) = [get_request (baseUrl_of k) path params].
Proof. intros Hk. unfold trace. by rewrite (run_axiosBinanceGet o k path params Hk). Qed.

Lemma with_upper_symbol_str s f : with_upper_symbol (JStr s) f = f (JStr (toUpperCase s)).
Proof. reflexivity. Qed.

Lemma with_upper_symbol_lower s f : with_upper_symbol (JStr (toLowerCase s)) f = with_upper_symbol (JStr s) f.
Proof. rewrite !with_upper_symbol_str. by rewrite toUpperCase_toLowerCase. Qed.

(** C13: The symbol of every builder that upper-cases it is
    case-insensitive: each of the eleven builders, given the lower-cased
    symbol, is the same program as given the symbol itself, so it sends
    the same requests and returns the same answer in every environment;
    the symbol it sends is [toUpperCase] of the argument. *)
Theorem upper_symbol_builders s limit fromId opts interval :
  fetchBinanceTrades (JStr (toLowerCase s)) limit = fetchBinanceTrades (JStr s) limit ∧
  binanceDepth (JStr (toLowerCase s)) limit = binanceDepth (JStr s) limit ∧
  orderBook (JStr (toLowerCase s)) limit = orderBook (JStr s) limit ∧
  recentTrades (JStr (toLowerCase s)) limit = recentTrades (JStr s) limit ∧
  historicalTrades (JStr (toLowerCase s)) limit fromId = historicalTrades (JStr s) limit fromId ∧
  aggTrades (JStr (toLowerCase s)) opts = aggTrades (JStr s) opts ∧
  klines (JStr (toLowerCase s)) interval opts = klines (JStr s) interval opts ∧
  uiKlines (JStr (toLowerCase s)) interval opts = uiKlines (JStr s) interval opts ∧
  avgPrice (JStr (toLowerCase s)) = avgPrice (JStr s) ∧
  ticker24hr (JStr (toLowerCase s)) = ticker24hr (JStr s) ∧
  binanceTradingDay (JStr (toLowerCase s)) = binanceTradingDay (JStr s) ∧
  binanceDepth (JStr s) limit =
    axiosBinanceGet "/api/v3/depth" (JObj [("symbol", JStr (toUpperCase s)); ("limit", nullish_or limit (JNum 100))]).
Proof. repeat split; first [apply with_upper_symbol_lower | reflexivity]. Qed.

(** C14: The ticker-price, book-ticker and windowed-ticker builders send
    a non-empty symbol as given, without upper-casing it: [btcusdt] and
    [BTCUSDT] give different requests (the spec says symbols are
    case-insensitive). *)
Theorem verbatim_symbol_builders (o : oracle) k s :
  o EvRandom = JOk k → s ≠ "" →
  requests (trace o (binanceTickerPrice (JStr s)))
    = [get_request (baseUrl_of k) "/api/v3/ticker/price" (JObj [("symbol", JStr s)])] ∧
  requests (trace o (binanceBookTicker (JStr s)))
    = [get_request (baseUrl_of k) "/api/v3/ticker/bookTicker" (JObj [("symbol", JStr s)])] ∧
  requests (trace o (binanceTicker (JStr s) JUndef JUndef JUndef))
    = [get_request (baseUrl_of k) "/api/v3/ticker" (JObj [("symbol", JStr s)])].
Proof.
  intros Hk Hs. assert (Ht : truthy (JStr s) = true).
  { simpl. destruct (String.eqb_spec s ""); [done|reflexivity]. }
  unfold binanceTickerPrice, binanceBookTicker, binanceTicker, symbol_or_all, ticker_params.
  rewrite Ht. split; [|split]; by rewrite requests_axiosBinanceGet with (k := k).
Qed.

Lemma verbatim_symbol_builders_witness :
  binance_oracle 0 JNull EvRandom = JOk 0%Z ∧ "btcusdt" ≠ "" ∧
  requests (trace (binance_oracle 0 JNull) (binanceTickerPrice (JStr "btcusdt")))
    = [get_request (baseUrl_of 0) "/api/v3/ticker/price" (JObj [("symbol", JStr "btcusdt")])] ∧
  requests (trace (binance_oracle 0 JNull) (binanceBookTicker (JStr "btcusdt")))
    = [get_request (baseUrl_of 0) "/api/v3/ticker/bookTicker" (JObj [("symbol", JStr "btcusdt")])] ∧
  requests (trace (binance_oracle 0 JNull) (binanceTicker (JStr "btcusdt") JUndef JUndef JUndef))
    = [get_request (baseUrl_of 0) "/api/v3/ticker" (JObj [("symbol", JStr "btcusdt")])].
Proof.
  assert (Hk : binance_oracle 0 JNull EvRandom = JOk 0%Z) by reflexivity.
  assert (Hs : "btcusdt" ≠ "") by discriminate.
  split; [exact Hk|]. split; [exact Hs|]. exact (verbatim_symbol_builders _ 0%Z "btcusdt" Hk Hs).
Defined.

(** C15: An absent [limit] becomes [100] in [binanceDepth] and
    [fetchBinanceTrades] ([limit ?? 100]) and is left out by [orderBook]
    and [recentTrades] ([...(limit && { limit })]); a [limit] of [0] is
    sent as [0] by the former and dropped by the latter. *)
Theorem limit_defaults (o : oracle) k s :
  o EvRandom = JOk k →
  requests (trace o (binanceDepth (JStr s) JUndef))
    = [get_request (baseUrl_of k) "/api/v3/depth" (JObj [("symbol", JStr (toUpperCase s)); ("limit", JNum 100)])] ∧
  requests (trace o (fetchBinanceTrades (JStr s) JUndef))
    = [get_request (baseUrl_of k) "/api/v3/trades" (JObj [("symbol", JStr (toUpperCase s)); ("limit", JNum 100)])] ∧
  requests (trace o (binanceDepth (JStr s) (JNum 0)))
    = [get_request (baseUrl_of k) "/api/v3/depth" (JObj [("symbol", JStr (toUpperCase s)); ("limit", JNum 0)])] ∧
  requests (trace o (orderBook (JStr s) JUndef))
    = [get_request (baseUrl_of k) "/api/v3/depth" (JObj [("symbol", JStr (toUpperCase s))])] ∧
  requests (trace o (orderBook (JStr s) (JNum 0)))
    = [get_request (baseUrl_of k) "/api/v3/depth" (JObj [("symbol", JStr (toUpperCase s))])] ∧
  requests (trace o (recentTrades (JStr s) (JNum 0)))
    = [get_request (baseUrl_of k) "/api/v3/trades" (JObj [("symbol", JStr (toUpperCase s))])].
Proof.
  intros Hk. unfold binanceDepth, fetchBinanceTrades, orderBook, recentTrades.
  repeat split; rewrite with_upper_symbol_str; by rewrite requests_axiosBinanceGet with (k := k).
Qed.

Lemma limit_defaults_witness :
  binance_oracle 3 JNull EvRandom = JOk 3%Z ∧
  requests (trace (binance_oracle 3 JNull) (binanceDepth (JStr "btcusdt") JUndef))
    = [get_request (baseUrl_of 3) "/api/v3/depth" (JObj [("symbol", JStr (toUpperCase "btcusdt")); ("limit", JNum 100)])].
Proof.
  assert (Hk : binance_oracle 3 JNull EvRandom = JOk 3%Z) by reflexivity.
  split; [exact Hk|]. exact (proj1 (limit_defaults _ 3%Z "btcusdt" Hk)).
Defined.

(** C16: [binanceTicker] sends a [symbols] array as its JSON text, the
    quoted symbols comma-separated in brackets; an empty array is truthy,
    so it is still sent, as the text [[]]. *)
Theorem ticker_symbols_json (o : oracle) k l :
  o EvRandom = JOk k →
  requests (trace o (binanceTicker JUndef (JArr (map JStr l)) JUndef JUndef))
    = [get_request (baseUrl_of k) "/api/v3/ticker"
         (JObj [("symbols", JStr ("[" +:+ join "," (map quote l) +:+ "]"))])].
Proof.
  intros Hk. unfold binanceTicker. rewrite requests_axiosBinanceGet with (k := k); [|done].
  unfold ticker_params, stringify_value. by rewrite stringify_strings.
Qed.

Lemma ticker_symbols_json_witness :
  binance_oracle 1 JNull EvRandom = JOk 1%Z ∧
  requests (trace (binance_oracle 1 JNull) (binanceTicker JUndef (JArr (map JStr [])) JUndef JUndef))
    = [get_request (baseUrl_of 1) "/api/v3/ticker" (JObj [("symbols", JStr "[]")])].
Proof.
  assert (Hk : binance_oracle 1 JNull EvRandom = JOk 1%Z) by reflexivity.
  split; [exact Hk|]. exact (ticker_symbols_json _ 1%Z [] Hk).
Defined.

(** The names the server registers, in order. *)
Definition binance_tool_names : list string :=
  ["getCryptoPrice"; "binanceRecentTrades"; "binanceAvgPrice"; "binanceBookTicker";
   "binanceTicker24hr"; "binanceTradingDay"; "binanceTickerPrice"; "binanceTicker"].

Section Registration.
Context {S : Type} `{ToolHostLaws S}.

Lemma binance_names : map tool_name binanceGetToolList = binance_tool_names.
Proof. reflexivity. Qed.

Lemma registerBinanceGetTool_ok :
  ∃ s, registerBinanceGetTool host_empty = inr s ∧
       Forall (λ t, host_lookup s (tool_name t) = Some t) binanceGetToolList.
Proof.
  destruct (register_all_ok host_empty binanceGetToolList) as (s & Hreg & Hall & _).
  - rewrite binance_names. unfold binance_tool_names. repeat constructor; set_solver.
  - apply Forall_forall. intros t _. apply host_lookup_empty.
  - exists s. by split.
Qed.

(** C17: On any host that obeys the registry laws, [registerBinanceGetTool]
    on an empty host succeeds and registers the eight tools under their
    names; [binanceTicker24hr] called without a [symbol] is refused by its
    schema before any request (its description says the symbol may be
    left out for all pairs). *)
Theorem binance_registration :
  ∃ s, registerBinanceGetTool host_empty = inr s ∧
       Forall (λ t, host_lookup s (tool_name t) = Some t) binanceGetToolList ∧
       ∀ (o : oracle) rid, run o (call_tool s "binanceTicker24hr" (JObj []) rid)
         = ([], JOk (inl (InvalidArguments "binanceTicker24hr" "symbol"))).
Proof.
  destruct registerBinanceGetTool_ok as (s & Hreg & Hall). exists s. do 2 (split; [done|]).
  intros o rid. apply (call_tool_invalid o s _ _ rid binanceTicker24hrTool [symbol_field]); [|done|done].
  unfold binanceGetToolList in Hall. by decompose_Forall_hyps.
Qed.

(** C18: [getCryptoPrice] called with a symbol in any case draws a base
    URL, sends one depth request for the upper-cased symbol with the
    default limit [100], and answers [JSON.stringify] of the body; a
    failed request becomes an [isError] result with its message. *)
Theorem getCryptoPrice_call (o : oracle) (s : S) k sym rid :
  host_lookup s "getCryptoPrice" = Some getCryptoPrice → o EvRandom = JOk k →
  let req := get_request (baseUrl_of k) "/api/v3/depth"
               (JObj [("symbol", JStr (toUpperCase sym)); ("limit", JNum 100)]) in
  run o (call_tool s "getCryptoPrice" (JObj [("symbol", JStr sym)]) rid) =
    ([EvRandom; EvFetch req],
     JOk (inr (match o (EvFetch req) with
               | JOk body => tool_answer body
               | JThrow err => error_result (js_error_message err)
               end))).
Proof.
  intros Hl Hk req. erewrite call_tool_parsed; [|exact Hl|reflexivity|reflexivity].
  cbn [tool_handler getCryptoPrice].
  change (get _ "symbol") with (JOk (JStr sym)). change (get _ "limit") with (@JOk jsv JUndef).
  unfold mbind, io_bind_inst. cbn [io_bind lift]. rewrite run_bind. unfold binanceDepth. rewrite with_upper_symbol_str, run_axiosBinanceGet with (k := k); [|done].
  cbn. fold req. by destruct (o (EvFetch req)).
Qed.

End Registration.

Lemma binance_registration_witness :
  ∃ s : assoc_registry, registerBinanceGetTool host_empty = inr s ∧
       Forall (λ t, host_lookup s (tool_name t) = Some t) binanceGetToolList ∧
       ∀ (o : oracle) rid, run o (call_tool s "binanceTicker24hr" (JObj []) rid)
         = ([], JOk (inl (InvalidArguments "binanceTicker24hr" "symbol"))).
Proof. exact (@binance_registration assoc_registry assoc_host assoc_host_laws). Defined.

Lemma getCryptoPrice_call_witness :
  ∃ s, registerBinanceGetTool host_empty = inr s ∧
  host_lookup s "getCryptoPrice" = Some getCryptoPrice ∧
  binance_oracle 2 (JObj []) EvRandom = JOk 2%Z ∧
  run (binance_oracle 2 (JObj [])) (call_tool s "getCryptoPrice" (JObj [("symbol", JStr "btc")]) 0)
    = ([EvRandom; EvFetch (get_request (baseUrl_of 2) "/api/v3/depth"
          (JObj [("symbol", JStr "BTC"); ("limit", JNum 100)]))],
       JOk (inr (tool_answer (JObj [])))).
Proof.
  exists (binanceGetToolList : assoc_registry).
  assert (Hl : host_lookup (binanceGetToolList : assoc_registry) "getCryptoPrice" = Some getCryptoPrice) by reflexivity.
  assert (Hk : binance_oracle 2 (JObj []) EvRandom = JOk 2%Z) by reflexivity.
  split; [reflexivity|]. split; [exact Hl|]. split; [exact Hk|].
  exact (getCryptoPrice_call _ _ 2%Z "btc" 0 Hl Hk).
Defined.

(** The members [...(opts?.k && { k: opts.k })] add for an object
    [opts]: the truthy ones, in the order of the keys. *)
Definition present_members (fs : list (string * jsv)) (keys : list string) : list (string * jsv) :=
  omap (λ k, if truthy (field fs k) then Some (k, field fs k) else None) keys.

Lemma spread_opts_obj fs keys : spread_opts (JObj fs) keys = JOk (present_members fs keys).
Proof.
  induction keys as [|k keys IH]; [done|]. cbn [spread_opts]. rewrite IH.
  unfold present_members, spread_truthy. cbn [omap opt_get]. rewrite get_obj.
  cbn [mbind js_res_bind list_omap omap app]. by destruct (truthy (field fs k)).
Qed.

Lemma spread_opts_undef keys : spread_opts JUndef keys = JOk [].
Proof. induction keys as [|k keys IH]; [done|]. cbn [spread_opts]. by rewrite IH. Qed.

(** C30: [aggTrades] and [klines] send, after the upper-cased symbol (and
    the interval), exactly the optional members of [opts] that are
    truthy, in the order of the code; an absent [opts] adds none. *)
Theorem optional_members (o : oracle) k s fs interval :
  o EvRandom = JOk k →
  requests (trace o (aggTrades (JStr s) (JObj fs))) =
    [get_request (baseUrl_of k) "/api/v3/aggTrades"
       (JObj (("symbol", JStr (toUpperCase s)) :: present_members fs ["fromId"; "startTime"; "endTime"; "limit"]))] ∧
  requests (trace o (aggTrades (JStr s) JUndef)) =
    [get_request (baseUrl_of k) "/api/v3/aggTrades" (JObj [("symbol", JStr (toUpperCase s))])] ∧
  requests (trace o (klines (JStr s) interval (JObj fs))) =
    [get_request (baseUrl_of k) "/api/v3/klines"
       (JObj (("symbol", JStr (toUpperCase s)) :: ("interval", interval) ::
              present_members fs ["startTime"; "endTime"; "limit"; "timeZone"]))].
Proof.
  intros Hk. unfold aggTrades, klines. rewrite !with_upper_symbol_str.
  unfold mbind, io_bind_inst. rewrite !spread_opts_obj, spread_opts_undef. cbn [io_bind lift].
  repeat split; by rewrite requests_axiosBinanceGet with (k := k).
Qed.

Lemma optional_members_witness :
  binance_oracle 4 JNull EvRandom = JOk 4%Z ∧
  requests (trace (binance_oracle 4 JNull)
              (aggTrades (JStr "btcusdt") (JObj [("startTime", JNum 1735430000000); ("limit", JNum 0)]))) =
    [get_request (baseUrl_of 4) "/api/v3/aggTrades"
       (JObj [("symbol", JStr "BTCUSDT"); ("startTime", JNum 1735430000000)])].
Proof.
  assert (Hk : binance_oracle 4 JNull EvRandom = JOk 4%Z) by reflexivity.
  split; [exact Hk|]. exact (proj1 (optional_members _ 4%Z "btcusdt" _ JUndef Hk)).
Defined.

End Binance.
