(* ===== verification/Weather.v ===== *)
(** * The weather server ([src/src/city_weather.ts])

    The one registered tool, [get_weather_by_city], reads the city code
    from the table [cityCodeMap] with [cityCodeMap[city]], a property
    read on a plain object (so the members of [Object.prototype] are
    found too), returns a "city not supported" text when the code is
    falsy, else issues one GET to the weather provider and formats the
    first forecast entry.  [weatherResult] is the synchronous part after
    the request, as [searchResult] is for the train handler. *)

From S2P Require Import Prelude JsString JsValue Io Mcp Lifecycle.
Import JsString JsValue Io Mcp Lifecycle.

Module Weather.

(** [cityCodeMap] *)
Definition cityCodeMap : list (string * jsv) :=
  [("北京", JStr "101010100"); ("上海", JStr "101020100"); ("广州", JStr "101280101");
   ("深圳", JStr "101280601"); ("杭州", JStr "101210101"); ("成都", JStr "101270101");
   ("重庆", JStr "101040100")].

Definition WEATHER_URL : string := "http://t.weather.itboy.net/api/weather/city/".

(** [axios.get(`http://t.weather.itboy.net/api/weather/city/${cityCode}`)] *)
Definition weather_request (cityCode : jsv) : request :=
  mk_request "GET" (WEATHER_URL +:+ to_string cityCode) [] JUndef.

Definition MSG_UNSUPPORTED : string := "暂不支持城市: ".
Definition MSG_WEATHER_FAILED : string := "获取天气失败".

(** The template literal of the answer. *)
Definition weather_text (city date type high low fx fl : jsv) : string :=
  "城市: " +:+ to_string city +:+ nl +:+
  "日期: " +:+ to_string date +:+ nl +:+
  "天气: " +:+ to_string type +:+ nl +:+
  "最高温度: " +:+ to_string high +:+ nl +:+
  "最低温度: " +:+ to_string low +:+ nl +:+
  "风向: " +:+ to_string fx +:+ nl +:+
  "风力: " +:+ to_string fl.

(** [!data || data.status !== 200] *)
Definition weather_failed (data : jsv) : js_res bool :=
  if negb (truthy data) then JOk true
  else status ← get data "status"; JOk (negb (strict_eq status (JNum 200))).

(** What the handler does with [response.data]. *)
Definition weatherResult (city data : jsv) : js_res jsv :=
  failed ← weather_failed data;
  if (failed : bool) then JOk (text_result (JStr MSG_WEATHER_FAILED))
  else
    inner ← get data "data";
    forecast ← get inner "forecast";
    weatherInfo ← index forecast 0;
    date ← get weatherInfo "date";
    type ← get weatherInfo "type";
    high ← get weatherInfo "high";
    low ← get weatherInfo "low";
    fx ← get weatherInfo "fx";
    fl ← get weatherInfo "fl";
    JOk (text_result (JStr (weather_text city date type high low fx fl))).

(** The callback of [server.registerTool("get_weather_by_city", ...)]. *)
Definition weather_handler (args : jsv) : io jsv :=
  city ← lift (get args "city");
  cityCode ← lift (get (JObj cityCodeMap) (to_string city));
  if negb (truthy cityCode)
  then IoRet (text_result (JStr (MSG_UNSUPPORTED +:+ to_string city)))
  else
    data ← fetch (weather_request cityCode);
    lift (weatherResult city data).

Definition weather_tool : tool :=
  mk_tool "get_weather_by_city" (Some [mk_zfield "city" ZString false]) weather_handler.

(** ** The server process ([src/src/city_weather.ts])

    [new McpServer({name, version, capabilities, instructions})], the
    registration above, and [main().catch(...)]. *)

Definition weather_instructions : string :=
  "获取城市的经纬度信息，和当天的温度和天气信息。使用场景包括但不限于：" +:+ nl +:+
  "1. 旅行规划：帮助用户了解目的地的天气情况，便于安排行程。" +:+ nl +:+
  "2. 日常生活：提供天气预报，帮助用户决定穿衣和出行方式。" +:+ nl +:+
  "3. 活动安排：根据天气情况调整户外活动的时间和地点。" +:+ nl +:+
  "4. 健康管理：提醒用户注意天气变化，预防感冒等疾病。" +:+ nl +:+
  "5. 农业生产：帮助农民了解天气情况，合理安排农作。" +:+ nl +:+
  "6. 交通出行：提供天气信息，帮助用户选择合适的出行方式。" +:+ nl +:+
  "7. 紧急预警：在极端天气情况下，及时通知用户采取防护措施。" +:+ nl.

(** The argument of [new McpServer(...)]. *)
Definition weather_info : jsv :=
  JObj [("name", JStr "xing-weather-mcp"); ("version", JStr "1.0.0");
        ("capabilities", JObj [("resources", JObj []); ("tools", JObj [])]); ("instructions", JStr weather_instructions)].

Definition weather_boot : server_error + server :=
  register_tool (new_McpServer weather_info JUndef) weather_tool.

Definition WEATHER_BANNER : string := "MCP Server running on stdio @Xing".

(** [main().catch(...)] *)
Definition weather_main (s : server) : io server := main_catch s WEATHER_BANNER.

(** ** Running the handler *)

(** The handler on parsed arguments: the table read of the city name. *)
Lemma weather_handler_city city :
  weather_handler (JObj [("city", JStr city)]) =
    let cityCode := field cityCodeMap city in
    if negb (truthy cityCode)
    then IoRet (text_result (JStr (MSG_UNSUPPORTED +:+ city)))
    else io_bind (fetch (weather_request cityCode)) (λ data, lift (weatherResult (JStr city) data)).
Proof. reflexivity. Qed.

Lemma run_weather_unsupported (o : oracle) city :
  negb (truthy (field cityCodeMap city)) = true →
  run o (weather_handler (JObj [("city", JStr city)])) =
    ([], JOk (text_result (JStr (MSG_UNSUPPORTED +:+ city)))).
Proof. intros H. rewrite weather_handler_city. cbv zeta. by rewrite H. Qed.

Lemma run_weather_found (o : oracle) city :
  truthy (field cityCodeMap city) = true →
  run o (weather_handler (JObj [("city", JStr city)])) =
    let req := weather_request (field cityCodeMap city) in
    ([EvFetch req], data ← o (EvFetch req); weatherResult (JStr city) data).
Proof.
  intros H. rewrite weather_handler_city. cbv zeta. rewrite H.
  cbn [negb run fetch io_bind]. rewrite run_lift_bind.
  by destruct (o (EvFetch _)); [rewrite run_lift|].
Qed.

(** Each city of the table reads its own code, a non-empty string. *)
Lemma city_code_In name v :
  In (name, v) cityCodeMap → field cityCodeMap name = v ∧ truthy v = true.
Proof. intros H. repeat destruct H as [H|H]; try (injection H as <- <-; by split). done. Qed.


(** The forecast text of an answer whose status is [200]. *)
Lemma weatherResult_ok city bfs dfs fs rest :
  field bfs "status" = JNum 200 → field bfs "data" = JObj dfs →
  field dfs "forecast" = JArr (JObj fs :: rest) →
  weatherResult city (JObj bfs) =
    JOk (text_result (JStr (weather_text city (field fs "date") (field fs "type")
           (field fs "high") (field fs "low") (field fs "fx") (field fs "fl")))).
Proof.
  intros Hs Hd Hf. unfold weatherResult, weather_failed. cbn [truthy negb mbind js_res_bind].
  rewrite !get_obj. cbn [mbind js_res_bind]. rewrite Hs. cbn [strict_eq negb]. rewrite Z.eqb_refl.
  cbn [negb]. rewrite Hd, get_obj. cbn [mbind js_res_bind]. by rewrite Hf.
Qed.

(** C19: For every city of the table, the handler sends one GET for the
    city's code and, when the provider answers status [200] with a
    forecast, answers the seven labelled lines of the first forecast
    entry: city, date, condition, high, low, wind direction, wind force. *)
Theorem weather_supported_city (o : oracle) name code bfs dfs fs rest :
  In (name, JStr code) cityCodeMap →
  o (EvFetch (weather_request (JStr code))) = JOk (JObj bfs) →
  field bfs "status" = JNum 200 → field bfs "data" = JObj dfs →
  field dfs "forecast" = JArr (JObj fs :: rest) →
  run o (weather_handler (JObj [("city", JStr name)])) =
    ([EvFetch (weather_request (JStr code))],
     JOk (text_result (JStr (weather_text (JStr name) (field fs "date") (field fs "type")
            (field fs "high") (field fs "low") (field fs "fx") (field fs "fl"))))).
Proof.
  intros Hin Ho Hs Hd Hf. destruct (city_code_In _ _ Hin) as [Hc Ht].
  rewrite run_weather_found by (by rewrite Hc). cbv zeta. rewrite Hc, Ho, js_bind_ok.
  by rewrite (weatherResult_ok _ _ _ _ _ Hs Hd Hf).
Qed.

(** The answer of the provider used by the witnesses. *)
Definition sunny_answer : jsv :=
  JObj [("status", JNum 200);
        ("data", JObj [("forecast", JArr [JObj [("date", JStr "30"); ("type", JStr "晴");
           ("high", JStr "高温 30℃"); ("low", JStr "低温 22℃"); ("fx", JStr "东风"); ("fl", JStr "2级")]])])].

Definition weather_oracle (answer : js_res jsv) : oracle :=
  λ e, match e return js_res (Io.answer e) with
       | EvFetch _ => answer
       | EvExec _ => JOk (mk_exec_result true "" "")
       | EvLog _ => JOk tt
       | EvRandom | EvNow => JOk 0%Z
       | EvLocalDate => JOk (mk_date 2025 7 30 9 5 0)
       | EvReadFile _ => JOk [] | EvCwd => JOk "/" | EvConnect | EvExit _ => JOk tt
       end.

Lemma weather_supported_city_witness :
  run (weather_oracle (JOk sunny_answer)) (weather_handler (JObj [("city", JStr "北京")])) =
    ([EvFetch (weather_request (JStr "101010100"))],
     JOk (text_result (JStr (weather_text (JStr "北京") (JStr "30") (JStr "晴")
            (JStr "高温 30℃") (JStr "低温 22℃") (JStr "东风") (JStr "2级"))))).
Proof.
  refine (weather_supported_city (weather_oracle (JOk sunny_answer)) "北京" "101010100" _ _
            [("date", JStr "30"); ("type", JStr "晴"); ("high", JStr "高温 30℃"); ("low", JStr "低温 22℃");
             ("fx", JStr "东风"); ("fl", JStr "2级")] [] _ _ _ _ _); try reflexivity.
  by left.
Defined.

(** C20: A city name that is neither in the table nor inherited from
    [Object.prototype] is answered with the "city not supported" text
    naming it, before any request; the answer is not flagged as an error
    (the inconsistency the spec's design notes point out). *)
Theorem weather_unsupported_city (o : oracle) name :
  name ∉ cityCodeMap.*1 → inherited name = JUndef →
  run o (weather_handler (JObj [("city", JStr name)])) =
    ([], JOk (text_result (JStr (MSG_UNSUPPORTED +:+ name)))) ∧
  client_is_error (text_result (JStr (MSG_UNSUPPORTED +:+ name))) = false.
Proof.
  intros Hn Hi. split; [|reflexivity].
  apply run_weather_unsupported. by rewrite field_not_in, Hi.
Qed.

Lemma weather_unsupported_city_witness :
  run (weather_oracle (JOk sunny_answer)) (weather_handler (JObj [("city", JStr "拉萨")])) =
    ([], JOk (text_result (JStr (MSG_UNSUPPORTED +:+ "拉萨")))) ∧
  client_is_error (text_result (JStr (MSG_UNSUPPORTED +:+ "拉萨"))) = false.
Proof.
  apply weather_unsupported_city; [|reflexivity].
  unfold cityCodeMap. cbn [fmap list_fmap fst]. intros Hin.
  repeat (apply elem_of_cons in Hin as [Hin|Hin]; [discriminate|]). by apply elem_of_nil in Hin.
Defined.



(** C22: The failure answers after the request: a falsy body, or a
    body whose [status] is not [200], gives the "fetch failed" text (not
    flagged as an error); a body with status [200] but no [data] makes
    the handler throw a [TypeError] (reading [forecast] of [undefined]),
    which the SDK turns into an [isError] result. *)
Theorem weather_upstream_failures city data :
  (truthy data = false →
     weatherResult city data = JOk (text_result (JStr MSG_WEATHER_FAILED))) ∧
  (∀ bfs, data = JObj bfs → field bfs "status" ≠ JNum 200 →
     weatherResult city data = JOk (text_result (JStr MSG_WEATHER_FAILED))) ∧
  (∀ bfs, data = JObj bfs → field bfs "status" = JNum 200 → field bfs "data" = JUndef →
     ∃ msg, weatherResult city data = JThrow (TypeError msg)).
Proof.
  unfold weatherResult, weather_failed. split; [|split].
  - intros H. by rewrite H.
  - intros bfs -> Hs. cbn [truthy negb mbind js_res_bind]. rewrite (get_obj bfs "status").
    cbn [mbind js_res_bind]. destruct (strict_eq _ (JNum 200)) eqn:E; [by apply strict_eq_num in E|done].
  - intros bfs -> Hs Hd. cbn [truthy negb mbind js_res_bind]. rewrite (get_obj bfs "status"), Hs.
    cbn [mbind js_res_bind strict_eq negb]. rewrite Z.eqb_refl. cbn [negb].
    rewrite (get_obj bfs "data"), Hd. eexists. reflexivity.
Qed.

Lemma weather_upstream_failures_witness :
  weatherResult (JStr "北京") (JObj [("status", JNum 500)]) = JOk (text_result (JStr MSG_WEATHER_FAILED)) ∧
  ∃ msg, weatherResult (JStr "北京") (JObj [("status", JNum 200)]) = JThrow (TypeError msg).
Proof.
  split.
  - apply (proj1 (proj2 (weather_upstream_failures _ _)) [("status", JNum 500)]); [done|discriminate].
  - apply (proj2 (proj2 (weather_upstream_failures _ _)) [("status", JNum 200)]); done.
Defined.

(** Every answer of the weather handler is a text envelope. *)
Lemma weatherResult_text city data v :
  weatherResult city data = JOk v → ∃ s, v = text_result (JStr s).
Proof.
  unfold weatherResult. intros H. js_inv. destruct a; js_inv; subst; eauto.
Qed.

Lemma weather_envelope args : io_post (λ v, envelope_ok v = true) (weather_handler args).
Proof.
  unfold weather_handler, mbind, io_bind_inst.
  apply io_post_lift_bind. intros city _. apply io_post_lift_bind. intros code _.
  destruct (negb (truthy code)); [done|]. apply io_post_event. intros data.
  apply io_post_lift. intros v (s & ->)%weatherResult_text. done.
Qed.

End Weather.
