(* ===== verification/Template.v ===== *)
(** * The Android template generator ([src/src/math_create_file.ts],
      [src/src/index.ts])

    [DEFAULT_TEMPLATES] holds three texts with [{{NAME}}] placeholders;
    the handler of [getCreateActivityTool()] derives the names from its
    argument (with defaults), computes the file paths, and fills each
    template with a chain of global [replace] calls.  [index.ts]
    registers the handler with [server.tool(name, description, {}, cb)]:
    the empty shape is an input schema, so the handler receives the
    parsed arguments, which the empty schema strips to [{}].

    The templates are split into literal pieces and placeholders
    ([JsString.tseg]) by [parse_tpl]; [fill_template] fills every
    placeholder at once from an environment, and is the reference the
    chain of [replace] calls is proved equal to. *)

From S2P Require Import Prelude JsString JsValue Io Mcp Lifecycle.
Import JsString JsValue Io Mcp Lifecycle.

Module Template.

Definition tab : string := String (ascii_of_nat 9) EmptyString.
Definition q : string := String dquote EmptyString.

(** A template literal written line by line; each line ends with a
    newline. *)
Definition lines (ls : list string) : string := foldr (λ l acc, l +:+ nl +:+ acc) "" ls.

(** [DEFAULT_TEMPLATES.activity] *)
Definition activity_template : string := lines [
  "package {{PACKAGE}}";
  "";
  "import android.os.Bundle";
  "import androidx.activity.viewModels";
  "import com.mgx.mathwallet.ui.activity.setting.safelock.BaseLockActivity";
  "import com.mgx.mathwallet.R";
  "import {{BINDING_IMPORT}}";
  "";
  "class {{ACTIVITY_CLASS}} : BaseLockActivity<{{VIEWMODEL_CLASS}}, {{BINDING_CLASS}}>() {";
  tab +:+ "override fun layoutId(): Int {";
  tab +:+ tab +:+ "return R.layout.{{LAYOUT_NAME}}";
  tab +:+ "}";
  "";
  tab +:+ "override fun initView(savedInstanceState: Bundle?) {";
  tab +:+ tab +:+ "// 使用 ViewBinding：binding 已由基类或 inflate 方法提供";
  tab +:+ "}";
  "}"].

(** [DEFAULT_TEMPLATES.viewmodel] *)
Definition viewmodel_template : string := lines [
  "package {{PACKAGE}}";
  "";
  "import me.hgj.jetpackmvvm.ext.viewmodel.BaseViewModel";
  "";
  "class {{VIEWMODEL_CLASS}} : BaseViewModel() {";
  tab;
  "}"].

(** [DEFAULT_TEMPLATES.layout] *)
Definition layout_template : string := lines [
  "<?xml version=" +:+ q +:+ "1.0" +:+ q +:+ " encoding=" +:+ q +:+ "utf-8" +:+ q +:+ "?>";
  "<layout";
  "    xmlns:android=" +:+ q +:+ "http://schemas.android.com/apk/res/android" +:+ q;
  "    android:layout_width=" +:+ q +:+ "match_parent" +:+ q;
  "    android:layout_height=" +:+ q +:+ "match_parent" +:+ q +:+ ">";
  "    ";
  "    <data>";
  tab +:+ tab +:+ tab +:+ "<variable";
  tab +:+ tab +:+ tab +:+ tab +:+ "name=" +:+ q +:+ "viewmodel" +:+ q;
  tab +:+ tab +:+ tab +:+ tab +:+ "type=" +:+ q +:+ "{{PACKAGE}}.{{VIEWMODEL_CLASS}}" +:+ q +:+ " />";
  "    </data>";
  "";
  "    <androidx.constraintlayout.widget.ConstraintLayout";
  "        android:layout_width=" +:+ q +:+ "match_parent" +:+ q;
  "        android:layout_height=" +:+ q +:+ "match_parent" +:+ q +:+ ">";
  "";
  "    </androidx.constraintlayout.widget.ConstraintLayout>";
  "    ";
  "</layout>"].

(** [v && v.k] *)
Definition and_get (v : jsv) (k : string) : js_res jsv :=
  if truthy v then get v k else JOk v.

(** [v.replace(/pat/g, rep)] on a value [v] that should be a string. *)
Definition call_replace_all (v : jsv) (pat rep : string) : js_res jsv :=
  call_string_method "replace" (λ s, replace_all s pat rep) v.

(** A chain [s.replace(/{{n1}}/g, v1).replace(/{{n2}}/g, v2)...]. *)
Definition replace_each (s : string) (subs : list (string * string)) : string :=
  foldl (λ acc nv, replace_all acc (placeholder nv.1) nv.2) s subs.

Definition text_block (text : string) : jsv := JObj [("type", JStr "text"); ("text", JStr text)].

Definition DEFAULT_PACKAGE : string := "com.mathwallet.app".
Definition DEFAULT_COMPONENT : string := "Example".
Definition DEFAULT_BINDING_PACKAGE : string := "com.mgx.mathwallet.databinding".

(** The handler of [getCreateActivityTool()]. *)
Definition createActivity_handler (extra : jsv) : io jsv :=
  lift (
    p ← and_get extra "packageName";
    let pkg := js_or p (JStr DEFAULT_PACKAGE) in
    c ← and_get extra "componentName";
    let comp := js_or c (JStr DEFAULT_COMPONENT) in
    let activityClass := to_string comp +:+ "Activity" in
    let viewModelClass := to_string comp +:+ "ViewModel" in
    lower ← call_toLowerCase comp;
    let layoutName := "activity_" +:+ to_string lower in
    activityDir ← call_replace_all pkg "." "/";
    let activityPath := "app/src/main/java/" +:+ to_string activityDir +:+ "/" +:+ activityClass +:+ ".kt" in
    viewModelDir ← call_replace_all pkg "." "/";
    let viewModelPath := "app/src/main/java/" +:+ to_string viewModelDir +:+ "/" +:+ viewModelClass +:+ ".kt" in
    let layoutPath := "app/src/main/res/layout/" +:+ layoutName +:+ ".xml" in
    let bindingClass := "Activity" +:+ to_string comp +:+ "Binding" in
    b ← and_get extra "bindingPackage";
    let bindingPackage := js_or b (JStr DEFAULT_BINDING_PACKAGE) in
    let bindingImport := to_string bindingPackage +:+ "." +:+ bindingClass in
    let activityCode := replace_each activity_template
      [("PACKAGE", to_string pkg); ("ACTIVITY_CLASS", activityClass);
       ("VIEWMODEL_CLASS", viewModelClass); ("LAYOUT_NAME", layoutName);
       ("BINDING_CLASS", bindingClass); ("BINDING_IMPORT", bindingImport)] in
    let viewModelCode := replace_each viewmodel_template
      [("PACKAGE", to_string pkg); ("VIEWMODEL_CLASS", viewModelClass)] in
    let layoutCode := replace_each layout_template
      [("LAYOUT_NAME", layoutName); ("VIEWMODEL_CLASS", viewModelClass)] in
    JOk (JObj [("content", JArr [text_block activityCode; text_block viewModelCode; text_block layoutCode])])).

(** [server.tool(createActivity.name, createActivity.description, {}, createActivity.handler)] *)
Definition createActivity_tool : tool :=
  mk_tool "创建一个新的 Android Activity 组件" (Some []) createActivity_handler.

(** ** The server process ([src/src/index.ts])

    [new McpServer({name, version, capabilities, instructions})], the
    registration above, and [main().catch(...)]. *)

Definition math_instructions : string :=
  "本 MCP 服务专为 MathWallet Android 项目开发过程设计，提供项目组件的自动化创建与代码生成能力。服务功能和规则如下：" +:+ nl +:+
  nl +:+
  "【服务目标】" +:+ nl +:+
  "- 帮助开发者在 MathWallet Android 项目中快速生成符合规范的代码与配置。" +:+ nl +:+
  "- 保证生成结果遵循 AndroidX 标准和 MathWallet 的项目结构。" +:+ nl +:+
  nl +:+
  "【支持的功能】" +:+ nl +:+
  "1. 创建 Android 组件：" +:+ nl +:+
  "   - Activity" +:+ nl +:+
  "   - Fragment" +:+ nl +:+
  "   - ViewModel" +:+ nl +:+
  "   - Module" +:+ nl +:+
  "   - 其他常见组件（如 XML Layout 文件）" +:+ nl +:+
  "2. 生成配置文件：" +:+ nl +:+
  "   - Gradle 依赖配置" +:+ nl +:+
  "   - 项目常用库的引用模板" +:+ nl +:+
  "3. 钱包相关逻辑支持：" +:+ nl +:+
  "   - EIP712 签名相关 Kotlin 封装" +:+ nl +:+
  "   - 钱包特定 Action（如 Transfer、Send 等）的代码模板" +:+ nl +:+
  nl +:+
  "【输入要求】" +:+ nl +:+
  "- 必须指定生成的组件类型（如 Activity、Fragment、ViewModel、Module 等）。" +:+ nl +:+
  "- 必须指定目标包名（package name）。" +:+ nl +:+
  "- 必须指定生成文件的名称。" +:+ nl +:+
  "- 可选参数：依赖注入方式（Hilt/Koin/无）、UI 框架（Compose/XML）、是否包含示例代码。" +:+ nl +:+
  nl +:+
  "【输出结果】" +:+ nl +:+
  "- 生成对应的 Kotlin、XML 或 Gradle 代码片段。" +:+ nl +:+
  "- 提供生成文件的推荐路径，确保符合 MathWallet Android 项目的目录结构。" +:+ nl +:+
  "- 返回清晰的代码说明，便于开发者直接复制到项目中使用。" +:+ nl +:+
  nl +:+
  "【使用场景】" +:+ nl +:+
  "- 在 MathWallet Android 项目中快速创建新功能模块。" +:+ nl +:+
  "- 在开发过程中避免重复手写模板代码。" +:+ nl +:+
  "- 保证代码风格和项目结构的一致性。" +:+ nl.

(** The argument of [new McpServer(...)]. *)
Definition math_info : jsv :=
  JObj [("name", JStr "math-mcp"); ("version", JStr "1.0.0");
        ("capabilities", JObj [("resources", JObj []); ("tools", JObj [])]); ("instructions", JStr math_instructions)].

Definition math_boot : server_error + server :=
  register_tool (new_McpServer math_info JUndef) createActivity_tool.

Definition MATH_BANNER : string := "MCP Server running on stdio @Xing".

(** [main().catch(...)] *)
Definition math_main (s : server) : io server := main_catch s MATH_BANNER.

(** ** The reference: every placeholder filled at once *)

(** The name of a placeholder and the text after its [}}]. *)
Fixpoint take_name (s : string) : option (string * string) :=
  match s with
  | String "}" (String "}" rest) => Some ("", rest)
  | String c s' => match take_name s' with Some (n, r) => Some (String c n, r) | None => None end
  | EmptyString => None
  end.

Definition cons_lit (c : ascii) (ts : list tseg) : list tseg :=
  match ts with
  | TLit t :: ts' => TLit (String c t) :: ts'
  | _ => TLit (String c "") :: ts
  end.

(** A text split into literal pieces and placeholders; each step eats
    at least one character, so the length of the text is enough fuel. *)
Fixpoint parse_tpl (fuel : nat) (s : string) : list tseg :=
  match fuel with
  | O => [TLit s]
  | S f =>
      match s with
      | EmptyString => []
      | String "{" (String "{" r) =>
          match take_name r with
          | Some (n, rest) => THole n :: parse_tpl f rest
          | None => cons_lit "{" (parse_tpl f (String "{" r))
          end
      | String c s' => cons_lit c (parse_tpl f s')
      end
  end.

Definition segs (s : string) : list tseg := parse_tpl (String.length s) s.

Fixpoint lookup_sub (n : string) (env : list (string * string)) : option string :=
  match env with
  | [] => None
  | (m, v) :: env' => if String.eqb n m then Some v else lookup_sub n env'
  end.

Definition fill_env (env : list (string * string)) (t : tseg) : tseg :=
  match t with
  | THole m => match lookup_sub m env with Some v => TLit v | None => t end
  | TLit _ => t
  end.

(** The template with every placeholder named in [env] replaced by its
    value, the others left as they are. *)
Definition fill_template (env : list (string * string)) (tpl : string) : string :=
  render (map (fill_env env) (segs tpl)).

(** A value that [replace] inserts verbatim and that starts no
    placeholder. *)
Definition plain (v : string) : bool := negb (has_dollar v) && no_braces v.

(** ** Lemmas *)

Lemma templates_segs :
  Forall (λ tpl, render (segs tpl) = tpl ∧ forallb seg_ok (segs tpl) = true)
    [activity_template; viewmodel_template; layout_template].
Proof. repeat constructor; vm_compute; reflexivity. Qed.

Lemma fill_env_hole env n v t : fill_env env (fill_hole n v t) = fill_env ((n, v) :: env) t.
Proof.
  destruct t as [s|m]; [done|]. cbn [fill_hole fill_env lookup_sub].
  by destruct (String.eqb m n).
Qed.

Lemma plain_brace_free v : plain v = true → brace_free v = true.
Proof. intros [_ H]%andb_true_iff. by apply no_braces_brace_free. Qed.

Lemma replace_each_render subs ts :
  Forall (λ nv, no_braces nv.1 = true ∧ plain nv.2 = true) subs → forallb seg_ok ts = true →
  replace_each (render ts) subs = render (map (fill_env subs) ts).
Proof.
  revert ts. induction subs as [|[n v] subs IH]; intros ts Hsubs Hts.
  - cbn. f_equal. induction ts as [|[] ts IHt]; [done|..]; cbn; f_equal; apply IHt;
      simpl in Hts; by apply andb_true_iff in Hts as [_ ?].
  - apply Forall_cons in Hsubs as [[Hn Hv] Hsubs]. cbn [replace_each foldl fst snd].
    apply andb_true_iff in Hv as [Hd Hb]. apply negb_true_iff in Hd.
    rewrite replace_all_render by done. fold (replace_each (render (map (fill_hole n v) ts)) subs).
    rewrite IH; [|done|by apply seg_ok_fill; [apply no_braces_brace_free|]].
    rewrite map_map. f_equal. apply map_ext. intros t. apply fill_env_hole.
Qed.

(** A chain of [replace] calls on a template fills its placeholders as
    [fill_template] does. *)
Lemma replace_each_fill tpl subs :
  render (segs tpl) = tpl → forallb seg_ok (segs tpl) = true →
  Forall (λ nv, no_braces nv.1 = true ∧ plain nv.2 = true) subs →
  replace_each tpl subs = fill_template subs tpl.
Proof. intros Hr Hok Hs. unfold fill_template. rewrite <- Hr at 1. by apply replace_each_render. Qed.

Lemma plain_app a b : plain (a +:+ b) = plain a && plain b.
Proof.
  unfold plain. rewrite has_dollar_app, no_braces_app.
  by destruct (has_dollar a), (has_dollar b), (no_braces a), (no_braces b).
Qed.

Lemma plain_toLowerCase s : plain (toLowerCase s) = plain s.
Proof. unfold plain. by rewrite has_dollar_toLowerCase, no_braces_toLowerCase. Qed.

(** ** What the handler answers *)

Definition activity_env (pkg comp bp : string) : list (string * string) :=
  [("PACKAGE", pkg); ("ACTIVITY_CLASS", comp +:+ "Activity"); ("VIEWMODEL_CLASS", comp +:+ "ViewModel");
   ("LAYOUT_NAME", "activity_" +:+ toLowerCase comp); ("BINDING_CLASS", "Activity" +:+ comp +:+ "Binding");
   ("BINDING_IMPORT", bp +:+ "." +:+ ("Activity" +:+ comp +:+ "Binding"))].

Definition viewmodel_env (pkg comp : string) : list (string * string) :=
  [("PACKAGE", pkg); ("VIEWMODEL_CLASS", comp +:+ "ViewModel")].

Definition layout_env (comp : string) : list (string * string) :=
  [("LAYOUT_NAME", "activity_" +:+ toLowerCase comp); ("VIEWMODEL_CLASS", comp +:+ "ViewModel")].

(** The three texts, each template filled from its environment. *)
Definition createActivity_answer (pkg comp bp : string) : jsv :=
  JObj [("content", JArr [text_block (fill_template (activity_env pkg comp bp) activity_template);
                          text_block (fill_template (viewmodel_env pkg comp) viewmodel_template);
                          text_block (fill_template (layout_env comp) layout_template)])].

(** The handler on an object whose three names, defaults applied, are
    plain strings. *)
Lemma createActivity_values fs pkg comp bp :
  js_or (field fs "packageName") (JStr DEFAULT_PACKAGE) = JStr pkg →
  js_or (field fs "componentName") (JStr DEFAULT_COMPONENT) = JStr comp →
  js_or (field fs "bindingPackage") (JStr DEFAULT_BINDING_PACKAGE) = JStr bp →
  plain pkg = true → plain comp = true → plain bp = true →
  createActivity_handler (JObj fs) = IoRet (createActivity_answer pkg comp bp).
Proof.
  intros Hp Hc Hb Hpp Hpc Hpb. unfold createActivity_handler, and_get. cbn [truthy].
  rewrite !get_obj. cbn [mbind js_res_bind]. rewrite Hp, Hc, Hb.
  cbn [mbind js_res_bind call_toLowerCase call_replace_all call_string_method to_string lift].
  unfold createActivity_answer. pose proof templates_segs as Ht.
  apply Forall_cons in Ht as [[Ha1 Ha2] Ht]. apply Forall_cons in Ht as [[Hv1 Hv2] Ht].
  apply Forall_cons in Ht as [[Hl1 Hl2] _].
  rewrite !replace_each_fill by (done || (repeat constructor; cbn [fst snd];
    rewrite ?plain_app, ?plain_toLowerCase, ?Hpp, ?Hpc, ?Hpb; reflexivity)).
  reflexivity.
Qed.

Lemma js_or_str s d : s ≠ "" → js_or (JStr s) d = JStr s.
Proof. intros H. unfold js_or. cbn [truthy]. by destruct (String.eqb_spec s ""). Qed.

(** C23: For non-empty plain names (no [$], no braces), the handler
    returns, with no event, exactly the three texts obtained by filling
    every placeholder of each template at once: the chain of global
    [replace] calls never rewrites a value it inserted.  The names are
    [comp + "Activity"], [comp + "ViewModel"], [activity_ + lower-cased
    comp] and [Activity + comp + Binding]. *)
Theorem createActivity_fill (o : oracle) pkg comp bp :
  pkg ≠ "" → comp ≠ "" → bp ≠ "" → plain pkg = true → plain comp = true → plain bp = true →
  run o (createActivity_handler
           (JObj [("packageName", JStr pkg); ("componentName", JStr comp); ("bindingPackage", JStr bp)]))
  = ([], JOk (createActivity_answer pkg comp bp)).
Proof.
  intros Hp Hc Hb Hpp Hpc Hpb. by rewrite (createActivity_values _ pkg comp bp); try apply js_or_str.
Qed.

Lemma createActivity_fill_witness :
  run (λ e, match e return js_res (answer e) with
            | EvFetch _ => JOk JNull | EvExec _ => JOk (mk_exec_result true "" "") | EvLog _ => JOk tt
            | EvRandom | EvNow => JOk 0%Z | EvLocalDate => JOk (mk_date 2025 7 30 9 5 0)
       | EvReadFile _ => JOk [] | EvCwd => JOk "/" | EvConnect | EvExit _ => JOk tt end)
      (createActivity_handler
         (JObj [("packageName", JStr "com.example.app"); ("componentName", JStr "Foo");
                ("bindingPackage", JStr "com.example.app.databinding")]))
  = ([], JOk (createActivity_answer "com.example.app" "Foo" "com.example.app.databinding")).
Proof. apply createActivity_fill; (discriminate || reflexivity). Defined.

Lemma layout_package_hole : In (THole "PACKAGE") (segs layout_template).
Proof. vm_compute. tauto. Qed.

(** A placeholder the environment does not name is left in the text. *)
Lemma fill_template_keeps env tpl n :
  In (THole n) (segs tpl) → lookup_sub n env = None →
  includes (fill_template env tpl) (placeholder n) = true.
Proof.
  intros Hin Hn. apply includes_render. apply in_map_iff. exists (THole n).
  split; [|done]. cbn [fill_env]. by rewrite Hn.
Qed.

(** C24: The layout text the handler returns still contains the
    placeholder [{{PACKAGE}}] (in [type="{{PACKAGE}}.{{VIEWMODEL_CLASS}}"]):
    the layout template is only filled with the layout name and the
    view-model class, never with the package. *)
Theorem layout_keeps_package fs pkg comp bp :
  js_or (field fs "packageName") (JStr DEFAULT_PACKAGE) = JStr pkg →
  js_or (field fs "componentName") (JStr DEFAULT_COMPONENT) = JStr comp →
  js_or (field fs "bindingPackage") (JStr DEFAULT_BINDING_PACKAGE) = JStr bp →
  plain pkg = true → plain comp = true → plain bp = true →
  ∃ activityCode viewModelCode layoutCode,
    createActivity_handler (JObj fs) =
      IoRet (JObj [("content", JArr [text_block activityCode; text_block viewModelCode; text_block layoutCode])]) ∧
    includes layoutCode "{{PACKAGE}}" = true.
Proof.
  intros Hp Hc Hb Hpp Hpc Hpb. rewrite (createActivity_values fs pkg comp bp) by done.
  do 3 eexists. split; [reflexivity|].
  by apply (fill_template_keeps _ _ "PACKAGE"); [apply layout_package_hole|].
Qed.

Lemma layout_keeps_package_witness :
  ∃ activityCode viewModelCode layoutCode,
    createActivity_handler (JObj [("packageName", JStr "com.example.app"); ("componentName", JStr "Foo")]) =
      IoRet (JObj [("content", JArr [text_block activityCode; text_block viewModelCode; text_block layoutCode])]) ∧
    includes layoutCode "{{PACKAGE}}" = true.
Proof. apply (layout_keeps_package _ "com.example.app" "Foo" DEFAULT_BINDING_PACKAGE); reflexivity. Defined.

(** The arguments object the empty input schema hands the handler. *)
Lemma zparse_empty fs : zparse [] (JObj fs) = inr (JObj []).
Proof. reflexivity. Qed.

Section Registered.
Context {S : Type} `{ToolHostLaws S}.

(** C25: Registered as [index.ts] does (an empty input shape), the tool
    ignores its arguments: every call with an arguments object answers,
    with no event, the three texts for the defaults [com.mathwallet.app],
    [Example] and [com.mgx.mathwallet.databinding]; a [packageName] or
    [componentName] sent by the client never reaches the handler. *)
Theorem createActivity_call_ignores_args (o : oracle) (s : S) name fs rid :
  host_lookup s name = Some createActivity_tool →
  run o (call_tool s name (JObj fs) rid)
  = ([], JOk (inr (createActivity_answer DEFAULT_PACKAGE DEFAULT_COMPONENT DEFAULT_BINDING_PACKAGE))).
Proof.
  intros Hl. rewrite (call_tool_parsed o s name (JObj fs) rid createActivity_tool [] (JObj [])) by done.
  cbn [tool_handler createActivity_tool].
  by rewrite (createActivity_values [] DEFAULT_PACKAGE DEFAULT_COMPONENT DEFAULT_BINDING_PACKAGE).
Qed.

End Registered.

Lemma createActivity_call_ignores_args_witness :
  host_lookup ([createActivity_tool] : assoc_registry) "创建一个新的 Android Activity 组件" = Some createActivity_tool ∧
  run (λ e, match e return js_res (answer e) with
            | EvFetch _ => JOk JNull | EvExec _ => JOk (mk_exec_result true "" "") | EvLog _ => JOk tt
            | EvRandom | EvNow => JOk 0%Z | EvLocalDate => JOk (mk_date 2025 7 30 9 5 0)
       | EvReadFile _ => JOk [] | EvCwd => JOk "/" | EvConnect | EvExit _ => JOk tt end)
      (call_tool ([createActivity_tool] : assoc_registry) "创建一个新的 Android Activity 组件"
         (JObj [("packageName", JStr "com.example.app"); ("componentName", JStr "Foo")]) 1)
  = ([], JOk (inr (createActivity_answer DEFAULT_PACKAGE DEFAULT_COMPONENT DEFAULT_BINDING_PACKAGE))).
Proof. split; [reflexivity|]. apply createActivity_call_ignores_args. reflexivity. Defined.

Lemma three_blocks_ok a b c :
  envelope_ok (JObj [("content", JArr [text_block a; text_block b; text_block c])]) = true.
Proof. reflexivity. Qed.

(** Every answer of the template handler is a text envelope. *)
Lemma createActivity_envelope extra : io_post (λ v, envelope_ok v = true) (createActivity_handler extra).
Proof.
  unfold createActivity_handler. apply io_post_lift_post.
  do 6 (apply js_post_bind; intros ?). apply three_blocks_ok.
Qed.

End Template.
