(* ===== verification/Courier.v ===== *)
(** * The courier-tracking server ([src/src/kuaidi100_tool.ts])

    [httpGet] awaits one [axios.get] and rethrows a failure as
    [Error("HTTP request failed: " + e.message)].  The one tool,
    [query_trace], is registered with
    [server.tool(name, description, {kuaidiNum: {...}, phone: {...}}, cb)]:
    the third argument is an object of plain JSON-schema-like records,
    not of zod types, so the SDK takes it for the tool's annotations and
    registers the tool without an input schema; the callback then
    receives the request's [extra] object, which has no [args] member.
    [query_trace_tool] is registered accordingly, with no schema. *)

From S2P Require Import Prelude JsString JsValue Io Mcp Lifecycle.
Import JsString JsValue Io Mcp Lifecycle.

Module Courier.

Definition kuaidi100ApiKey : string := "UcIntYJZ6508".
Definition kuaidi100ApiUrl : string := "https://api.kuaidi100.com/stdio/".

Definition HTTP_FAILED : string := "HTTP request failed: ".

(** [httpGet(url, params)] *)
Definition httpGet (url : string) (params : jsv) : io jsv :=
  io_catch (fetch (mk_request "GET" url [] params))
           (λ e, IoThrow (Rejected (HTTP_FAILED +:+ js_error_message e))).

Definition trace_params (kuaidiNum phone : jsv) : jsv :=
  JObj [("key", JStr kuaidi100ApiKey); ("kuaidiNum", kuaidiNum); ("phone", js_or phone (JStr ""))].

(** The callback [async ({ args }) => {...}] of [query_trace]. *)
Definition query_trace_handler (extra : jsv) : io jsv :=
  args ← lift (get extra "args");
  kuaidiNum ← lift (get args "kuaidiNum");
  phone ← lift (get args "phone");
  response ← httpGet (kuaidi100ApiUrl +:+ "queryTrace") (trace_params kuaidiNum phone);
  IoRet (text_result response).

(** The third argument is taken for annotations: no input schema. *)
Definition query_trace_tool : tool := mk_tool "query_trace" None query_trace_handler.

(** ** The server process ([src/src/kuaidi100_tool.ts])

    [new McpServer({name, version, capabilities, instructions})], the
    registration above, and [main().catch(...)]. *)

Definition kuaidi_instructions : string :=
  "查询物流轨迹服务，传入快递单号和手机号，获取对应快递的物流轨迹".

(** The argument of [new McpServer(...)]. *)
Definition kuaidi_info : jsv :=
  JObj [("name", JStr "kuaidi100-mcp"); ("version", JStr "1.0.0");
        ("capabilities", JObj [("resources", JObj []); ("tools", JObj [])]); ("instructions", JStr kuaidi_instructions)].

Definition kuaidi_boot : server_error + server :=
  register_tool (new_McpServer kuaidi_info JUndef) query_trace_tool.

Definition KUAIDI_BANNER : string := "MCP Server running on stdio @Xing".

(** [main().catch(...)] *)
Definition kuaidi_main (s : server) : io server := main_catch s KUAIDI_BANNER.

(** ** Properties *)

Lemma run_httpGet (o : oracle) url params :
  run o (httpGet url params) =
    let req := mk_request "GET" url [] params in
    ([EvFetch req], match o (EvFetch req) with
                    | JOk data => JOk data
                    | JThrow e => JThrow (Rejected (HTTP_FAILED +:+ js_error_message e))
                    end).
Proof.
  unfold httpGet. rewrite run_catch. cbn [run fetch]. rewrite run_lift.
  by destruct (o (EvFetch _)).
Qed.

(** The message of reading [kuaidiNum] of [undefined]. *)
Definition MSG_NO_ARGS : string := "Cannot read properties of undefined (reading 'kuaidiNum')".

Section Registered.
Context {S : Type} `{ToolHostLaws S}.

(** C26: Through the SDK every call of [query_trace] fails before any
    request: the callback receives the request's [extra] object, whose
    [args] is [undefined], and reading [args.kuaidiNum] throws; the
    client gets an [isError] result with the [TypeError]'s message,
    whatever arguments it sent. *)
Theorem query_trace_always_fails (o : oracle) (s : S) args rid :
  host_lookup s "query_trace" = Some query_trace_tool →
  run o (call_tool s "query_trace" args rid) = ([], JOk (inr (error_result MSG_NO_ARGS))) ∧
  client_is_error (error_result MSG_NO_ARGS) = true.
Proof.
  intros Hl. split; [|reflexivity].
  by rewrite (call_tool_no_schema o s "query_trace" args rid query_trace_tool).
Qed.

End Registered.

Lemma query_trace_always_fails_witness :
  run (λ e, match e return js_res (answer e) with
            | EvFetch _ => JOk (JStr "ok") | EvExec _ => JOk (mk_exec_result true "" "") | EvLog _ => JOk tt
            | EvRandom | EvNow => JOk 0%Z | EvLocalDate => JOk (mk_date 2025 7 30 9 5 0)
       | EvReadFile _ => JOk [] | EvCwd => JOk "/" | EvConnect | EvExit _ => JOk tt end)
      (call_tool ([query_trace_tool] : assoc_registry) "query_trace"
         (JObj [("kuaidiNum", JStr "SF1234567890"); ("phone", JStr "13800000000")]) 7)
  = ([], JOk (inr (error_result MSG_NO_ARGS))) ∧
  client_is_error (error_result MSG_NO_ARGS) = true.
Proof. apply query_trace_always_fails. reflexivity. Defined.

(** Called directly with an object whose [args] member is an object,
    the handler sends one GET to [.../queryTrace] with the API key, the
    tracking number and the phone ([""] when falsy), answers the body as
    the text, and turns a failed request into the error
    [HTTP request failed: <message>]. *)
Theorem query_trace_request (o : oracle) fs :
  let req := mk_request "GET" (kuaidi100ApiUrl +:+ "queryTrace") []
               (JObj [("key", JStr kuaidi100ApiKey); ("kuaidiNum", field fs "kuaidiNum");
                      ("phone", js_or (field fs "phone") (JStr ""))]) in
  run o (query_trace_handler (JObj [("args", JObj fs)])) =
    ([EvFetch req], match o (EvFetch req) with
                    | JOk data => JOk (text_result data)
                    | JThrow e => JThrow (Rejected (HTTP_FAILED +:+ js_error_message e))
                    end).
Proof.
  intros req. unfold query_trace_handler, mbind, io_bind_inst.
  change (get (JObj [("args", JObj fs)]) "args") with (JOk (JObj fs)).
  cbn [io_bind lift]. rewrite !get_obj. cbn [io_bind lift]. rewrite run_bind, run_httpGet. cbn zeta.
  unfold trace_params. fold req.
  by destruct (o (EvFetch req)).
Qed.

End Courier.
