(* ===== verification/DevEnv.v ===== *)
(** * The Python start-up script ([src/src/dev_environment_tool.ts])

    Not a tool server: a script that runs [python3 --version], then
    [python --version] when the first fails, logs the version found, and
    otherwise installs Python with the platform's package manager.  Shell
    commands are [EvExec] events answered with the callback arguments
    [(err, stdout, stderr)]; [os.platform()] is the parameter [platform].
    The [exec] callbacks of [installPython] are not awaited, but nothing
    follows them in the script, so their events come in the order the
    sequential program gives. *)

From S2P Require Import Prelude JsString JsValue Io.
Import JsString JsValue Io.

Module DevEnv.

Definition PY3_VERSION : string := "python3 --version".
Definition PY_VERSION : string := "python --version".
Definition MSG_NOT_FOUND : string := "Python not found".

(** [stdout || stderr] *)
Definition str_or (a b : string) : string := if String.eqb a "" then b else a.

(** [checkPython()] *)
Definition checkPython : io string :=
  r ← exec PY3_VERSION;
  if negb (exec_failed r) then IoRet (str_or (exec_stdout r) (exec_stderr r))
  else
    r2 ← exec PY_VERSION;
    if negb (exec_failed r2) then IoRet (str_or (exec_stdout r2) (exec_stderr r2))
    else IoThrow (Rejected MSG_NOT_FOUND).

Definition BREW_INSTALL : string := "brew install python3".
Definition WHICH_APT : string := "which apt-get".
Definition APT_INSTALL : string := "sudo apt-get update && sudo apt-get install -y python3 python3-pip".
Definition YUM_INSTALL : string := "sudo yum install -y python3 python3-pip".

(** [installPython()] *)
Definition installPython (platform : string) : io unit :=
  log ("当前系统: " +:+ platform);;
  if String.eqb platform "darwin" then
    log "尝试使用 Homebrew 安装 Python...";;
    r ← exec BREW_INSTALL;
    if exec_failed r then log ("安装失败: " +:+ exec_stderr r) else log ("安装完成: " +:+ exec_stdout r)
  else if String.eqb platform "linux" then
    log "尝试使用 apt 或 yum 安装 Python...";;
    r ← exec WHICH_APT;
    if negb (exec_failed r) then (_ ← exec APT_INSTALL; IoRet tt)
    else (_ ← exec YUM_INSTALL; IoRet tt)
  else if String.eqb platform "win32" then
    log "Windows 检测到未安装 Python，请使用 winget 或手动安装:";;
    log "winget install -e --id Python.Python.3"
  else log "暂不支持此平台，请手动安装 Python。".

Definition MSG_FOUND : string := "已检测到 Python 环境: ".
Definition MSG_INSTALLING : string := "未检测到 Python，开始安装...".

(** The [async] IIFE at the end of the file. *)
Definition main_script (platform : string) : io unit :=
  io_catch (version ← checkPython; log (MSG_FOUND +:+ trim version))
           (λ _, log MSG_INSTALLING;; installPython platform).

(** ** Properties *)

Definition install_commands : list string := [BREW_INSTALL; WHICH_APT; APT_INSTALL; YUM_INSTALL].

(** Whether a trace runs one of the installation commands. *)
Definition runs_install (t : list event) : bool :=
  existsb (λ e, match e with EvExec c => existsb (String.eqb c) install_commands | _ => false end) t.

(** The shell commands of a trace, in order. *)
Definition commands (t : list event) : list string :=
  omap (λ e, match e with EvExec c => Some c | _ => None end) t.

(** The installation commands [installPython] runs on a platform, given
    the answer [ra] of [which apt-get]. *)
Definition platform_commands (platform : string) (ra : exec_result) : list string :=
  if String.eqb platform "darwin" then [BREW_INSTALL]
  else if String.eqb platform "linux" then [WHICH_APT; if exec_failed ra then YUM_INSTALL else APT_INSTALL]
  else [].

(** Every shell command returns (its callback is called). *)
Definition exec_ok (o : oracle) : Prop := ∀ cmd, ∃ r, o (EvExec cmd) = JOk r.

Lemma runs_install_app t t' : runs_install (t ++ t') = runs_install t || runs_install t'.
Proof. apply existsb_app. Qed.

Lemma run_checkPython (o : oracle) r1 r2 :
  o (EvExec PY3_VERSION) = JOk r1 → o (EvExec PY_VERSION) = JOk r2 →
  run o checkPython =
    if negb (exec_failed r1) then ([EvExec PY3_VERSION], JOk (str_or (exec_stdout r1) (exec_stderr r1)))
    else if negb (exec_failed r2) then
      ([EvExec PY3_VERSION; EvExec PY_VERSION], JOk (str_or (exec_stdout r2) (exec_stderr r2)))
    else ([EvExec PY3_VERSION; EvExec PY_VERSION], JThrow (Rejected MSG_NOT_FOUND)).
Proof.
  intros H1 H2. unfold checkPython, mbind, io_bind_inst. rewrite run_bind, (run_exec _ _ _ H1).
  destruct (exec_failed r1); [|done]. cbn [negb]. rewrite run_bind, (run_exec _ _ _ H2).
  by destruct (exec_failed r2).
Qed.

Section Environment.
Context (o : oracle) (Hlog : console_ok o) (Hexec : exec_ok o).

Lemma run_exec_any cmd : ∃ r, run o (exec cmd) = ([EvExec cmd], JOk r).
Proof. destruct (Hexec cmd) as [r Hr]. exists r. by apply run_exec. Qed.

(** [installPython] runs an installation command exactly on macOS and
    Linux. *)
Lemma installPython_installs platform :
  runs_install (trace o (installPython platform)) = true ↔ platform = "darwin" ∨ platform = "linux".
Proof.
  unfold trace, installPython, mbind, io_bind_inst. rewrite run_bind, (run_log _ _ Hlog).
  destruct (String.eqb_spec platform "darwin") as [->|Hd].
  - rewrite run_bind, (run_log _ _ Hlog), run_bind. destruct (run_exec_any BREW_INSTALL) as [r ->].
    destruct (exec_failed r); rewrite (run_log _ _ Hlog); simpl; tauto.
  - destruct (String.eqb_spec platform "linux") as [->|Hl].
    + rewrite run_bind, (run_log _ _ Hlog), run_bind. destruct (run_exec_any WHICH_APT) as [r ->].
      destruct (exec_failed r); cbn [negb]; rewrite run_bind;
        [destruct (run_exec_any YUM_INSTALL) as [r' ->]|destruct (run_exec_any APT_INSTALL) as [r' ->]];
        simpl; tauto.
    + destruct (String.eqb platform "win32");
        [rewrite run_bind, !(run_log _ _ Hlog)|rewrite (run_log _ _ Hlog)]; simpl; split; [done| |done|]; tauto.
Qed.

(** The commands [installPython] runs. *)
Lemma installPython_commands platform ra :
  o (EvExec WHICH_APT) = JOk ra →
  commands (trace o (installPython platform)) = platform_commands platform ra.
Proof.
  intros Ha. unfold trace, installPython, platform_commands, mbind, io_bind_inst.
  rewrite run_bind, (run_log _ _ Hlog).
  destruct (String.eqb_spec platform "darwin") as [->|Hd].
  - rewrite run_bind, (run_log _ _ Hlog), run_bind. destruct (run_exec_any BREW_INSTALL) as [r ->].
    by destruct (exec_failed r); rewrite (run_log _ _ Hlog).
  - destruct (String.eqb_spec platform "linux") as [->|Hl].
    + rewrite run_bind, (run_log _ _ Hlog), run_bind, (run_exec _ _ _ Ha).
      destruct (exec_failed ra); cbn [negb]; rewrite run_bind;
        [destruct (run_exec_any YUM_INSTALL) as [r' ->]|destruct (run_exec_any APT_INSTALL) as [r' ->]];
        reflexivity.
    + destruct (String.eqb platform "win32");
        [rewrite run_bind, !(run_log _ _ Hlog)|rewrite (run_log _ _ Hlog)]; reflexivity.
Qed.

(** C28: The script runs an installation command if and only if both
    [python3 --version] and [python --version] fail and the platform is
    macOS or Linux; when either finds Python, or on another platform,
    nothing is installed. *)
Theorem install_iff_missing platform r1 r2 :
  o (EvExec PY3_VERSION) = JOk r1 → o (EvExec PY_VERSION) = JOk r2 →
  runs_install (trace o (main_script platform)) = true ↔
    exec_failed r1 = true ∧ exec_failed r2 = true ∧ (platform = "darwin" ∨ platform = "linux").
Proof.
  intros H1 H2. unfold trace, main_script. rewrite run_catch.
  unfold mbind, io_bind_inst. rewrite run_bind, (run_checkPython _ _ _ H1 H2).
  destruct (exec_failed r1) eqn:F1; [destruct (exec_failed r2) eqn:F2|]; cbn [negb].
  - rewrite run_bind, (run_log _ _ Hlog). destruct (run o (installPython platform)) as [ti ri] eqn:Ei.
    pose proof (installPython_installs platform) as HI. unfold trace in HI. rewrite Ei in HI.
    cbn [fst app] in HI |- *.
    change (runs_install (EvExec PY3_VERSION :: EvExec PY_VERSION :: EvLog MSG_INSTALLING :: ti))
      with (runs_install ti). rewrite HI. tauto.
  - rewrite (run_log _ _ Hlog). cbn. split; [done|]. intros (_ & [=] & _).
  - rewrite (run_log _ _ Hlog). cbn. split; [done|]. intros ([=] & _).
Qed.

(** C29: When [python3 --version] succeeds the script logs its output
    ([stdout], or [stderr] when [stdout] is empty) trimmed and runs
    nothing else; when only [python --version] succeeds it logs that
    one's output after both checks. *)
Theorem main_script_found platform r1 r2 :
  o (EvExec PY3_VERSION) = JOk r1 → o (EvExec PY_VERSION) = JOk r2 →
  (exec_failed r1 = false →
     run o (main_script platform) =
       ([EvExec PY3_VERSION; EvLog (MSG_FOUND +:+ trim (str_or (exec_stdout r1) (exec_stderr r1)))], JOk tt)) ∧
  (exec_failed r1 = true → exec_failed r2 = false →
     run o (main_script platform) =
       ([EvExec PY3_VERSION; EvExec PY_VERSION;
         EvLog (MSG_FOUND +:+ trim (str_or (exec_stdout r2) (exec_stderr r2)))], JOk tt)).
Proof.
  intros H1 H2. unfold main_script. rewrite run_catch.
  unfold mbind, io_bind_inst. rewrite run_bind, (run_checkPython _ _ _ H1 H2).
  split; [intros F1|intros F1 F2]; rewrite F1; [|rewrite F2]; cbn [negb];
    by rewrite (run_log _ _ Hlog).
Qed.

(** C31: When neither [python3 --version] nor [python --version]
    succeeds, the script runs exactly these shell commands: the two
    checks, then on macOS [brew install python3]; on Linux [which apt-get]
    followed by the [apt-get] installation when [apt-get] is found and by
    the [yum] installation otherwise; on Windows and on any other
    platform no command at all (only advice is logged). *)
Theorem install_commands_by_platform platform r1 r2 ra :
  o (EvExec PY3_VERSION) = JOk r1 → o (EvExec PY_VERSION) = JOk r2 → o (EvExec WHICH_APT) = JOk ra →
  exec_failed r1 = true → exec_failed r2 = true →
  commands (trace o (main_script platform)) =
    ([PY3_VERSION; PY_VERSION] ++
     (if String.eqb platform "darwin" then [BREW_INSTALL]
      else if String.eqb platform "linux" then [WHICH_APT; if exec_failed ra then YUM_INSTALL else APT_INSTALL]
      else []))%list.
Proof.
  intros H1 H2 Ha F1 F2. unfold trace, main_script. rewrite run_catch.
  unfold mbind, io_bind_inst. rewrite run_bind, (run_checkPython _ _ _ H1 H2), F1, F2. cbn [negb].
  rewrite run_bind, (run_log _ _ Hlog).
  pose proof (installPython_commands platform ra Ha) as HI. unfold trace in HI.
  destruct (run o (installPython platform)) as [ti ri]. cbn [fst] in HI |- *.
  unfold commands in HI |- *. cbn [app omap list_omap]. rewrite HI. reflexivity.
Qed.

End Environment.

(** An environment whose shell finds [python3] when [py3] holds and
    [python] (printing its version on [stderr], as Python 2 does) when
    [py] holds. *)
Definition dev_oracle (py3 py : bool) : oracle :=
  λ e, match e return js_res (answer e) with
       | EvExec c =>
           JOk (if String.eqb c PY3_VERSION then mk_exec_result (negb py3) "Python 3.12.1
" ""
                else if String.eqb c PY_VERSION then mk_exec_result (negb py) "" "Python 2.7.18
"
                else mk_exec_result false "" "")
       | EvFetch _ => JOk JNull
       | EvLog _ => JOk tt
       | EvRandom | EvNow => JOk 0%Z
       | EvLocalDate => JOk (mk_date 2025 7 30 9 5 0)
       | EvReadFile _ => JOk [] | EvCwd => JOk "/" | EvConnect | EvExit _ => JOk tt
       end.

Lemma dev_oracle_console py3 py : console_ok (dev_oracle py3 py).
Proof. intros msg. reflexivity. Qed.

Lemma dev_oracle_exec py3 py : exec_ok (dev_oracle py3 py).
Proof. intros cmd. eexists. reflexivity. Qed.

Lemma install_iff_missing_witness :
  runs_install (trace (dev_oracle false false) (main_script "linux")) = true ↔
    true = true ∧ true = true ∧ ("linux" = "darwin" ∨ "linux" = "linux").
Proof.
  exact (install_iff_missing (dev_oracle false false) (dev_oracle_console false false)
           (dev_oracle_exec false false) "linux" (mk_exec_result true "Python 3.12.1
" "")
           (mk_exec_result true "" "Python 2.7.18
") eq_refl eq_refl).
Defined.

Lemma main_script_found_witness :
  run (dev_oracle false true) (main_script "linux") =
    ([EvExec PY3_VERSION; EvExec PY_VERSION; EvLog (MSG_FOUND +:+ "Python 2.7.18")], JOk tt).
Proof.
  exact (proj2 (main_script_found (dev_oracle false true) (dev_oracle_console false true) "linux"
           (mk_exec_result true "Python 3.12.1
" "") (mk_exec_result false "" "Python 2.7.18
")
           eq_refl eq_refl) eq_refl eq_refl).
Defined.

Lemma install_commands_by_platform_witness :
  commands (trace (dev_oracle false false) (main_script "linux")) =
    [PY3_VERSION; PY_VERSION; WHICH_APT; APT_INSTALL].
Proof.
  exact (install_commands_by_platform (dev_oracle false false) (dev_oracle_console false false)
           (dev_oracle_exec false false) "linux" (mk_exec_result true "Python 3.12.1
" "")
           (mk_exec_result true "" "Python 2.7.18
") (mk_exec_result false "" "") eq_refl eq_refl eq_refl eq_refl eq_refl).
Defined.

End DevEnv.
