(* ===== verification/Servers.v ===== *)
(** * Properties shared by the servers

    Each server answers a tool call with a result object the client
    reads as a list of text blocks ([Mcp.envelope_ok]).  The per-handler
    lemmas ([weather_envelope], [createActivity_envelope],
    [handleGetHuochepiaoList_envelope], [handleGetSystemTime_envelope])
    follow each handler with the rules of [Io.io_post]; this file
    gathers them.  It also bounds the events of every tool handler
    ([io_events_le], with the [io_bound] tactic and the bounds of the
    shared helpers as hints), and relates each server file's top level
    ([*_boot], [*_main]) to the lifecycle of [Lifecycle]. *)

From stdpp Require Import relations.
From S2P Require Import Prelude JsString JsValue Io Mcp Lifecycle Train Binance BinanceServer Weather Template Courier.
Import JsString JsValue Io Mcp Lifecycle Train Binance BinanceServer Weather Template Courier.

Module Servers.

(** ** Event bounds of the handlers *)

Lemma fetch_le r : io_events_le 1 (fetch r).
Proof. unfold fetch. io_bound. Qed.

Lemma getBaseUrl_le : io_events_le 1 getBaseUrl.
Proof. unfold getBaseUrl, math_random. io_bound. Qed.

#[local] Hint Resolve fetch_le getBaseUrl_le : io_bound.

Lemma axiosBinanceGet_le path params : io_events_le 2 (axiosBinanceGet path params).
Proof. unfold axiosBinanceGet. io_bound. Qed.

#[local] Hint Resolve axiosBinanceGet_le : io_bound.

Lemma with_upper_symbol_le n symbol k : (∀ sym, io_events_le n (k sym)) → io_events_le n (with_upper_symbol symbol k).
Proof. intros Hk. unfold with_upper_symbol. io_bound. Qed.

#[local] Hint Extern 1 (io_events_le _ (with_upper_symbol _ _)) => apply with_upper_symbol_le; intros ? : io_bound.

Lemma handleGetHuochepiaoList_le dep arr date : io_events_le 5 (handleGetHuochepiaoList dep arr date).
Proof. unfold handleGetHuochepiaoList, after_codes, math_random, date_now, log. io_bound. Qed.

Lemma handleGetSystemTime_le : io_events_le 1 handleGetSystemTime.
Proof. unfold handleGetSystemTime, new_date. io_bound. Qed.

Lemma weather_handler_le args : io_events_le 1 (weather_handler args).
Proof. unfold weather_handler. io_bound. Qed.

Lemma httpGet_le url params : io_events_le 1 (httpGet url params).
Proof.
  unfold httpGet. rewrite <- (Nat.add_0_r 1). apply io_events_le_catch; [apply fetch_le|done].
Qed.

#[local] Hint Resolve handleGetHuochepiaoList_le handleGetSystemTime_le httpGet_le : io_bound.

(** A handler whose every returned value, in the environment [o], is a
    result of text blocks. *)
Definition answers_text (o : oracle) (m : io jsv) : Prop :=
  ∀ v, outcome o m = JOk v → envelope_ok v = true.

(** C32: In every environment, every answer the weather handler, the
    template handler, the train-ticket handler and the system-time
    handler return (on every path, errors included) is a result whose
    [content] is an array of [{type: "text", text}] blocks with string
    texts. *)
Theorem every_answer_is_text (o : oracle) :
  (∀ args, answers_text o (weather_handler args)) ∧
  (∀ extra, answers_text o (createActivity_handler extra)) ∧
  (∀ dep arr date, answers_text o (handleGetHuochepiaoList dep arr date)) ∧
  answers_text o handleGetSystemTime.
Proof.
  split; [|split; [|split]]; intros *; intros v; apply (io_post_run (λ v, envelope_ok v = true)).
  - apply weather_envelope.
  - apply createActivity_envelope.
  - apply handleGetHuochepiaoList_envelope.
  - apply handleGetSystemTime_envelope.
Qed.

Lemma every_answer_is_text_witness :
  envelope_ok (text_result (JStr (MSG_UNSUPPORTED +:+ "拉萨"))) = true.
Proof.
  exact (proj1 (every_answer_is_text (weather_oracle (JOk sunny_answer)))
           (JObj [("city", JStr "拉萨")]) _ eq_refl).
Defined.

(** ** The server processes *)

(** A server's boot registers tools named [names] and resources at
    [uris], reaching [s]; once [main()] connects, it serves. *)
Definition serves (info : jsv) (boot : server_error + server) (main : server → io server)
    (banner : string) (names uris : list string) : Prop :=
  ∃ s, boot = inr s ∧ map tool_name (srv_tools s) = names ∧ map res_uri (srv_resources s) = uris ∧
       rtc step (new_McpServer info JUndef) s ∧
       ∀ o : oracle, o EvConnect = JOk tt → console_ok o →
         run o (main s) = ([EvConnect; EvLog banner], JOk (set_phase s Serving)) ∧
         rtc step (new_McpServer info JUndef) (set_phase s Serving).

Lemma serves_booted info boot main banner names uris s :
  boot = inr s → map tool_name (srv_tools s) = names → map res_uri (srv_resources s) = uris →
  rtc step (new_McpServer info JUndef) s → srv_phase s = Starting → (∀ s, main s = main_catch s banner) →
  serves info boot main banner names uris.
Proof.
  intros Hb Hn Hu Hr Hp Hm. exists s. do 4 (split; [done|]).
  intros o Hc Hlog. rewrite Hm. by apply main_catch_serves.
Qed.

Lemma new_not_exited info : ¬ exited (new_McpServer info JUndef).
Proof. by intros [c Hc]. Qed.

Lemma register_tool_reachable info t s :
  register_tool (new_McpServer info JUndef) t = inr s → rtc step (new_McpServer info JUndef) s.
Proof. intros Ht. apply rtc_once. apply (step_tool _ t); [apply new_not_exited|exact Ht]. Qed.

(** Distinct tool names, checked by computation. *)
Ltac names_nodup := apply (bool_decide_unpack _); vm_compute; reflexivity.

Lemma train_boot_eq : train_boot = inr (booted train_info train_tools).
Proof. apply register_tools_new; [done|names_nodup]. Qed.

Definition binance_capabilities : jsv :=
  JObj [("tools", JObj [("listChanged", JBool true)]); ("resources", JObj [("listChanged", JBool true)])].

(** The Binance server after its top level. *)
Definition binance_booted : server :=
  mk_server binance_info JUndef binance_capabilities binanceGetToolList true [financial_pdf] true Starting.

Lemma binance_boot_eq : binance_boot = inr binance_booted.
Proof. unfold binance_boot. rewrite register_tools_new; [reflexivity|done|names_nodup]. Qed.

Lemma weather_boot_eq : weather_boot = inr (booted weather_info [weather_tool]).
Proof. reflexivity. Qed.

Lemma kuaidi_boot_eq : kuaidi_boot = inr (booted kuaidi_info [query_trace_tool]).
Proof. reflexivity. Qed.

Lemma math_boot_eq : math_boot = inr (booted math_info [createActivity_tool]).
Proof. reflexivity. Qed.

(** Each server's state after its top level is reachable from its
    construction. *)
(** C35: Every server of the repository starts: its top level registers
    its tools (and the Binance server its resource) without error,
    reaching a state of the lifecycle, and when the transport connects,
    [main()] logs its banner and the server is serving, with exactly
    these tools: the train-ticket server [query_train_tickets_list] and
    [get_current_system_time]; the Binance server its eight tools in the
    order of [binanceGetToolList] and the resource
    [file://../../data/financial1.pdf]; the weather, courier and template
    servers their one tool each. *)
Theorem servers_start :
  serves train_info train_boot train_main TRAIN_BANNER
    ["query_train_tickets_list"; "get_current_system_time"] [] ∧
  serves binance_info binance_boot binance_main BINANCE_BANNER
    ["getCryptoPrice"; "binanceRecentTrades"; "binanceAvgPrice"; "binanceBookTicker";
     "binanceTicker24hr"; "binanceTradingDay"; "binanceTickerPrice"; "binanceTicker"] [PDF_URI] ∧
  serves weather_info weather_boot weather_main WEATHER_BANNER ["get_weather_by_city"] [] ∧
  serves kuaidi_info kuaidi_boot kuaidi_main KUAIDI_BANNER ["query_trace"] [] ∧
  serves math_info math_boot math_main MATH_BANNER [tool_name createActivity_tool] [].
Proof.
  split; [|split; [|split; [|split]]].
  - apply (serves_booted _ _ _ _ _ _ _ train_boot_eq); try reflexivity.
    apply (register_tools_steps _ train_tools); [apply new_not_exited|exact train_boot_eq].
  - apply (serves_booted _ _ _ _ _ _ _ binance_boot_eq); try reflexivity.
    apply binance_boot_reachable, binance_boot_eq.
  - apply (serves_booted _ _ _ _ _ _ _ weather_boot_eq); try reflexivity.
    apply (register_tool_reachable _ weather_tool), weather_boot_eq.
  - apply (serves_booted _ _ _ _ _ _ _ kuaidi_boot_eq); try reflexivity.
    apply (register_tool_reachable _ query_trace_tool), kuaidi_boot_eq.
  - apply (serves_booted _ _ _ _ _ _ _ math_boot_eq); try reflexivity.
    apply (register_tool_reachable _ createActivity_tool), math_boot_eq.
Qed.

(** Each server's [McpServer] argument, its top level, and the
    capabilities its registrations install. *)
Definition announced : list (jsv * (server_error + server) * list (string * jsv)) :=
  [(train_info, train_boot, [("tools", JObj [("listChanged", JBool true)])]);
   (binance_info, binance_boot, [("tools", JObj [("listChanged", JBool true)]);
                                 ("resources", JObj [("listChanged", JBool true)])]);
   (weather_info, weather_boot, [("tools", JObj [("listChanged", JBool true)])]);
   (kuaidi_info, kuaidi_boot, [("tools", JObj [("listChanged", JBool true)])]);
   (math_info, math_boot, [("tools", JObj [("listChanged", JBool true)])])].

(** C36: None of the servers sends its instructions: each passes
    [instructions] (and [capabilities]) inside the first argument of
    [new McpServer], which the SDK keeps as [serverInfo]; the answer to
    [initialize] therefore has no [instructions] member, carries the
    whole object as [serverInfo], and announces only the capabilities
    the registrations installed ([tools], and [resources] for the
    Binance server), not the [resources] capability the object lists. *)
Theorem instructions_not_sent version :
  Forall (λ '(info, boot, caps),
            ∃ s instr fs, boot = inr s ∧ opt_get info "instructions" = JOk (JStr instr) ∧ instr ≠ "" ∧
              initialize_result s version = JObj fs ∧ field fs "instructions" = JUndef ∧
              field fs "serverInfo" = info ∧ field fs "capabilities" = JObj caps)
    announced.
Proof.
  unfold announced. rewrite train_boot_eq, binance_boot_eq, weather_boot_eq, kuaidi_boot_eq, math_boot_eq.
  repeat constructor; do 3 eexists; (split; [reflexivity|]); (split; [reflexivity|]);
    (split; [discriminate|]); (split; [reflexivity|]); repeat split.
Qed.

(** The event bounds of the tool handlers. *)
Lemma handler_bounds input :
  io_events_le 5 (tool_handler huochepiao_tool input) ∧
  io_events_le 1 (tool_handler systime_tool input) ∧
  Forall (λ t, io_events_le 2 (tool_handler t input)) binanceGetToolList ∧
  io_events_le 1 (tool_handler weather_tool input) ∧
  io_events_le 1 (tool_handler query_trace_tool input) ∧
  io_events_le 0 (tool_handler createActivity_tool input).
Proof.
  split; [cbn [tool_handler huochepiao_tool]; io_bound|].
  split; [cbn [tool_handler systime_tool]; io_bound|].
  split; [|split; [apply weather_handler_le|split; [cbn [tool_handler query_trace_tool]; unfold query_trace_handler; io_bound|apply io_events_le_lift]]].
  unfold binanceDepth, fetchBinanceTrades, avgPrice, binanceBookTicker, ticker24hr, binanceTradingDay,
    binanceTickerPrice, binanceTicker.
  repeat constructor; cbn [tool_handler getCryptoPrice binanceRecentTradesTool binanceAvgPriceTool
    binanceBookTickerTool binanceTicker24hrTool binanceTradingDayTool binanceTickerPriceTool binanceTickerTool];
    unfold binanceDepth, fetchBinanceTrades, avgPrice, binanceBookTicker, ticker24hr, binanceTradingDay,
      binanceTickerPrice, binanceTicker; io_bound.
Qed.

(** Every tool of the repository with the number of events its handler
    may await. *)
Definition tool_bounds : list (tool * nat) :=
  [(huochepiao_tool, 5%nat); (systime_tool, 1%nat)] ++
  map (λ t, (t, 2%nat)) binanceGetToolList ++
  [(weather_tool, 1%nat); (query_trace_tool, 1%nat); (createActivity_tool, 0%nat)].

(** C37: Termination of every tool call: in every environment each
    handler settles after at most a fixed number of awaited events:
    five for the train-ticket search ([Math.random()], the code request,
    [Date.now()], [console.log], the search request), one for the
    system-time tool ([new Date()]), two for each Binance tool
    ([Math.random()] and the request), one for the weather and courier
    tools (the request), none for the template tool. *)
Theorem tool_handlers_bounded input :
  Forall (λ tn, io_events_le tn.2 (tool_handler tn.1 input)) tool_bounds.
Proof.
  destruct (handler_bounds input) as (Hh & Hs & Hb & Hw & Hq & Hm).
  unfold tool_bounds. rewrite !Forall_app, Forall_fmap. split; [by repeat constructor|].
  split; [by eapply Forall_impl; [exact Hb|]|by repeat constructor].
Qed.

End Servers.
